(** * finetune-transformer-lm: a shallow embedding of [train.py]

    The development follows the layout of the source file: numeric kernels,
    the shape discipline of the attention sublayer and of the transformer
    block, the language-model head and the training loss, batched
    evaluation, the ROCStories input transformation, parameter transfer,
    and the training loop with its best-parameter checkpoint.  These are
    followed by the values that the activation functions, the layer
    normalisation, the head split, the dense layers and the attention
    compute, by what the model reads from the transformed input, the
    logged metrics and the predictions, the embedding table, the
    classification head, the shapes of the whole model, and the rows of
    the submission file.

    Conventions.  Tensor entries are real numbers ([R]); rounding of the
    32-bit floats of the original is not modelled, except for the logits
    that [iter_apply] multiplies by the batch size before they are
    compared: these are IEEE 754 binary32 values with the rounded product.
    Validation accuracies, costs, and indicator or logit values that are
    only compared with each other, without arithmetic, are rationals
    ([Q]), so that the functions using them compute.  Python
    integers are [Z]; list positions and lengths are [nat].  Code that may
    raise returns a [result].  The graph operations of the tensor library
    and the helpers imported from [utils] are modelled by what they do to
    values or to static shapes. *)

From Stdlib Require Import String Bool ZArith QArith Qminmax Reals Lra Lia List.
From Stdlib Require Import SpecFloat.
Import ListNotations.

Set Implicit Arguments.

(* ================================================================== *)
(** * Part I: definitions                                              *)
(* ================================================================== *)

(** ** Python and numpy list primitives *)

Module Py.

(** [x[:n]] for a Python integer [n]: a negative bound counts from the
    end of the list, and bounds outside the list are clipped. *)
Definition slice_to {A : Type} (x : list A) (n : Z) : list A :=
  if (n <? 0)%Z
  then firstn (length x - Z.to_nat (- n)) x
  else firstn (Z.to_nat n) x.

(** [x[1:]]. *)
Definition slice_from1 {A : Type} (x : list A) : list A := tl x.

(** [x[:-1]]. *)
Definition slice_to_last {A : Type} (x : list A) : list A := removelast x.

(** [zip(a, b)], which stops at the shorter argument. *)
Definition zip {A B : Type} (a : list A) (b : list B) : list (A * B) :=
  combine a b.

(** Elementwise binary operation on two tensors of the same shape. *)
Fixpoint map2 {A B C : Type} (f : A -> B -> C) (a : list A) (b : list B)
  : list C :=
  match a, b with
  | x :: a', y :: b' => f x y :: map2 f a' b'
  | _, _ => []
  end.

(** Errors that the modelled code can raise. *)
Inductive error : Type :=
| AssertionError
| ZeroDivisionError
| KeyError
| ValueError
| IndexError
| FileNotFoundError
| OverflowError.

Definition result (A : Type) : Type := (error + A)%type.
Definition ok {A : Type} (a : A) : result A := inr a.
Definition raise {A : Type} (e : error) : result A := inl e.
Definition bind {A B : Type} (m : result A) (k : A -> result B) : result B :=
  match m with
  | inl e => inl e
  | inr a => k a
  end.

Definition raises {A : Type} (m : result A) : Prop :=
  exists e, m = inl e.

End Py.

Notation "x <- m ;; k" := (Py.bind m (fun x => k))
  (at level 61, m at next level, right associativity).

(** ** Numeric kernels (values) *)

Module Kernels.
Local Open Scope R_scope.

(** A tensor seen through its flattened list of entries; the operations
    below are the elementwise ones that [gelu] is written with. *)
Definition tensor := list R.

Definition tf_pow (x : tensor) (k : nat) : tensor := map (fun v => v ^ k) x.
Definition tf_tanh (x : tensor) : tensor := map tanh x.
Definition scal_mul (c : R) (x : tensor) : tensor := map (Rmult c) x.
Definition scal_add (c : R) (x : tensor) : tensor := map (Rplus c) x.
Definition t_add (x y : tensor) : tensor := Py.map2 Rplus x y.
Definition t_mul (x y : tensor) : tensor := Py.map2 Rmult x y.

(** [gelu], line 22:
    [0.5*x*(1+tf.tanh(math.sqrt(2/math.pi)*(x+0.044715*tf.pow(x, 3))))]. *)
Definition gelu (x : tensor) : tensor :=
  t_mul (scal_mul 0.5 x)
        (scal_add 1
           (tf_tanh (scal_mul (sqrt (2 / PI))
                       (t_add x (scal_mul 0.044715 (tf_pow x 3)))))).

(** Matrices are lists of rows. *)
Definition matrix := list (list R).

Definition entry (w : matrix) (i j : nat) : R := nth j (nth i w []) 0.

Definition square (n : nat) (w : matrix) : Prop :=
  length w = n /\ Forall (fun row => length row = n) w.

(** [tf.matrix_band_part(tf.ones([n, n]), -1, 0)]: the lower triangle,
    diagonal included, of the all-ones matrix. *)
Definition band_lower (n : nat) : matrix :=
  map (fun i => map (fun j => if (j <=? i)%nat then 1 else 0) (seq 0 n))
      (seq 0 n).

Definition mat_map2 (f : R -> R -> R) (a b : matrix) : matrix :=
  Py.map2 (Py.map2 f) a b.

(** The constant written [-1e9] in the source. *)
Definition neg_big : R := -1e9.

(** [w*b + -1e9*(1-b)] on one [n] by [n] slice of the logits. *)
Definition mask_slice (n : nat) (w : matrix) : matrix :=
  let b := band_lower n in
  mat_map2 Rplus
    (mat_map2 Rmult w b)
    (map (map (fun v => neg_big * (1 - v))) b).

(** [mask_attn_weights], line 66.  The leading axes of [w] are flattened
    into a list of [n] by [n] slices; [b] is broadcast over them. *)
Definition mask_attn_weights (n : nat) (w : list matrix) : list matrix :=
  map (mask_slice n) w.

Definition Rsum (l : list R) : R := fold_right Rplus 0 l.

(** [tf.nn.softmax] along the last axis. *)
Definition softmax_row (row : list R) : list R :=
  let z := Rsum (map exp row) in
  map (fun v => exp v / z) row.

Definition softmax (w : matrix) : matrix := map softmax_row w.

(** Machine epsilon of the 32-bit floats the tensors are stored in. *)
Definition float32_eps : R := / 2 ^ 23.

End Kernels.

(** ** Shapes: construction of the attention sublayer and of a block *)

Module Shape.
Local Open Scope Z_scope.

(** The static shape of a tensor, as [shape_list] returns it when every
    dimension is known at graph-construction time. *)
Definition shape : Type := list Z.

Definition prod (s : shape) : Z := fold_right Z.mul 1 s.

(** [shape_list(x)[-1]]. *)
Definition last_dim (s : shape) : Py.result Z :=
  match rev s with
  | [] => Py.raise Py.IndexError
  | d :: _ => Py.ok d
  end.

Fixpoint shape_eqb (a b : shape) : bool :=
  match a, b with
  | [], [] => true
  | x :: a', y :: b' => (x =? y) && shape_eqb a' b'
  | _, _ => false
  end.

(** [tf.reshape(x, new)] on a tensor of shape [s]: at most one entry of
    [new] is [-1] and is inferred, no entry is below [-1], and the number
    of elements is preserved. *)
Definition tf_reshape (s new : shape) : Py.result shape :=
  if existsb (fun d => d <? -1) new then Py.raise Py.ValueError else
  match List.length (filter (Z.eqb (-1)) new) with
  | O => if prod new =? prod s then Py.ok new else Py.raise Py.ValueError
  | S O =>
      let known := prod (filter (fun d => negb (d =? -1)) new) in
      if (known =? 0) || negb (prod s mod known =? 0)
      then Py.raise Py.ValueError
      else Py.ok (map (fun d => if d =? -1 then prod s / known else d) new)
  | _ => Py.raise Py.ValueError
  end.

(** [tf.matmul(a, b)]: matrices in the last two axes, equal leading
    axes. *)
Definition tf_matmul (a b : shape) : Py.result shape :=
  match rev a, rev b with
  | ka :: ma :: la, nb :: kb :: lb =>
      if (ka =? kb) && shape_eqb la lb
      then Py.ok (rev la ++ [ma; nb])
      else Py.raise Py.ValueError
  | _, _ => Py.raise Py.ValueError
  end.

(** Broadcasting of two shapes, aligned at the last axis. *)
Fixpoint broadcast_rev (a b : shape) : Py.result shape :=
  match a, b with
  | [], _ => Py.ok b
  | _, [] => Py.ok a
  | x :: a', y :: b' =>
      d <- (if x =? y then Py.ok x
            else if x =? 1 then Py.ok y
            else if y =? 1 then Py.ok x
            else Py.raise Py.ValueError) ;;
      r <- broadcast_rev a' b' ;;
      Py.ok (d :: r)
  end.

Definition broadcast (a b : shape) : Py.result shape :=
  r <- broadcast_rev (rev a) (rev b) ;;
  Py.ok (rev r).

(** [tf.split(c, 3, 2)]: three equal parts along axis 2. *)
Definition tf_split3 (c : shape) : Py.result (shape * shape * shape) :=
  match c with
  | d0 :: d1 :: d2 :: rest =>
      if d2 mod 3 =? 0
      then let p := d0 :: d1 :: d2 / 3 :: rest in Py.ok (p, p, p)
      else Py.raise Py.ValueError
  | _ => Py.raise Py.ValueError
  end.

(** [tf.transpose(x, perm)]: [perm] names every axis once; the code uses
    the permutations [0, 2, 1, 3] and [0, 2, 3, 1] of four axes. *)
Definition tf_transpose (s : shape) (perm : list nat) : Py.result shape :=
  if (List.length perm =? List.length s)%nat
  then Py.ok (map (fun i => nth i s 0) perm)
  else Py.raise Py.ValueError.

(** [tf.reduce_mean(x, axis=[-1], keep_dims=True)]. *)
Definition reduce_mean_keep (s : shape) : Py.result shape :=
  match rev s with
  | [] => Py.raise Py.ValueError
  | _ :: l => Py.ok (rev l ++ [1])
  end.

(** The configuration values that the block reads. *)
Record params : Type := Params {
  n_head : Z;
  afn : string;
  attn_pdrop : Q;
  resid_pdrop : Q
}.

(** [dropout], line 60; [tf.nn.dropout] rejects a keep probability
    outside (0, 1]. *)
Definition dropout (x : shape) (pdrop : Q) (train : bool) : Py.result shape :=
  if train && negb (Qle_bool pdrop 0)
  then if negb (Qle_bool (1 - pdrop) 0) && Qle_bool (1 - pdrop) 1
       then Py.ok x
       else Py.raise Py.ValueError
  else Py.ok x.

(** [_norm] and [norm], lines 42 to 57. *)
Definition norm (x : shape) : Py.result shape :=
  n_state <- last_dim x ;;
  u <- reduce_mean_keep x ;;
  xu <- broadcast x u ;;
  s <- reduce_mean_keep xu ;;
  x1 <- broadcast xu s ;;
  x2 <- broadcast x1 [n_state] ;;
  broadcast x2 [n_state].

(** [mask_attn_weights], line 66. *)
Definition mask_attn_weights (w : shape) : Py.result shape :=
  n <- last_dim w ;;
  b <- tf_reshape [n; n] [1; 1; n; n] ;;
  wb <- broadcast w b ;;
  broadcast wb b.

(** [split_states], line 74; [m//n] raises when [n] is zero. *)
Definition split_states (x : shape) (n : Z) : Py.result shape :=
  m <- last_dim x ;;
  if n =? 0 then Py.raise Py.ZeroDivisionError
  else tf_reshape x (removelast x ++ [n; m / n]).

(** [merge_states], line 81. *)
Definition merge_states (x : shape) : Py.result shape :=
  let k := (List.length x - 2)%nat in
  tf_reshape x (firstn k x ++ [prod (skipn k x)]).

(** [split_heads], line 87. *)
Definition split_heads (x : shape) (n : Z) (k : bool) : Py.result shape :=
  s <- split_states x n ;;
  if k then tf_transpose s [0; 2; 3; 1]%nat
  else tf_transpose s [0; 2; 1; 3]%nat.

(** [merge_heads], line 94. *)
Definition merge_heads (x : shape) : Py.result shape :=
  t <- tf_transpose x [0; 2; 1; 3]%nat ;;
  merge_states t.

(** [conv1d] with [rf = 1], line 98. *)
Definition conv1d (x : shape) (nf : Z) : Py.result shape :=
  nx <- last_dim x ;;
  xr <- tf_reshape x [-1; nx] ;;
  wr <- tf_reshape [1; nx; nf] [-1; nf] ;;
  m <- tf_matmul xr wr ;;
  mb <- broadcast m [nf] ;;
  tf_reshape mb (removelast x ++ [nf]).

(** [act_fns[self.params["afn"]]], line 29. *)
Definition act_fns (name : string) : Py.result (shape -> shape) :=
  if String.eqb name "relu" then Py.ok (fun s => s)
  else if String.eqb name "swish" then Py.ok (fun s => s)
  else if String.eqb name "gelu" then Py.ok (fun s => s)
  else Py.raise Py.KeyError.

Section Model.
Variable cfg : params.

(** [_attn], line 200; the scaling and the softmax keep the shape. *)
Definition _attn (q k v : shape) (train : bool) : Py.result shape :=
  w <- tf_matmul q k ;;
  w <- mask_attn_weights w ;;
  w <- dropout w (attn_pdrop cfg) train ;;
  tf_matmul w v.

(** [attn], line 213; the remainder [n_state % n_head] raises when
    [n_head] is zero. *)
Definition attn (x : shape) (n_state n_head : Z) (train : bool)
  : Py.result shape :=
  if n_head =? 0 then Py.raise Py.ZeroDivisionError else
  if negb (n_state mod n_head =? 0) then Py.raise Py.AssertionError else
  c <- conv1d x (n_state * 3) ;;
  qkv <- tf_split3 c ;;
  let '(q, k, v) := qkv in
  q <- split_heads q n_head false ;;
  k <- split_heads k n_head true ;;
  v <- split_heads v n_head false ;;
  a <- _attn q k v train ;;
  a <- merge_heads a ;;
  a <- conv1d a n_state ;;
  dropout a (resid_pdrop cfg) train.

(** [mlp], line 227. *)
Definition mlp (x : shape) (n_state : Z) (train : bool) : Py.result shape :=
  nx <- last_dim x ;;
  act <- act_fns (afn cfg) ;;
  h <- conv1d x n_state ;;
  h2 <- conv1d (act h) nx ;;
  dropout h2 (resid_pdrop cfg) train.

(** [block], line 236. *)
Definition block (x : shape) (train : bool) : Py.result shape :=
  nx <- last_dim x ;;
  a <- attn x nx (n_head cfg) train ;;
  xa <- broadcast x a ;;
  n <- norm xa ;;
  m <- mlp n (nx * 4) train ;;
  nm <- broadcast n m ;;
  norm nm.

End Model.

End Shape.

(** ** The language-model head and the training loss *)

Module Head.
Local Open Scope R_scope.

Definition Rsum : list R -> R := Kernels.Rsum.

(** [tf.reduce_mean] of a vector. *)
Definition reduce_mean (l : list R) : R := Rsum l / INR (List.length l).

Definition dot (a b : list R) : R := Rsum (Py.map2 Rmult a b).

(** Logits of one position: its hidden state against every row of the
    embedding table. *)
Definition position_logits (we : list (list R)) (hidden : list R) : list R :=
  map (dot hidden) we.

(** [tf.matmul(x, we, transpose_b=True)]: entry [(r, v)] is the inner
    product of row [r] of [x] and row [v] of [we]. *)
Definition matmul_transpose_b (x we : list (list R)) : list (list R) :=
  map (position_logits we) x.

(** [tf.nn.sparse_softmax_cross_entropy_with_logits] on one row. *)
Definition cross_entropy (logits : list R) (label : nat) : R :=
  - ln (nth label (Kernels.softmax_row logits) 0).

(** Cuts a flat list into [rows] consecutive pieces of [cols] entries. *)
Fixpoint chunks {A : Type} (rows cols : nat) (l : list A) : list (list A) :=
  match rows with
  | O => []
  | S rows' => firstn cols l :: chunks rows' cols (skipn cols l)
  end.

(** [tf.reshape(l, [rows, cols])] of a vector; the sizes must agree. *)
Definition reshape2 {A : Type} (rows cols : nat) (l : list A)
  : Py.result (list (list A)) :=
  if (List.length l =? rows * cols)%nat
  then Py.ok (chunks rows cols l)
  else Py.raise Py.ValueError.

(** Lines 266 to 271 of [model].  [h] holds, per sequence, the hidden
    state of each of the [n_ctx] positions; [we] is the embedding table;
    [X] holds per sequence the pairs (token id, position id); [M] is the
    attention mask. *)
Definition lm_losses (n_ctx : nat) (h : list (list (list R)))
           (we : list (list R)) (X : list (list (nat * nat)))
           (M : list (list R)) : Py.result (list R) :=
  let lm_h := concat (map Py.slice_to_last h) in
  let lm_logits := matmul_transpose_b lm_h we in
  let labels := concat (map (fun x => map fst (Py.slice_from1 x)) X) in
  let losses := Py.map2 cross_entropy lm_logits labels in
  losses2 <- reshape2 (List.length X) (n_ctx - 1) losses ;;
  Py.ok (Py.map2 (fun ls m =>
                    Rsum (Py.map2 Rmult ls (Py.slice_from1 m))
                    / Rsum (Py.slice_from1 m))
                 losses2 M).

(** Lines 298 to 301 of [mgpu_train]: the loss handed to [tf.gradients]. *)
Definition train_loss (lm_coef : R) (clf_losses lm_losses : list R) : R :=
  if Rlt_dec 0 lm_coef
  then reduce_mean clf_losses + lm_coef * reduce_mean lm_losses
  else reduce_mean clf_losses.

Section Replicas.
(** One example [(x, m, y)] of the training minibatch; splitting the three
    input tensors along the batch axis splits the list of examples. *)
Variable Example : Type.
(** [self.model] with [train=True] on one shard: classification
    logits, classification losses and language-model losses. *)
Variable model : list Example -> list (list R) * list R * list R.

(** [tf.split(x, n_gpu, 0)]: [n_gpu] shards of equal size. *)
Definition tf_split (n_gpu : nat) (x : list Example)
  : Py.result (list (list Example)) :=
  match n_gpu with
  | O => Py.raise Py.ValueError
  | _ =>
      if (List.length x mod n_gpu =? 0)%nat
      then Py.ok (chunks n_gpu (List.length x / n_gpu) x)
      else Py.raise Py.ValueError
  end.

(** The loop of [mgpu_train], lines 293 to 307, reduced to the losses
    whose gradients the replicas take. *)
Definition replica_losses (lm_coef : R) (n_gpu : nat) (xs : list Example)
  : Py.result (list R) :=
  shards <- tf_split n_gpu xs ;;
  Py.ok (map (fun shard =>
                let '(_, clf_losses, lm_losses) := model shard in
                train_loss lm_coef clf_losses lm_losses)
             shards).

End Replicas.

End Head.

(** ** 32-bit floats *)

Module F32.

(** An IEEE 754 binary32 value: 24 bits of precision, exponents up to
    128. *)
Definition float32 : Type := spec_float.
Definition prec : Z := 24.
Definition emax : Z := 128.

(** The rounded product of two 32-bit floats. *)
Definition mul (x y : float32) : float32 := SFmul prec emax x y.

(** A Python integer converted to a 32-bit float, rounded to nearest. *)
Definition of_int (n : Z) : float32 := binary_normalize prec emax n 0 false.

Definition leb (x y : float32) : bool := SFleb x y.

Definition is_nan (x : float32) : bool :=
  match x with
  | S754_nan => true
  | _ => false
  end.

(** [np.argmax] of one row of floats: the scan replaces the running
    maximum by an entry that is not below or equal to it, and stops at
    the first NaN. *)
Fixpoint argmax_from (best : float32) (best_i i : nat) (row : list float32)
  : nat :=
  match row with
  | [] => best_i
  | x :: row' =>
      if negb (leb x best)
      then if is_nan x then i else argmax_from x i (S i) row'
      else argmax_from best best_i (S i) row'
  end.

Definition argmax_row (row : list float32) : nat :=
  match row with
  | [] => 0%nat
  | x :: row' => if is_nan x then 0%nat else argmax_from x 0 1 row'
  end.

(** [np.argmax(x, 1)]. *)
Definition argmax (x : list (list float32)) : list nat := map argmax_row x.

End F32.

(** ** Batched evaluation *)

Module Eval.
Local Open Scope Q_scope.

(** [np.argmax] of one row: the position of the first largest entry. *)
Fixpoint argmax_from (best : Q) (best_i i : nat) (row : list Q) : nat :=
  match row with
  | [] => best_i
  | x :: row' =>
      if negb (Qle_bool x best)
      then argmax_from x i (S i) row'
      else argmax_from best best_i (S i) row'
  end.

Definition argmax_row (row : list Q) : nat :=
  match row with
  | [] => 0%nat
  | x :: row' => argmax_from x 0 1 row'
  end.

(** [np.argmax(x, 1)]. *)
Definition argmax (x : list (list Q)) : list nat := map argmax_row x.

(** [accuracy_score(y_true, y_pred)]: the fraction of agreeing labels. *)
Definition accuracy_score (y_true y_pred : list nat) : Q :=
  inject_Z (Z.of_nat (List.length
              (filter (fun p => Nat.eqb (fst p) (snd p))
                      (Py.zip y_true y_pred))))
  / inject_Z (Z.of_nat (List.length y_true)).

(** [r * n] for an array [r] of 32-bit logits and the batch size [n]:
    every entry is multiplied by [n], converted to a 32-bit float, and
    the product is rounded. *)
Definition scale_rows (n : nat) (r : list (list F32.float32))
  : list (list F32.float32) :=
  map (map (fun v => F32.mul v (F32.of_int (Z.of_nat n)))) r.

(** Whether multiplying the entries of a row by [n] keeps which of them
    are NaN and how any two of them compare. *)
Definition order_kept (n : nat) (row : list F32.float32) : bool :=
  let scaled := fun v => F32.mul v (F32.of_int (Z.of_nat n)) in
  forallb (fun x =>
             Bool.eqb (F32.is_nan (scaled x)) (F32.is_nan x)
             && forallb (fun y => Bool.eqb (F32.leb (scaled x) (scaled y))
                                           (F32.leb x y)) row)
          row.

Definition Qsum (l : list Q) : Q := fold_right Qplus 0 l.

Section IterApply.
(** One example [(x, m, y)] of a data set. *)
Variable Example : Type.
(** [self.n_batch_train]. *)
Variable n_batch_train : nat.
(** [sess.run] of the multi-device graph and of the single-device
    graph on one minibatch: classification logits, one row of 32-bit
    floats per example, and the mean classification loss. *)
Variable eval_mgpu : list Example -> list (list F32.float32) * Q.
Variable eval_single : list Example -> list (list F32.float32) * Q.

(** The graph that [iter_apply] runs on a minibatch, lines 342 to 346. *)
Definition run_graph (mb : list Example) : list (list F32.float32) * Q :=
  if (List.length mb =? n_batch_train)%nat then eval_mgpu mb else eval_single mb.

(** Body of the loop of [iter_apply]: [res = [r * n for r in res]]. *)
Definition scaled_result (mb : list Example) : list (list F32.float32) * Q :=
  let n := List.length mb in
  let res := run_graph mb in
  (scale_rows n (fst res), inject_Z (Z.of_nat n) * snd res).

(** [iter_apply], line 337, on the minibatches that [iter_data]
    yields.  Without any minibatch the returned list is empty and the
    unpacking [logits, cost = ...] in the caller raises. *)
Definition iter_apply (batches : list (list Example))
  : Py.result (list (list F32.float32) * Q) :=
  match batches with
  | [] => Py.raise Py.ValueError
  | _ =>
      let results := map scaled_result batches in
      Py.ok (concat (map fst results), Qsum (map snd results))
  end.

(** The logits the graphs compute, before any scaling. *)
Definition true_logits (batches : list (list Example))
  : list (list F32.float32) :=
  concat (map (fun mb => fst (run_graph mb)) batches).

End IterApply.

End Eval.

(** ** The ROCStories input transformation *)

Module Data.

(** The fields of the model that [transform_roc] reads. *)
Record config : Type := Config {
  n_ctx : Z;        (* self.params["n_ctx"] *)
  max_len : Z;      (* self.max_len *)
  n_vocab : Z;      (* self.n_vocab *)
  n_special : Z;    (* self.n_special *)
  start : Z;        (* self.encoder['_start_'] *)
  delimiter : Z;    (* self.encoder['_delimiter_'] *)
  clf_token : Z     (* self.clf_token *)
}.

(** [[start] + x1[:max_len] + [delimiter] + x2[:max_len] + [clf_token]],
    lines 381 and 382. *)
Definition sequence (cfg : config) (x1 x2 : list Z) : list Z :=
  [start cfg] ++ Py.slice_to x1 (max_len cfg) ++ [delimiter cfg]
  ++ Py.slice_to x2 (max_len cfg) ++ [clf_token cfg].

(** numpy's [row[:l] = vals] for a list [vals]: the slice is clipped to
    the row, a list of one element is broadcast, and any other list must
    have exactly as many elements as the slice. *)
Definition assign_prefix {A : Type} (row : list A) (l : nat) (vals : list A)
  : Py.result (list A) :=
  let k := Nat.min l (List.length row) in
  match vals with
  | [v] => Py.ok (repeat v k ++ skipn k row)
  | _ =>
      if (List.length vals =? k)%nat
      then Py.ok (vals ++ skipn k row)
      else Py.raise Py.ValueError
  end.

(** Whether a Python integer can be stored in an [int32] array. *)
Definition in_int32 (v : Z) : bool :=
  (- 2 ^ 31 <=? v)%Z && (v <? 2 ^ 31)%Z.

(** [row[:l] = vals] on a row of the [int32] array [xmb]: numpy first
    converts the list to the type of the array, which raises
    [OverflowError] on an integer outside it, and then assigns. *)
Definition store_tokens (row : list Z) (l : nat) (vals : list Z)
  : Py.result (list Z) :=
  if forallb in_int32 vals then assign_prefix row l vals
  else Py.raise Py.OverflowError.

(** numpy's [row[:l] = v] for a scalar [v]. *)
Definition fill_prefix {A : Type} (row : list A) (l : nat) (v : A) : list A :=
  let k := Nat.min l (List.length row) in
  repeat v k ++ skipn k row.

Fixpoint for_each {A B : Type} (f : A -> Py.result B) (l : list A)
  : Py.result (list B) :=
  match l with
  | [] => Py.ok []
  | a :: l' =>
      b <- f a ;;
      bs <- for_each f l' ;;
      Py.ok (b :: bs)
  end.

(** Token rows and mask rows of one example: the two candidates. *)
Definition example_rows : Type :=
  ((list Z * list Z) * (list Q * list Q))%type.

(** Body of the loop of [transform_roc], lines 381 to 388, on the fresh
    rows of example [i]. *)
Definition fill_example (cfg : config) (n : nat)
           (x : list Z * (list Z * list Z)) : Py.result example_rows :=
  let '(x1, (x2, x3)) := x in
  let x12 := sequence cfg x1 x2 in
  let x13 := sequence cfg x1 x3 in
  let l12 := List.length x12 in
  let l13 := List.length x13 in
  r12 <- store_tokens (repeat 0%Z n) l12 x12 ;;
  r13 <- store_tokens (repeat 0%Z n) l13 x13 ;;
  Py.ok ((r12, r13),
         (fill_prefix (repeat 0%Q n) l12 1%Q,
          fill_prefix (repeat 0%Q n) l13 1%Q)).

(** [np.arange(n_vocab + n_special, n_vocab + n_special + n_ctx)]. *)
Definition positions (cfg : config) (n : nat) : list Z :=
  map (fun k => (n_vocab cfg + n_special cfg + Z.of_nat k)%Z) (seq 0 n).

(** [transform_roc], line 364.  The result lists, per example and per
    candidate, the [n_ctx] pairs (token id, position id) of [xmb] and the
    [n_ctx] entries of [mmb]. *)
Definition transform_roc (cfg : config) (X1 X2 X3 : list (list Z))
  : Py.result (list (list (Z * Z) * list (Z * Z)) * list (list Q * list Q)) :=
  if (n_ctx cfg <? 0)%Z then Py.raise Py.ValueError else
  let n := Z.to_nat (n_ctx cfg) in
  filled <- for_each (fill_example cfg n) (Py.zip X1 (Py.zip X2 X3)) ;;
  let untouched :=
    repeat ((repeat 0%Z n, repeat 0%Z n), (repeat 0%Q n, repeat 0%Q n))
           (List.length X1 - List.length filled) in
  let rows := filled ++ untouched in
  Py.ok (map (fun r => (combine (fst (fst r)) (positions cfg n),
                        combine (snd (fst r)) (positions cfg n))) rows,
         map snd rows).

(** One split of the data: contexts and the two candidate endings. *)
Definition split : Type := (list (list Z) * list (list Z) * list (list Z))%type.

Definition len {A : Type} (x : list A) : Z := Z.of_nat (List.length x).

(** The list comprehensions of lines 410 to 415. *)
Definition pair_lengths (ml : Z) (s : split) : list Z :=
  let '(X1, X2, X3) := s in
  map (fun x : list Z * (list Z * list Z) =>
         let '(x1, (x2, x3)) := x in
         (len (Py.slice_to x1 ml)
          + Z.max (len (Py.slice_to x2 ml)) (len (Py.slice_to x3 ml)))%Z)
      (Py.zip X1 (Py.zip X2 X3)).

(** Python's [max] of a list, which raises on the empty list. *)
Definition py_max (l : list Z) : Py.result Z :=
  match l with
  | [] => Py.raise Py.ValueError
  | x :: l' => Py.ok (fold_left Z.max l' x)
  end.

Definition run_transform (cfg : config) (s : split) :=
  let '(X1, X2, X3) := s in transform_roc cfg X1 X2 X3.

(** [data_prep] from line 404 to line 421; [n] is the configured
    [n_ctx], [vocab] the size of the encoder before the three special
    tokens are added. *)
Definition data_prep (n vocab : Z) (tr va te : split) :=
  let ml := (n / 2 - 2)%Z in
  temp <- py_max (pair_lengths ml tr ++ pair_lengths ml va
                  ++ pair_lengths ml te) ;;
  let cfg := Config (Z.min (temp + 3) n) ml vocab 3
                    vocab (vocab + 1) (vocab + 2) in
  trXM <- run_transform cfg tr ;;
  vaXM <- run_transform cfg va ;;
  teXM <- run_transform cfg te ;;
  Py.ok (cfg, trXM, vaXM, teXM).

(** Both sequences of an example fit into a row of [n] slots. *)
Definition fits (cfg : config) (n : nat) (x : list Z * (list Z * list Z))
  : Prop :=
  let '(x1, (x2, x3)) := x in
  (List.length (sequence cfg x1 x2) <= n)%nat /\
  (List.length (sequence cfg x1 x3) <= n)%nat.

(** Both sequences of an example hold integers of the array's type. *)
Definition storable (cfg : config) (x : list Z * (list Z * list Z)) : Prop :=
  let '(x1, (x2, x3)) := x in
  forallb in_int32 (sequence cfg x1 x2) = true /\
  forallb in_int32 (sequence cfg x1 x3) = true.

(** Token lists whose entries are integers of the array's type. *)
Definition int32_tokens (X : list (list Z)) : Prop :=
  Forall (Forall (fun t => in_int32 t = true)) X.

Definition int32_split (s : split) : Prop :=
  let '(X1, X2, X3) := s in
  int32_tokens X1 /\ int32_tokens X2 /\ int32_tokens X3.

Definition pad {A : Type} (n : nat) (zero one : A) (l : nat) : list A :=
  repeat one l ++ repeat zero (n - l).

(** The rows that [fill_example] produces when the sequences fit. *)
Definition filled_rows (cfg : config) (n : nat)
           (x : list Z * (list Z * list Z)) : example_rows :=
  let '(x1, (x2, x3)) := x in
  let x12 := sequence cfg x1 x2 in
  let x13 := sequence cfg x1 x3 in
  ((x12 ++ repeat 0%Z (n - List.length x12),
    x13 ++ repeat 0%Z (n - List.length x13)),
   (pad n 0%Q 1%Q (List.length x12), pad n 0%Q 1%Q (List.length x13))).

(** What a filled example looks like: the sequence, then padding. *)
Definition row_ok (cfg : config) (s : list Z) (xrow : list (Z * Z))
           (mrow : list Q) : Prop :=
  let n := Z.to_nat (n_ctx cfg) in
  let l := List.length s in
  (l <= n)%nat /\
  xrow = combine (s ++ repeat 0%Z (n - l)) (positions cfg n) /\
  mrow = repeat 1%Q l ++ repeat 0%Q (n - l).

Definition rows_ok (cfg : config) (X1 X2 X3 : list (list Z))
           (out : list (list (Z * Z) * list (Z * Z)) * list (list Q * list Q))
  : Prop :=
  List.length (fst out) = List.length X1 /\
  List.length (snd out) = List.length X1 /\
  forall i x1 x2 x3,
    nth_error X1 i = Some x1 -> nth_error X2 i = Some x2 ->
    nth_error X3 i = Some x3 ->
    exists xr mr,
      nth_error (fst out) i = Some xr /\ nth_error (snd out) i = Some mr /\
      row_ok cfg (sequence cfg x1 x2) (fst xr) (fst mr) /\
      row_ok cfg (sequence cfg x1 x3) (snd xr) (snd mr).

Definition split_ok (cfg : config) (s : split)
           (out : list (list (Z * Z) * list (Z * Z)) * list (list Q * list Q))
  : Prop :=
  let '(X1, X2, X3) := s in rows_ok cfg X1 X2 X3 out.

End Data.

(** ** Parameter transfer *)

Module Transfer.

Section Copy.
(** Value of one parameter tensor. *)
Variable Tensor : Type.
(** Its shape; the static shape of a trainable variable is that of its
    value. *)
Variable shape_of : Tensor -> Shape.shape.

(** Lines 455 to 458: the rewrite of [params["n_transfer"]]. *)
Definition n_transfer (d : Z) : Z :=
  if (d =? -1)%Z then 0%Z else (1 + d * 12)%Z.

(** Line 460: the pairs of the list
    [[p.assign(ip) for p, ip in zip(params[:n], init_params[:n])]].
    A trainable variable is named by its position in [params];
    [n_params] is the length of that list. *)
Definition assign_ops (n : Z) (n_params : nat) (init_params : list Tensor)
  : list (nat * Tensor) :=
  Py.zip (Py.slice_to (seq 0 n_params) n) (Py.slice_to init_params n).

(** [p.assign(ip)] is built only when the shape of [ip] is that of the
    variable [p]. *)
Definition assignable (vals : list Tensor) (op : nat * Tensor) : bool :=
  match nth_error vals (fst op) with
  | Some v => Shape.shape_eqb (shape_of v) (shape_of (snd op))
  | None => false
  end.

Fixpoint set_nth (k : nat) (v : Tensor) (vals : list Tensor) : list Tensor :=
  match vals, k with
  | [], _ => []
  | _ :: vals', O => v :: vals'
  | w :: vals', S k' => w :: set_nth k' v vals'
  end.

(** [sess.run] of a list of assignments on the variable values. *)
Definition run_assign (ops : list (nat * Tensor)) (vals : list Tensor)
  : list Tensor :=
  fold_left (fun vs op => set_nth (fst op) (snd op) vs) ops vals.

(** Lines 455 to 461 on the values [vals] of the trainable variables:
    all assignments are built before any of them runs, and building one
    with a different shape raises [ValueError]. *)
Definition transfer (d : Z) (vals init_params : list Tensor)
  : Py.result (list Tensor) :=
  let ops := assign_ops (n_transfer d) (length vals) init_params in
  if forallb (assignable vals) ops
  then Py.ok (run_assign ops vals)
  else Py.raise Py.ValueError.

(** Number of pairs that the [zip] of line 460 yields. *)
Definition n_copied (d : Z) (vals init_params : list Tensor) : nat :=
  length (assign_ops (n_transfer d) (length vals) init_params).

End Copy.

End Transfer.

(** ** The training loop and its best-parameter checkpoint *)

Module Trainer.

Section Loop.
(** Values of all trainable variables, as [sess.run(params)] returns
    them and as [p.assign(ip)] sets them. *)
Variable Params : Type.
(** The rest of the session: optimizer moments, random state. *)
Variable Opt : Type.
(** One minibatch [(xmb, mmb, ymb)]. *)
Variable Batch : Type.
(** [sess.run([clf_loss, train], feed)]: one optimisation step. *)
Variable sgd : Batch -> Params * Opt -> Params * Opt.
(** The validation accuracy that [log] computes from the live
    parameters (evaluation graphs run without dropout). *)
Variable va_acc : Params -> Q.

(** One record appended by [self.logger.log]; [evaluated] additionally
    remembers the parameter values the record was computed from.  The
    costs and the training accuracy, which the logger also receives, play
    no role in what follows and are left out. *)
Record log_entry : Type := LogEntry {
  at_epochs : Z;
  at_updates : Z;
  acc : Q;
  evaluated : Params
}.

Record state : Type := State {
  sess_params : Params;           (* the trainable variables *)
  sess_opt : Opt;
  best_score : Q;                 (* self.best_score *)
  n_updates : Z;                  (* self.n_updates *)
  n_epochs : Z;                   (* self.n_epochs *)
  best_params_jl : option Params; (* the file best_params.jl *)
  logger : list log_entry         (* oldest record first *)
}.

(** [Model.__init__] followed by the variable initialisation and the
    parameter transfer at the start of [train]: [p] are the
    post-transfer parameters, [jl] whatever the save directory held. *)
Definition init (p : Params) (o : Opt) (jl : option Params) : state :=
  State p o 0%Q 0%Z 0%Z jl [].

(** [save], line 174. *)
Definition save (st : state) : state :=
  State (sess_params st) (sess_opt st) (best_score st) (n_updates st)
        (n_epochs st) (Some (sess_params st)) (logger st).

(** [score > self.best_score]. *)
Definition exceeds (score best : Q) : bool := negb (Qle_bool score best).

(** [log], line 178. *)
Definition log (st : state) : state :=
  let score := va_acc (sess_params st) in
  let st1 :=
    State (sess_params st) (sess_opt st) (best_score st) (n_updates st)
          (n_epochs st) (best_params_jl st)
          (logger st ++
           [LogEntry (n_epochs st) (n_updates st) score (sess_params st)]) in
  if exceeds score (best_score st1)
  then save (State (sess_params st1) (sess_opt st1) score (n_updates st1)
                   (n_epochs st1) (best_params_jl st1) (logger st1))
  else st1.

Definition milestones : list Z :=
  [1000; 2000; 4000; 8000; 16000; 32000]%Z.

(** Body of the inner loop, lines 485 to 488. *)
Definition minibatch (st : state) (b : Batch) : state :=
  let (p, o) := sgd b (sess_params st, sess_opt st) in
  let st1 := State p o (best_score st) (n_updates st + 1)%Z
                   (n_epochs st) (best_params_jl st) (logger st) in
  if existsb (Z.eqb (n_updates st1)) milestones && (n_epochs st1 =? 0)%Z
  then log st1
  else st1.

(** Lines 489 and 490. *)
Definition end_epoch (st : state) : state :=
  log (State (sess_params st) (sess_opt st) (best_score st) (n_updates st)
             (n_epochs st + 1)%Z (best_params_jl st) (logger st)).

(** One iteration of the outer loop over its shuffled minibatches. *)
Definition epoch (st : state) (bs : list Batch) : state :=
  end_epoch (fold_left minibatch bs st).

(** The two nested loops, lines 480 to 490; [epochs] lists, for each of
    the [n_iter] iterations, the minibatches [iter_data] yields. *)
Definition training_loop (epochs : list (list Batch)) (st : state) : state :=
  fold_left epoch epochs st.

(** [joblib.load] of the checkpoint and the assignment, line 492. *)
Definition reload (st : state) : Py.result state :=
  match best_params_jl st with
  | Some ps =>
      Py.ok (State ps (sess_opt st) (best_score st) (n_updates st)
                   (n_epochs st) (best_params_jl st) (logger st))
  | None => Py.raise Py.FileNotFoundError
  end.

(** [train] from line 478 on. *)
Definition train (epochs : list (list Batch)) (st : state) : Py.result state :=
  reload (training_loop epochs (save st)).

(** The same loops as a flat schedule of steps, used to speak about
    every intermediate point of the run. *)
Inductive event : Type :=
| Update (b : Batch)
| EndEpoch.

Definition step (st : state) (e : event) : state :=
  match e with
  | Update b => minibatch st b
  | EndEpoch => end_epoch st
  end.

Definition schedule (epochs : list (list Batch)) : list event :=
  concat (map (fun bs => map Update bs ++ [EndEpoch]) epochs).

Definition run (evs : list event) (st : state) : state :=
  fold_left step evs st.

(** [e] is the first record of [l] that attains the largest accuracy. *)
Definition first_maximum (l : list log_entry) (e : log_entry) : Prop :=
  exists l1 l2,
    l = l1 ++ e :: l2 /\
    (forall x, In x l1 -> acc x < acc e)%Q /\
    (forall x, In x l2 -> acc x <= acc e)%Q.

(** What the checkpoint file holds at any point after the first [save]:
    the post-transfer parameters [p0] while no accuracy has exceeded
    zero, and afterwards the parameters of the best record so far. *)
Definition checkpoint_inv (p0 : Params) (st : state) : Prop :=
  (0 <= best_score st)%Q /\
  (forall x, In x (logger st) -> acc x <= best_score st)%Q /\
  (forall x, In x (logger st) -> acc x = va_acc (evaluated x)) /\
  ((best_score st == 0 /\ best_params_jl st = Some p0)%Q \/
   (exists l1 e l2,
       logger st = l1 ++ e :: l2 /\
       best_params_jl st = Some (evaluated e) /\
       best_score st = acc e /\
       (0 < acc e)%Q /\
       (forall x, In x l1 -> acc x < acc e)%Q)).

End Loop.

End Trainer.

(** ** Concrete inputs used by the examples of Part II *)

Module Examples.

(** Parameters identified with the number of updates that produced them. *)
Definition count_updates (_ : unit) (s : nat * unit) : nat * unit :=
  (S (fst s), tt).

(** The run of section 8 of the specification: the validation accuracy
    after [k] updates, for five epochs of one update each. *)
Definition spec_accuracies (k : nat) : Q :=
  nth k [0; 70; 85; 80; 90; 88]%Q 0%Q.

Definition five_epochs : list (list unit) := [[tt]; [tt]; [tt]; [tt]; [tt]].

Definition add_one (_ : unit) (s : Z * unit) : Z * unit := ((fst s + 1)%Z, tt).

Definition never_right (_ : Z) : Q := 0%Q.

(** A model with 147 trainable tensors and a checkpoint of 145 tensors. *)
Definition trainable_147 : list Z := repeat 0%Z 147.
Definition pretrained_145 : list Z := repeat 1%Z 145.

(** Tensors named by a number, all of the same shape. *)
Definition scalar_shape (_ : Z) : Shape.shape := [].

(** Tensors given by their shapes alone: the twelve tensors of a block of
    width 768, the embedding table, the two tensors of the classifier;
    a model of six blocks and a checkpoint of twelve. *)
Definition same_shape (t : Shape.shape) : Shape.shape := t.
Definition block_tensors : list Shape.shape :=
  [[1; 768; 2304]; [2304]; [1; 768; 768]; [768]; [768]; [768];
   [1; 768; 3072]; [3072]; [1; 3072; 768]; [768]; [768]; [768]]%Z.
Definition table_tensor : Shape.shape := [40558; 768]%Z.
Definition six_blocks : list Shape.shape :=
  table_tensor :: concat (repeat block_tensors 6) ++ [[768; 1]; [1]]%Z.
Definition twelve_blocks_checkpoint : list Shape.shape :=
  table_tensor :: concat (repeat block_tensors 12).

(** An evaluation graph on integer examples with two logits per row. *)
Definition toy_graph (mb : list Z) : list (list F32.float32) * Q :=
  (map (fun e => [F32.of_int e; F32.of_int 1]) mb, 0%Q).

(** Two 32-bit logits one unit in the last place apart, near 4/3, and a
    graph that returns them for every example. *)
Definition near_tie_low : F32.float32 := S754_finite false 11184818 (-23).
Definition near_tie_high : F32.float32 := S754_finite false 11184819 (-23).
Definition near_tie_graph (mb : list unit) : list (list F32.float32) * Q :=
  (map (fun _ => [near_tie_low; near_tie_high]) mb, 0%Q).

(** A model whose classification losses are the examples themselves. *)
Definition toy_model (shard : list nat) : list (list R) * list R * list R :=
  ([], map INR shard, [1%R]).

(** One sequence of two positions over a vocabulary of two tokens. *)
Definition toy_h : list (list (list R)) := [[[1%R]; [2%R]]].
Definition toy_we : list (list R) := [[1%R]; [0%R]].
Definition toy_X : list (list (nat * nat)) := [[(0%nat, 2%nat); (1%nat, 3%nat)]].
Definition toy_M : list (list R) := [[1%R; 1%R]].

(** Contexts of eight and of three slots over a vocabulary of ten tokens. *)
Definition ctx8 : Data.config := Data.Config 8 (8 / 2 - 2) 10 3 10 11 12.
Definition ctx3 : Data.config := Data.Config 3 (3 / 2 - 2) 10 3 10 11 12.

(** The default width and head count, with three choices of the rest. *)
Definition heads_12_gelu : Shape.params :=
  Shape.Params 12 "gelu" (1 # 10) (1 # 10).
Definition heads_12_tanh : Shape.params :=
  Shape.Params 12 "tanh" (1 # 10) (1 # 10).
Definition heads_minus_12 : Shape.params :=
  Shape.Params (-12) "gelu" (1 # 10) (1 # 10).

End Examples.

(** ** The activation functions (values) *)

Module Act.
Local Open Scope R_scope.

(** [tf.nn.sigmoid] on one entry. *)
Definition sigmoid (v : R) : R := 1 / (1 + exp (- v)).

(** [swish], line 26: [x*tf.nn.sigmoid(x)]. *)
Definition swish (x : Kernels.tensor) : Kernels.tensor :=
  Kernels.t_mul x (map sigmoid x).

(** [tf.nn.relu]. *)
Definition relu (x : Kernels.tensor) : Kernels.tensor :=
  map (fun v => Rmax v 0) x.

(** The dictionary [act_fns], line 29, and its lookup by name. *)
Definition act_fns (name : string)
  : Py.result (Kernels.tensor -> Kernels.tensor) :=
  if String.eqb name "relu" then Py.ok relu
  else if String.eqb name "swish" then Py.ok swish
  else if String.eqb name "gelu" then Py.ok Kernels.gelu
  else Py.raise Py.KeyError.

(** An entry [w] lies between 0 and the entry [v] it was computed from. *)
Definition between_zero_and (v w : R) : Prop := Rmin 0 v <= w <= Rmax 0 v.

End Act.

(** ** Layer normalisation (values) *)

Module Norm.
Local Open Scope R_scope.

(** [tf.rsqrt]. *)
Definition rsqrt (y : R) : R := / sqrt y.

(** Mean over the normalised axis of the squared deviations from [u]. *)
Definition variance (x : list R) : R :=
  let u := Head.reduce_mean x in
  Head.reduce_mean (map (fun v => (v - u) * (v - u)) x).

(** [_norm], line 42, on one slice along the normalised axis: [g] and [b]
    are applied only when both are given. *)
Definition _norm (x : list R) (g b : option (list R)) (e : R) : list R :=
  let u := Head.reduce_mean x in
  let s := variance x in
  let x1 := map (fun v => (v - u) * rsqrt (s + e)) x in
  match g, b with
  | Some g, Some b => Py.map2 Rplus (Py.map2 Rmult x1 g) b
  | _, _ => x1
  end.

(** [norm], line 51, on one slice, given the gain and bias that
    [get_ema_vars] returns; [e] keeps its default [1e-5]. *)
Definition norm (x g b : list R) : list R := _norm x (Some g) (Some b) 1e-5.

(** The values [tf.constant_initializer] gives to a vector of [n] entries. *)
Definition constant_initializer (c : R) (n : nat) : list R := repeat c n.

End Norm.

(** ** Splitting and merging attention heads (values) *)

Module Heads.
Local Open Scope R_scope.

(** [tf.transpose] of the two middle axes of one batch element: a list of
    [rows] whose entries have [cols] items becomes a list of [cols] whose
    entries have as many items as there were rows. *)
Definition transpose {A : Type} (d : A) (cols : nat) (m : list (list A))
  : list (list A) :=
  map (fun j => map (fun row => nth j row d) m) (seq 0 cols).

(** [split_states], line 74, on a tensor [[batch][n_ctx][m]]: the last
    axis is reshaped to [[n, m//n]]. *)
Definition split_states (m n : nat) (x : list (list (list R)))
  : Py.result (list (list (list (list R)))) :=
  if (n =? 0)%nat then Py.raise Py.ZeroDivisionError
  else Data.for_each (Data.for_each (Head.reshape2 n (m / n))) x.

(** [merge_states], line 81: the last two axes are flattened into one. *)
Definition merge_states (x : list (list (list (list R))))
  : list (list (list R)) :=
  map (map (@concat R)) x.

(** [split_heads], line 87: permutation [0, 2, 1, 3], or [0, 2, 3, 1] for
    the keys. *)
Definition split_heads (m n : nat) (k : bool) (x : list (list (list R)))
  : Py.result (list (list (list (list R)))) :=
  s <- split_states m n x ;;
  if k
  then Py.ok (map (fun e => map (transpose 0 (m / n)) (transpose [] n e)) s)
  else Py.ok (map (transpose [] n) s).

(** [merge_heads], line 94, on a tensor [[batch][n][n_ctx][d]]. *)
Definition merge_heads (n_ctx : nat) (x : list (list (list (list R))))
  : list (list (list R)) :=
  merge_states (map (transpose [] n_ctx) x).

(** A tensor [[batch][n_ctx][m]] with all slices of the stated sizes. *)
Definition rank3 (n_ctx m : nat) (x : list (list (list R))) : Prop :=
  Forall (fun e => List.length e = n_ctx /\
                   Forall (fun v => List.length v = m) e) x.

End Heads.

(** ** Dense layers and attention (values, evaluation mode) *)

Module Dense.
Local Open Scope R_scope.

(** Column [j] of a matrix given by its rows. *)
Definition column (j : nat) (w : list (list R)) : list R :=
  map (fun wr => nth j wr 0) w.

(** [tf.matmul(x, w)] for [w] of [nf] columns. *)
Definition matmul (x w : list (list R)) (nf : nat) : list (list R) :=
  map (fun row => map (fun j => Head.dot row (column j w)) (seq 0 nf)) x.

Definition all_length {A : Type} (k : nat) (l : list (list A)) : bool :=
  forallb (fun r => (List.length r =? k)%nat) l.

(** [conv1d] with [rf = 1], line 98, on [x] of shape [[batch][t][nx]]
    with the variables [w] of shape [[1][nx][nf]] and [b] of shape [[nf]];
    the matrix product and the bias addition require matching sizes. *)
Definition conv1d (t nx nf : nat) (x : list (list (list R)))
           (w : list (list (list R))) (b : list R)
  : Py.result (list (list (list R))) :=
  let xr := concat x in
  let wr := concat w in
  if all_length nx xr && (List.length wr =? nx)%nat && all_length nf wr
     && (List.length b =? nf)%nat
  then Head.reshape2 (List.length x) t
         (map (fun row => Py.map2 Rplus row b) (matmul xr wr nf))
  else Py.raise Py.ValueError.

(** What [conv1d] does to the vector of one position. *)
Definition affine (nf : nat) (w : list (list (list R))) (b : list R)
           (v : list R) : list R :=
  Py.map2 Rplus (map (fun j => Head.dot v (column j (concat w))) (seq 0 nf)) b.

Section Layers.
(** [tf.nn.dropout(x, keep_prob)], which draws a random mask. *)
Variable tf_dropout : R -> list (list (list R)) -> list (list (list R)).

(** [dropout], line 60. *)
Definition dropout (x : list (list (list R))) (pdrop : R) (train : bool)
  : list (list (list R)) :=
  if train then
    if Rlt_dec 0 pdrop then tf_dropout (1 - pdrop) x else x
  else x.

(** The variables of the feed-forward sublayer. *)
Record mlp_vars : Type := MlpVars {
  fc_w : list (list (list R));
  fc_b : list R;
  proj_w : list (list (list R));
  proj_b : list R
}.

(** [mlp], line 227, on [x] of shape [[batch][t][nx]]; the activation acts
    on every entry, hence on the vector of each position. *)
Definition mlp (afn : string) (resid_pdrop : R) (vars : mlp_vars)
           (t nx n_state : nat) (x : list (list (list R))) (train : bool)
  : Py.result (list (list (list R))) :=
  act <- Act.act_fns afn ;;
  h <- conv1d t nx n_state x (fc_w vars) (fc_b vars) ;;
  h2 <- conv1d t n_state nx (map (map act) h) (proj_w vars) (proj_b vars) ;;
  Py.ok (dropout h2 resid_pdrop train).

End Layers.

(** The attention weights of [_attn], line 200, before dropout, on the
    slices of [q] (each [[n][d]]) and of [k] (each [[d][n]]): product,
    optional scaling by [rsqrt(d)], mask, softmax. *)
Definition attn_weights (n d : nat) (scale : bool)
           (qs ks : list Kernels.matrix) : list Kernels.matrix :=
  let w := Py.map2 (fun q k => matmul q k n) qs ks in
  let w := if scale
           then map (map (map (fun e => e * Norm.rsqrt (INR d)))) w
           else w in
  map Kernels.softmax (Kernels.mask_attn_weights n w).

(** [_attn] with [train=False]: the weights applied to the values. *)
Definition _attn (n d : nat) (scale : bool) (qs ks vs : list Kernels.matrix)
  : list Kernels.matrix :=
  Py.map2 (fun w v => matmul w v d) (attn_weights n d scale qs ks) vs.

End Dense.

(** ** What the model reads from the transformed input *)

Module Pool.

(** Number of rows of the embedding table [we], line 253. *)
Definition table_rows (cfg : Data.config) : Z :=
  (Data.n_vocab cfg + Data.n_special cfg + Data.n_ctx cfg)%Z.

(** A pair (token id, position id) that [embed], line 245, can gather
    from the table: the token among the vocabulary and special rows, the
    position among the [n_ctx] rows after them. *)
Definition gatherable (cfg : Data.config) (p : Z * Z) : Prop :=
  (0 <= fst p < Data.n_vocab cfg + Data.n_special cfg)%Z /\
  (Data.n_vocab cfg + Data.n_special cfg <= snd p < table_rows cfg)%Z.

(** [tf.equal(X[:, :, 0], clf_token)] cast to floats, on one sequence. *)
Definition is_clf (cfg : Data.config) (xrow : list (Z * Z)) : list Q :=
  map (fun p => if (fst p =? Data.clf_token cfg)%Z then 1%Q else 0%Q) xrow.

(** [pool_idx], line 274, for one sequence: the first position of the
    largest indicator. *)
Definition pool_idx (cfg : Data.config) (xrow : list (Z * Z)) : nat :=
  (Eval.argmax_row (is_clf cfg xrow)).

(** The configuration that [data_prep] builds for a vocabulary of
    [vocab] tokens, lines 404 to 408. *)
Definition layout (n_ctx max_len vocab : Z) : Data.config :=
  Data.Config n_ctx max_len vocab 3 vocab (vocab + 1) (vocab + 2).

(** Token ids produced by the encoder for a vocabulary of [vocab]
    tokens. *)
Definition encoded (vocab : Z) (x : list Z) : Prop :=
  Forall (fun t => (0 <= t < vocab)%Z) x.

(** Example [i] of the input lists and its rows in the arrays that
    [transform_roc] returned. *)
Definition example_at (X1 X2 X3 : list (list Z))
           (out : list (list (Z * Z) * list (Z * Z)) * list (list Q * list Q))
           (i : nat) (x1 x2 x3 : list Z)
           (xr : list (Z * Z) * list (Z * Z)) (mr : list Q * list Q) : Prop :=
  nth_error X1 i = Some x1 /\ nth_error X2 i = Some x2 /\
  nth_error X3 i = Some x3 /\
  nth_error (fst out) i = Some xr /\ nth_error (snd out) i = Some mr.

End Pool.

(** ** The examples that fix the context length *)

Module Prep.

(** The triples that the loops of [data_prep] and [transform_roc] visit
    in one split. *)
Definition examples (s : Data.split) : list (list Z * (list Z * list Z)) :=
  let '(X1, X2, X3) := s in Py.zip X1 (Py.zip X2 X3).

(** Number of tokens of the longer of the two sequences that
    [transform_roc] builds for an example. *)
Definition longest (cfg : Data.config) (x : list Z * (list Z * list Z)) : Z :=
  let '(x1, (x2, x3)) := x in
  Z.max (Data.len (Data.sequence cfg x1 x2)) (Data.len (Data.sequence cfg x1 x3)).

End Prep.


(** ** Logged metrics, prediction and the multi-device evaluation graph *)

Module Metrics.
Local Open Scope Q_scope.

(** [tf.reduce_mean] of a vector of losses, lines 472 and 473. *)
Definition reduce_mean (l : list Q) : Q :=
  (Eval.Qsum l / inject_Z (Z.of_nat (List.length l))).

(** [a / n] for a float [a] and a Python integer [n]. *)
Definition py_div (a : Q) (n : Z) : Py.result Q :=
  if (n =? 0)%Z then Py.raise Py.ZeroDivisionError
  else Py.ok (a / inject_Z n).

(** [accuracy_score], which rejects label lists of different lengths. *)
Definition checked_accuracy (y_true y_pred : list nat) : Py.result Q :=
  if (List.length y_true =? List.length y_pred)%nat
  then Py.ok (Eval.accuracy_score y_true y_pred)
  else Py.raise Py.ValueError.

Section Graphs.
(** The arrays [(x, m)] of one example. *)
Variable Input : Type.
Variable n_batch_train : nat.
(** The classification logits of the multi-device and of the
    single-device evaluation graph, one row per example. *)
Variable mgpu_logits : list Input -> list (list Q).
Variable single_logits : list Input -> list (list Q).

(** The graph chosen for a minibatch by its size, line 356. *)
Definition logits (mb : list Input) : list (list Q) :=
  if (List.length mb =? n_batch_train)%nat
  then mgpu_logits mb else single_logits mb.

(** [iter_predict], line 352; [np.concatenate] raises on an empty list. *)
Definition iter_predict (batches : list (list Input))
  : Py.result (list (list Q)) :=
  match batches with
  | [] => Py.raise Py.ValueError
  | _ => Py.ok (concat (map logits batches))
  end.

End Graphs.

Section Logged.
(** The arrays [(x, m)] of one example; its label is a [nat]. *)
Variable Input : Type.
Variable n_batch_train : nat.
(** The classification logits of the multi-device and of the
    single-device evaluation graph, one row of 32-bit floats per
    example. *)
Variable mgpu_logits : list Input -> list (list F32.float32).
Variable single_logits : list Input -> list (list F32.float32).
(** Their classification losses, one per example. *)
Variable mgpu_clf_losses : list (Input * nat) -> list Q.
Variable single_clf_losses : list (Input * nat) -> list Q.

(** What [sess.run] returns for the two fetches of line 343 and for
    those of line 346; the second fetch is the mean built at lines 472
    and 473. *)
Definition eval_mgpu (mb : list (Input * nat))
  : list (list F32.float32) * Q :=
  (mgpu_logits (map fst mb), reduce_mean (mgpu_clf_losses mb)).
Definition eval_single (mb : list (Input * nat))
  : list (list F32.float32) * Q :=
  (single_logits (map fst mb), reduce_mean (single_clf_losses mb)).

Definition iter_apply (batches : list (list (Input * nat)))
  : Py.result (list (list F32.float32) * Q) :=
  (Eval.iter_apply n_batch_train eval_mgpu eval_single batches).

(** The graph chosen for a minibatch by its size, line 342. *)
Definition fetched_logits (mb : list Input) : list (list F32.float32) :=
  if (List.length mb =? n_batch_train)%nat
  then mgpu_logits mb else single_logits mb.
Definition clf_losses (mb : list (Input * nat)) : list Q :=
  if (List.length mb =? n_batch_train)%nat
  then mgpu_clf_losses mb else single_clf_losses mb.

(** The four numbers that [log], line 178, hands to the logger: training
    cost, validation cost, training accuracy, validation accuracy.  The
    arguments are the minibatches that [iter_data] yields for the first
    [n_valid] training examples and for the validation set. *)
Definition log_metrics (tr_batches va_batches : list (list (Input * nat)))
           (trY vaY : list nat) (n_valid : Z) : Py.result (Q * Q * Q * Q) :=
  tr <- iter_apply tr_batches ;;
  va <- iter_apply va_batches ;;
  tr_cost <- py_div (snd tr) (Data.len (Py.slice_to trY n_valid)) ;;
  va_cost <- py_div (snd va) n_valid ;;
  tr_acc <- checked_accuracy (Py.slice_to trY n_valid) (F32.argmax (fst tr)) ;;
  va_acc <- checked_accuracy vaY (F32.argmax (fst va)) ;;
  Py.ok (tr_cost, va_cost, tr_acc * 100, va_acc * 100).

(** Minibatches that cover a data set with labels [Y]: there is one, none
    is empty, and the graphs return one row of logits and one loss per
    example. *)
Definition batched (batches : list (list (Input * nat))) (Y : list nat)
  : Prop :=
  batches <> [] /\
  Forall (fun mb => (0 < List.length mb)%nat /\
                    List.length (clf_losses mb) = List.length mb /\
                    List.length (fetched_logits (map fst mb)) = List.length mb)
         batches /\
  map snd (concat batches) = Y.

(** All per-example losses of a data set, in order. *)
Definition all_losses (batches : list (list (Input * nat))) : list Q :=
  concat (map clf_losses batches).

(** The logits of a data set as [iter_apply] returns them: those of each
    minibatch multiplied by its size. *)
Definition returned_logits (batches : list (list (Input * nat)))
  : list (list F32.float32) :=
  concat (map (fun mb => Eval.scale_rows (List.length mb)
                                         (fetched_logits (map fst mb)))
              batches).

End Logged.

Section Devices.
Variable Example : Type.
(** [self.model] with [train=False] on one shard: classification
    logits, classification losses and language-model losses. *)
Variable model : list Example -> list (list Q) * list Q * list Q.


End Devices.

End Metrics.


(** ** The embedding table: pretrained rows and their lookup *)

Module Embed.
Local Open Scope R_scope.

Section Merge.
(** One slice along the first axis of a pretrained array. *)
Variable Slice : Type.
(** Whether a slice is a vector of [n_embd] entries, as the rows drawn
    for the special tokens are. *)
Variable embd_wide : Slice -> bool.

(** Lines 449 to 453 on the list of pretrained arrays, each given by its
    slices along the first axis: the positional rows are cut to [n_ctx],
    the token rows, the rows [special] drawn for the special tokens and
    the positional rows are concatenated, which requires equal widths,
    and the second array is deleted. *)
Definition merge_embeddings (n_ctx : Z) (special : list Slice)
           (init_params : list (list Slice)) : Py.result (list (list Slice)) :=
  match init_params with
  | p0 :: p1 :: rest =>
      let p0' := Py.slice_to p0 n_ctx in
      if forallb embd_wide (p1 ++ p0')
      then Py.ok ((p1 ++ special ++ p0') :: rest)
      else Py.raise Py.ValueError
  | _ => Py.raise Py.IndexError
  end.

End Merge.

(** Row [i] of the table, if there is one. *)
Definition lookup (we : list (list R)) (i : Z) : option (list R) :=
  if (i <? 0)%Z then None else nth_error we (Z.to_nat i).

Fixpoint all_some {A : Type} (l : list (option A)) : option (list A) :=
  match l with
  | [] => Some []
  | Some a :: l' =>
      match all_some l' with
      | Some r => Some (a :: r)
      | None => None
      end
  | None :: _ => None
  end.

(** [embed], line 245, on one sequence: the rows of the token id and of
    the position id are gathered and summed.  The result is [None] when
    an id lies outside the table. *)
Definition embed (we : list (list R)) (xrow : list (Z * Z))
  : option (list (list R)) :=
  all_some (map (fun p => match lookup we (fst p), lookup we (snd p) with
                          | Some a, Some b => Some (Kernels.t_add a b)
                          | _, _ => None
                          end) xrow).

End Embed.


(** ** The classification head *)

Module Classifier.
Local Open Scope R_scope.

(** A construction or a run that fails gives no tensor. *)
Definition attempt {A : Type} (r : Py.result A) : option A :=
  match r with
  | inr a => Some a
  | inl _ => None
  end.

Definition and_then {A B : Type} (m : option A) (k : A -> option B)
  : option B :=
  match m with
  | Some a => k a
  | None => None
  end.

(** [tf.gather(params, indices)] along the first axis; [None] when an
    index lies outside [params]. *)
Definition gather {A : Type} (params : list A) (indices : list nat)
  : option (list A) :=
  Embed.all_some (map (nth_error params) indices).

(** [clf], line 115, on the rows [x] of width [nx] with the variables
    [w] of shape [[nx][ny]] and [b] of shape [[ny]]. *)
Definition clf (nx ny : nat) (x w : list (list R)) (b : list R)
  : Py.result (list (list R)) :=
  if Dense.all_length nx x && (List.length w =? nx)%nat
     && Dense.all_length ny w && (List.length b =? ny)%nat
  then Py.ok (map (fun row => Py.map2 Rplus row b) (Dense.matmul x w ny))
  else Py.raise Py.ValueError.

Section Head.
(** [tf.nn.dropout(x, keep_prob, noise_shape)] with one mask per pair. *)
Variable tf_dropout : R -> list (list (list R)) -> list (list (list R)).

(** Lines 273 to 284 of [model]: [X] holds one row of pairs (token id,
    position id) per sequence and [h] the hidden states of its
    positions; the result has one row of two logits per example. *)
Definition clf_logits (cfg : Data.config) (n_ctx n_embd : nat)
           (clf_pdrop : R) (X : list (list (Z * Z)))
           (h : list (list (list R))) (w : list (list R)) (b : list R)
           (train : bool) : option (list (list R)) :=
  let clf_h := concat h in
  let pool_idx := map (Pool.pool_idx cfg) X in
  let idx := Py.map2 (fun i p => (i * n_ctx + p)%nat)
                     (seq 0 (List.length X)) pool_idx in
  and_then (gather clf_h idx) (fun g =>
  and_then (attempt (Head.reshape2 (List.length g / 2) 2 g)) (fun pairs =>
  let pairs := if train then
                 if Rlt_dec 0 clf_pdrop
                 then tf_dropout (1 - clf_pdrop) pairs else pairs
               else pairs in
  and_then (attempt (clf n_embd 1 (concat pairs) w b)) (fun lg =>
  attempt (Head.reshape2 (List.length (concat lg) / 2) 2 (concat lg))))).

End Head.

(** Line 286: one classification loss per example. *)
Definition clf_losses (clf_logits : list (list R)) (Y : list nat) : list R :=
  Py.map2 Head.cross_entropy clf_logits Y.

(** The weights of [clf] for [ny = 1], from the vector of its column. *)
Definition column_matrix (w0 : list R) : list (list R) :=
  map (fun v => [v]) w0.

End Classifier.


(** ** Shapes: construction of the whole model *)

Module Graph.
Local Open Scope Z_scope.

(** [tf.gather(params, indices)] along the first axis: the shape of
    [indices] followed by the shape of one slice of [params]. *)
Definition tf_gather (params indices : Shape.shape) : Py.result Shape.shape :=
  match params with
  | [] => Py.raise Py.ValueError
  | _ :: slice => Py.ok (indices ++ slice)
  end.

(** A reduction along one axis ([tf.reduce_sum(x, axis)],
    [tf.argmax(x, axis)]) removes the axis. *)
Definition reduce_axis (x : Shape.shape) (axis : nat) : Py.result Shape.shape :=
  if (axis <? List.length x)%nat
  then Py.ok (firstn axis x ++ skipn (S axis) x)
  else Py.raise Py.ValueError.

(** [x[:, :-1]] and [x[:, 1:]]: one entry fewer along the second axis. *)
Definition drop_one (x : Shape.shape) : Py.result Shape.shape :=
  match x with
  | d0 :: d1 :: rest => Py.ok (d0 :: Z.max 0 (d1 - 1) :: rest)
  | _ => Py.raise Py.ValueError
  end.

(** [x[:, :, 0]]: entry 0 of the third axis. *)
Definition first_of_axis2 (x : Shape.shape) : Py.result Shape.shape :=
  match x with
  | d0 :: d1 :: d2 :: rest =>
      if 0 <? d2 then Py.ok (d0 :: d1 :: rest) else Py.raise Py.ValueError
  | _ => Py.raise Py.ValueError
  end.

(** [tf.matmul(a, b, transpose_b=True)] for a matrix [b]. *)
Definition matmul_transpose_b (a b : Shape.shape) : Py.result Shape.shape :=
  match b with
  | [n; k] => Shape.tf_matmul a [k; n]
  | _ => Py.raise Py.ValueError
  end.

(** [tf.nn.sparse_softmax_cross_entropy_with_logits]: the labels have
    the shape of the logits without their last axis. *)
Definition sparse_xent (logits labels : Shape.shape) : Py.result Shape.shape :=
  match rev logits with
  | [] => Py.raise Py.ValueError
  | _ :: lead =>
      if Shape.shape_eqb (rev lead) labels
      then Py.ok labels
      else Py.raise Py.ValueError
  end.

(** [clf], line 115. *)
Definition clf (x : Shape.shape) (ny : Z) : Py.result Shape.shape :=
  nx <- Shape.last_dim x ;;
  m <- Shape.tf_matmul x [nx; ny] ;;
  Shape.broadcast m [ny].

(** The configuration values and attributes that [model] reads. *)
Record hparams : Type := Hparams {
  n_vocab : Z;
  n_special : Z;
  n_ctx : Z;
  n_embd : Z;
  n_layer : Z;
  embd_pdrop : Q;
  clf_pdrop : Q;
  block_params : Shape.params
}.

(** [embed], line 245. *)
Definition embed (X we : Shape.shape) : Py.result Shape.shape :=
  e <- tf_gather we X ;;
  reduce_axis e 2.

(** The loop over the layers, lines 263 and 264. *)
Fixpoint blocks (cfg : Shape.params) (layers : nat) (h : Shape.shape)
         (train : bool) : Py.result Shape.shape :=
  match layers with
  | O => Py.ok h
  | S layers' =>
      h' <- Shape.block cfg h train ;;
      blocks cfg layers' h' train
  end.

(** [model], line 251, on the shapes of [X], [M] and [Y]: the shapes of
    the classification logits, the classification losses and the
    language-model losses. *)
Definition model (hp : hparams) (X M Y : Shape.shape) (train : bool)
  : Py.result (Shape.shape * Shape.shape * Shape.shape) :=
  we <- Shape.dropout [n_vocab hp + n_special hp + n_ctx hp; n_embd hp]
                      (embd_pdrop hp) train ;;
  X <- Shape.tf_reshape X [-1; n_ctx hp; 2] ;;
  M <- Shape.tf_reshape M [-1; n_ctx hp] ;;
  h <- embed X we ;;
  h <- blocks (block_params hp) (Z.to_nat (n_layer hp)) h train ;;
  h_but_last <- drop_one h ;;
  lm_h <- Shape.tf_reshape h_but_last [-1; n_embd hp] ;;
  lm_logits <- matmul_transpose_b lm_h we ;;
  X_from_1 <- drop_one X ;;
  next_tokens <- first_of_axis2 X_from_1 ;;
  labels <- Shape.tf_reshape next_tokens [-1] ;;
  lm_losses <- sparse_xent lm_logits labels ;;
  lm_losses <- Shape.tf_reshape lm_losses [nth 0 X 0; nth 1 X 0 - 1] ;;
  M_from_1 <- drop_one M ;;
  masked <- Shape.broadcast lm_losses M_from_1 ;;
  numerator <- reduce_axis masked 1 ;;
  denominator <- reduce_axis M_from_1 1 ;;
  lm_losses <- Shape.broadcast numerator denominator ;;
  clf_h <- Shape.tf_reshape h [-1; n_embd hp] ;;
  tokens <- first_of_axis2 X ;;
  pool_idx <- reduce_axis tokens 1 ;;
  idx <- Shape.broadcast [nth 0 X 0] pool_idx ;;
  clf_h <- tf_gather clf_h idx ;;
  clf_h <- Shape.tf_reshape clf_h [-1; 2; n_embd hp] ;;
  clf_h <- Shape.dropout clf_h (clf_pdrop hp) train ;;
  clf_h <- Shape.tf_reshape clf_h [-1; n_embd hp] ;;
  clf_logits <- clf clf_h 1 ;;
  clf_logits <- Shape.tf_reshape clf_logits [-1; 2] ;;
  clf_losses <- sparse_xent clf_logits Y ;;
  Py.ok (clf_logits, clf_losses, lm_losses).

(** A configuration with which the graph can be built: positive sizes,
    a width that is a multiple of the head count, a known activation,
    and dropout rates below 1 when training. *)
Definition buildable (hp : hparams) (train : bool) : Prop :=
  0 < n_vocab hp + n_special hp + n_ctx hp /\
  0 < n_ctx hp /\
  0 < Shape.n_head (block_params hp) /\
  0 < n_embd hp /\
  n_embd hp mod Shape.n_head (block_params hp) = 0 /\
  (Shape.afn (block_params hp) = "relu"
   \/ Shape.afn (block_params hp) = "swish"
   \/ Shape.afn (block_params hp) = "gelu")%string /\
  (train = true ->
   (embd_pdrop hp < 1)%Q /\ (clf_pdrop hp < 1)%Q /\
   (Shape.attn_pdrop (block_params hp) < 1)%Q /\
   (Shape.resid_pdrop (block_params hp) < 1)%Q).

End Graph.


(** ** The submission file *)

Module Submission.

(** The dictionary [pred_fns], line 125, which knows one data set; the
    dictionaries [file_names] and [label_decoders] have the same key. *)
Definition pred_fns (dataset : string)
  : Py.result (list (list Q) -> list nat) :=
  if String.eqb dataset "rocstories" then Py.ok Eval.argmax
  else Py.raise Py.KeyError.

Section Predict.
Variable Input : Type.
Variable n_batch_train : nat.
Variable mgpu_logits : list Input -> list (list Q).
Variable single_logits : list Input -> list (list Q).

(** [predict], line 496, up to the file it writes: the rows that follow
    the header line, each an index and a prediction.  The label decoder
    of the one known data set is [None]. *)
Definition predict (dataset : string) (te_batches : list (list Input))
  : Py.result (list (nat * nat)) :=
  pred_fn <- pred_fns dataset ;;
  logits <- Metrics.iter_predict n_batch_train mgpu_logits single_logits
                                 te_batches ;;
  let predictions := pred_fn logits in
  Py.ok (combine (seq 0 (List.length predictions)) predictions).

End Predict.

End Submission.

(** ** Concrete inputs for the examples of the later sections *)

Module Samples.

(** A dropout that keeps every entry. *)
Definition keep_all (_ : R) (x : list (list (list R))) : list (list (list R)) :=
  x.

(** A feed-forward sublayer of width one that multiplies by two twice. *)
Definition doubling : Dense.mlp_vars :=
  Dense.MlpVars [[[2%R]]] [0%R] [[[2%R]]] [0%R].

(** One training example over a vocabulary of ten tokens, and the arrays
    that [transform_roc] builds from it in a context of eight slots. *)
Definition roc_tr : Data.split := ([[1; 2; 3]%Z], [[4]%Z], [[5; 6]%Z]).
Definition roc_none : Data.split := ([], [], []).
Definition roc_rows : list (Z * Z) * list (Z * Z) :=
  ([(10, 13); (1, 14); (2, 15); (11, 16); (4, 17); (12, 18);
    (0, 19); (0, 20)]%Z,
   [(10, 13); (1, 14); (2, 15); (11, 16); (5, 17); (6, 18);
    (12, 19); (0, 20)]%Z).
Definition roc_masks : list Q * list Q :=
  ([1; 1; 1; 1; 1; 1; 0; 0]%Q, [1; 1; 1; 1; 1; 1; 1; 0]%Q).
Definition roc_arrays
  : list (list (Z * Z) * list (Z * Z)) * list (list Q * list Q) :=
  ([roc_rows], [roc_masks]).
Definition no_arrays
  : list (list (Z * Z) * list (Z * Z)) * list (list Q * list Q) :=
  ([], []).

(** The arrays of the same example in the context of seven slots that
    [data_prep] shrinks to. *)
Definition roc_arrays7
  : list (list (Z * Z) * list (Z * Z)) * list (list Q * list Q) :=
  ([([(10, 13); (1, 14); (2, 15); (11, 16); (4, 17); (12, 18); (0, 19)]%Z,
     [(10, 13); (1, 14); (2, 15); (11, 16); (5, 17); (6, 18); (12, 19)]%Z)],
   [([1; 1; 1; 1; 1; 1; 0]%Q, [1; 1; 1; 1; 1; 1; 1]%Q)]).

(** A session after one epoch of five updates with an empty log. *)
Definition after_one_epoch : Trainer.state nat unit :=
  Trainer.State 5%nat tt 0%Q 5%Z 1%Z None [].

(** Evaluation graphs on integer inputs: two logits per example, and a
    loss of one half per example. *)
Definition two_logits (mb : list Z) : list (list Q) :=
  map (fun e => [inject_Z e; 1%Q]) mb.
Definition two_logits32 (mb : list Z) : list (list F32.float32) :=
  map (fun e => [F32.of_int e; F32.of_int 1]) mb.
Definition half_losses (mb : list (Z * nat)) : list Q :=
  map (fun _ => (1 # 2)%Q) mb.

(** A model that scores every example on its own. *)
Definition score (e : Z) : list Q := [inject_Z e; 1%Q].

(** Pretrained arrays whose slices are named by numbers: three positional
    rows, two token rows, one further array. *)
Definition any_width (_ : nat) : bool := true.
Definition named_arrays : list (list nat) :=
  [[20; 21; 22]; [30; 31]; [40]]%nat.
Definition named_special : list nat := [10; 11; 12]%nat.

(** The same with rows of one real number. *)
Definition real_arrays : list (list (list R)) :=
  [[[20%R]; [21%R]; [22%R]]; [[30%R]; [31%R]]; [[40%R]]].
Definition real_special : list (list R) := [[10%R]; [11%R]; [12%R]].

(** Two sequences of one slot each with hidden states of width one. *)
Definition one_slot_X : list (list (Z * Z)) := [[(12, 13)%Z]; [(12, 13)%Z]].
Definition one_slot_h : list (list (list R)) := [[[1%R]]; [[2%R]]].

(** The default sizes of the command line, with a context of 77 slots
    over the pretrained vocabulary. *)
Definition hparams : Graph.hparams :=
  Graph.Hparams 40478 3 77 768 12 (1 # 10) (1 # 10) Examples.heads_12_gelu.

End Samples.

(* ================================================================== *)
(** * Part II: properties                                              *)
(* ================================================================== *)

(** ** Generic list facts *)

Section ListFacts.
Context {A B C : Type}.

Lemma map2_length (f : A -> B -> C) (a : list A) (b : list B) :
  length (Py.map2 f a b) = Nat.min (length a) (length b).
Proof.
  revert b; induction a as [|x a IH]; intros [|y b]; simpl; auto.
Qed.

Lemma map2_nth (f : A -> B -> C) (a : list A) (b : list B)
      (i : nat) (da : A) (db : B) (dc : C) :
  (i < length a)%nat -> (i < length b)%nat ->
  nth i (Py.map2 f a b) dc = f (nth i a da) (nth i b db).
Proof.
  revert b i; induction a as [|x a IH]; intros [|y b] [|i]; simpl;
    intros Ha Hb; try lia; auto.
  apply IH; lia.
Qed.

Lemma map2_map_same (f : A -> A -> C) (g h : B -> A) (l : list B) :
  Py.map2 f (map g l) (map h l) = map (fun v => f (g v) (h v)) l.
Proof.
  induction l as [|v l IH]; simpl; congruence.
Qed.

End ListFacts.

(** ** The gelu activation *)

Section GeluFacts.
Import Kernels.
Local Open Scope R_scope.

(** C7.  For every tensor [x], [gelu x] has, at each entry [v] of [x],
    exactly the value [0.5*v*(1+tanh(sqrt(2/pi)*(v+0.044715*v^3)))]. *)
Theorem gelu_closed_form (x : tensor) :
  gelu x =
  map (fun v => 0.5 * v * (1 + tanh (sqrt (2 / PI) * (v + 0.044715 * v ^ 3)))) x.
Proof.
  unfold gelu, t_mul, t_add, scal_mul, scal_add, tf_tanh, tf_pow.
  rewrite <- (map_id x) at 2.
  rewrite (map_map (fun v => v ^ 3) (Rmult 0.044715)).
  rewrite (map2_map_same Rplus (fun v => v)).
  rewrite !map_map.
  rewrite (map2_map_same Rmult).
  reflexivity.
Qed.

End GeluFacts.

(** ** The causal mask and the softmax that follows it *)

Section MaskFacts.
Import Kernels.
Local Open Scope R_scope.

Lemma entry_map2 (f : R -> R -> R) (a b : matrix) (n i j : nat) :
  square n a -> square n b -> (i < n)%nat -> (j < n)%nat ->
  entry (mat_map2 f a b) i j = f (entry a i j) (entry b i j).
Proof.
  intros [La Ha] [Lb Hb] Hi Hj. unfold entry, mat_map2.
  rewrite (map2_nth (Py.map2 f) a b [] [] []) by lia.
  assert (Hra : length (nth i a []) = n).
  { rewrite Forall_forall in Ha. apply Ha, nth_In. lia. }
  assert (Hrb : length (nth i b []) = n).
  { rewrite Forall_forall in Hb. apply Hb, nth_In. lia. }
  apply map2_nth; lia.
Qed.

Lemma square_map2 (f : R -> R -> R) (a b : matrix) (n : nat) :
  square n a -> square n b -> square n (mat_map2 f a b).
Proof.
  intros [La Ha] [Lb Hb]. unfold mat_map2. split.
  - rewrite map2_length. lia.
  - clear La Lb. revert b Hb.
    induction Ha as [|r a Hr Ha IH]; intros [|r' b] Hb; simpl;
      try constructor.
    + inversion Hb; subst. rewrite map2_length. lia.
    + inversion Hb; subst. apply IH; assumption.
Qed.

Lemma square_band (n : nat) : square n (band_lower n).
Proof.
  unfold band_lower. split.
  - now rewrite length_map, length_seq.
  - apply Forall_forall. intros r Hr. apply in_map_iff in Hr.
    destruct Hr as [i [<- _]]. now rewrite length_map, length_seq.
Qed.

Lemma entry_band (n i j : nat) :
  (i < n)%nat -> (j < n)%nat ->
  entry (band_lower n) i j = if (j <=? i)%nat then 1 else 0.
Proof.
  intros Hi Hj. unfold entry, band_lower.
  rewrite (nth_indep _ [] (map (fun j => if (j <=? 0)%nat then 1 else 0) (seq 0 n)))
    by now rewrite length_map, length_seq.
  rewrite (map_nth (fun i => map (fun j => if (j <=? i)%nat then 1 else 0) (seq 0 n))).
  rewrite seq_nth by assumption. simpl.
  rewrite (nth_indep _ 0 (if (0 <=? i)%nat then 1 else 0))
    by now rewrite length_map, length_seq.
  rewrite (map_nth (fun j => if (j <=? i)%nat then 1 else 0)).
  now rewrite seq_nth.
Qed.

Lemma square_map (g : R -> R) (a : matrix) (n : nat) :
  square n a -> square n (map (map g) a).
Proof.
  intros [La Ha]. split.
  - now rewrite length_map.
  - apply Forall_forall. intros r Hr. apply in_map_iff in Hr.
    destruct Hr as [r0 [<- Hr0]]. rewrite length_map.
    rewrite Forall_forall in Ha. now apply Ha.
Qed.

Lemma entry_map (g : R -> R) (a : matrix) (n i j : nat) :
  square n a -> (i < n)%nat -> (j < n)%nat ->
  entry (map (map g) a) i j = g (entry a i j).
Proof.
  intros [La Ha] Hi Hj. unfold entry.
  rewrite (nth_indep _ [] (map g [])) by (rewrite length_map; lia).
  rewrite (map_nth (map g)).
  assert (Hr : length (nth i a []) = n).
  { rewrite Forall_forall in Ha. apply Ha, nth_In. lia. }
  rewrite (nth_indep _ 0 (g 0)) by (rewrite length_map; lia).
  now rewrite (map_nth g).
Qed.

Lemma square_mask_slice (n : nat) (w : matrix) :
  square n w -> square n (mask_slice n w).
Proof.
  intros Hw. unfold mask_slice.
  apply square_map2; [apply square_map2; auto using square_band|].
  apply square_map, square_band.
Qed.

(** The mask keeps the lower triangle and overwrites the rest. *)
Lemma entry_mask_slice (n : nat) (w : matrix) (i j : nat) :
  square n w -> (i < n)%nat -> (j < n)%nat ->
  entry (mask_slice n w) i j =
  if (j <=? i)%nat then entry w i j else neg_big.
Proof.
  intros Hw Hi Hj. unfold mask_slice.
  rewrite (@entry_map2 Rplus _ _ n) by
    (auto using square_map2, square_map, square_band).
  rewrite (@entry_map2 Rmult _ _ n) by (auto using square_band).
  rewrite (@entry_map _ _ n) by (auto using square_band).
  rewrite entry_band by assumption.
  destruct (j <=? i)%nat; lra.
Qed.

Lemma Rsum_exp_pos (row : list R) : 0 <= Rsum (map exp row).
Proof.
  induction row as [|v row IH]; simpl; [lra|].
  pose proof (exp_pos v). lra.
Qed.

Lemma Rsum_exp_ge (row : list R) (k : nat) :
  (k < length row)%nat -> exp (nth k row 0) <= Rsum (map exp row).
Proof.
  revert k; induction row as [|v row IH]; intros [|k] Hk; simpl in *;
    try lia.
  - pose proof (Rsum_exp_pos row). lra.
  - pose proof (exp_pos v). specialize (IH k ltac:(lia)). lra.
Qed.

(** One softmax entry is bounded through any other logit of its row. *)
Lemma softmax_row_bound (row : list R) (j k : nat) :
  (j < length row)%nat -> (k < length row)%nat ->
  nth j (softmax_row row) 0 <= exp (nth j row 0 - nth k row 0).
Proof.
  intros Hj Hk. unfold softmax_row.
  set (z := Rsum (map exp row)).
  rewrite (nth_indep _ 0 (exp 0 / z)) by (rewrite length_map; lia).
  rewrite (map_nth (fun v => exp v / z)).
  pose proof (Rsum_exp_ge row Hk) as Hz. fold z in Hz.
  pose proof (exp_pos (nth k row 0)) as Hpk.
  pose proof (exp_pos (nth j row 0)) as Hpj.
  unfold Rminus. rewrite exp_plus, exp_Ropp. unfold Rdiv.
  apply Rmult_le_compat_l; [lra|].
  apply Rinv_le_contravar; lra.
Qed.

Lemma exp_INR_ge_pow2 (m : nat) : 2 ^ m <= exp (INR m).
Proof.
  induction m as [|m IH].
  - simpl. rewrite exp_0. lra.
  - rewrite S_INR, exp_plus. simpl.
    assert (H1 : 2 <= exp 1).
    { pose proof (exp_ineq1 1 ltac:(lra)). lra. }
    pose proof (pow_lt 2 m ltac:(lra)).
    rewrite (Rmult_comm 2). apply Rmult_le_compat; lra.
Qed.

Lemma exp_m24_le_eps : exp (- 24) <= float32_eps.
Proof.
  unfold float32_eps.
  replace (-24) with (Ropp 24) by lra. rewrite exp_Ropp.
  pose proof (exp_INR_ge_pow2 24) as H.
  replace (INR 24) with 24 in H by (simpl; lra).
  apply Rinv_le_contravar; [apply pow_lt; lra|].
  apply Rle_trans with (2 ^ 24); [|exact H].
  simpl; lra.
Qed.

End MaskFacts.

Section MaskClaim.
Import Kernels.
Local Open Scope R_scope.

Lemma nth_mask_attn_weights (n : nat) (w : list matrix) (s : nat) :
  (s < length w)%nat ->
  nth s (mask_attn_weights n w) [] = mask_slice n (nth s w []).
Proof.
  intros Hs. unfold mask_attn_weights.
  rewrite (nth_indep _ [] (mask_slice n [])) by (rewrite length_map; lia).
  apply (map_nth (mask_slice n)).
Qed.

Lemma entry_softmax_bound (n : nat) (m : matrix) (i j k : nat) :
  square n m -> (i < n)%nat -> (j < n)%nat -> (k < n)%nat ->
  entry (softmax m) i j <= exp (entry m i j - entry m i k).
Proof.
  intros [Lm Hm] Hi Hj Hk. unfold entry, softmax.
  rewrite (nth_indep _ [] (softmax_row [])) by (rewrite length_map; lia).
  rewrite (map_nth softmax_row).
  assert (Hr : length (nth i m []) = n).
  { rewrite Forall_forall in Hm. apply Hm, nth_In. lia. }
  apply softmax_row_bound; lia.
Qed.

(** C3 (amended).  On every [n] by [n] slice of the logits the mask keeps
    entry [(i, j)] for [j <= i] and sets it to [-1e9] for [j > i].  After
    the softmax a masked position carries at most [exp (- c)] of the
    probability mass as soon as one unmasked logit of its row is at least
    [-1e9 + c]; with [c = 24] this is below the 32-bit machine epsilon. *)
Theorem mask_attn_weights_causal (n : nat) (w : list matrix) (s i j : nat) :
  Forall (square n) w -> (s < length w)%nat -> (i < n)%nat -> (j < n)%nat ->
  let w0 := nth s w [] in
  let m := nth s (mask_attn_weights n w) [] in
  ((j <= i)%nat -> entry m i j = entry w0 i j) /\
  ((i < j)%nat -> entry m i j = -1e9) /\
  ((i < j)%nat -> forall (k : nat) (c : R),
      (k <= i)%nat -> -1e9 + c <= entry w0 i k ->
      entry (softmax m) i j <= exp (- c)) /\
  ((i < j)%nat -> forall k : nat,
      (k <= i)%nat -> -1e9 + 24 <= entry w0 i k ->
      entry (softmax m) i j <= float32_eps).
Proof.
  intros Hw Hs Hi Hj w0 m.
  assert (Hsq : square n w0).
  { rewrite Forall_forall in Hw. apply Hw, nth_In, Hs. }
  assert (Hm : m = mask_slice n w0) by (apply nth_mask_attn_weights, Hs).
  assert (Hbound : (i < j)%nat -> forall (k : nat) (c : R),
             (k <= i)%nat -> -1e9 + c <= entry w0 i k ->
             entry (softmax m) i j <= exp (- c)).
  { intros Hij k c Hk Hc. rewrite Hm.
    eapply Rle_trans.
    - apply (@entry_softmax_bound n _ i j k);
        auto using square_mask_slice; lia.
    - rewrite !entry_mask_slice by (auto; lia).
      replace (j <=? i)%nat with false by (symmetry; apply Nat.leb_gt; lia).
      replace (k <=? i)%nat with true by (symmetry; apply Nat.leb_le; lia).
      unfold neg_big.
      destruct (Rle_lt_or_eq_dec _ _ Hc) as [Hlt | Heq].
      + left. apply exp_increasing. lra.
      + right. f_equal. lra. }
  repeat split.
  - intros Hji. rewrite Hm, entry_mask_slice by assumption.
    now replace (j <=? i)%nat with true by (symmetry; apply Nat.leb_le; lia).
  - intros Hij. rewrite Hm, entry_mask_slice by assumption.
    now replace (j <=? i)%nat with false by (symmetry; apply Nat.leb_gt; lia).
  - exact Hbound.
  - intros Hij k Hk Hc.
    apply Rle_trans with (exp (- 24)); [|apply exp_m24_le_eps].
    replace (-24) with (Ropp 24) by lra.
    now apply (Hbound Hij k 24).
Qed.

(** A slice of zero logits: the masked corner keeps less than machine
    epsilon of the mass. *)
Lemma mask_attn_weights_causal_witness :
  Forall (square 2) [[[0; 0]; [0; 0]]] /\
  entry (softmax (nth 0 (mask_attn_weights 2 [[[0; 0]; [0; 0]]]) [])) 0 1
  <= float32_eps.
Proof.
  assert (Hsq : Forall (square 2) [[[0; 0]; [0; 0]]]).
  { repeat constructor. }
  split; [exact Hsq|].
  refine (proj2 (proj2 (proj2
    (@mask_attn_weights_causal 2 [[[0; 0]; [0; 0]]] 0 0 1 Hsq _ _ _))) _ 0%nat _ _).
  - simpl; lia.
  - lia.
  - lia.
  - lia.
  - lia.
  - unfold entry; simpl. lra.
Defined.

(** C3 as stated fails: a row whose only unmasked logit lies below the
    masking constant gives the masked position more than half of the
    probability mass. *)
Lemma mask_softmax_not_negligible :
  Forall (square 2) [[[-2e9; 0]; [0; 0]]] /\
  ~ entry (softmax (nth 0 (mask_attn_weights 2 [[[-2e9; 0]; [0; 0]]]) [])) 0 1
    <= float32_eps.
Proof.
  split; [repeat constructor|].
  cbv [entry softmax softmax_row mask_attn_weights mask_slice mat_map2
       band_lower Py.map2 map nth seq Nat.leb Rsum fold_right neg_big].
  set (a := -2e9 * 1 + -1e9 * (1 - 1)).
  set (b := 0 * 0 + -1e9 * (1 - 0)).
  assert (Hab : exp a < exp b) by (apply exp_increasing; unfold a, b; lra).
  pose proof (exp_pos a) as Ha. pose proof (exp_pos b) as Hb.
  assert (Hhalf : / 2 < exp b / (exp a + (exp b + 0))).
  { apply Rmult_lt_reg_r with (exp a + (exp b + 0)); [lra|].
    unfold Rdiv. rewrite Rmult_assoc, Rinv_l by lra. lra. }
  assert (Heps : float32_eps < / 2).
  { unfold float32_eps. apply Rinv_lt_contravar; simpl; lra. }
  lra.
Qed.

End MaskClaim.

(** ** Shapes through the attention sublayer and the block *)

Section ShapeOps.
Import Shape.
Local Open Scope Z_scope.

Lemma shape_eqb_refl (s : shape) : shape_eqb s s = true.
Proof.
  induction s as [|d s IH]; simpl; [reflexivity|].
  now rewrite Z.eqb_refl, IH.
Qed.

Lemma reshape_flatten (s : shape) (nx : Z) :
  0 < nx -> prod s mod nx = 0 ->
  tf_reshape s [-1; nx] = Py.ok [prod s / nx; nx].
Proof.
  intros Hnx Hdiv. unfold tf_reshape.
  assert (E1 : (nx <? -1) = false) by (apply Z.ltb_ge; lia).
  assert (E2 : (-1 =? nx) = false) by (apply Z.eqb_neq; lia).
  assert (E3 : (nx =? -1) = false) by (apply Z.eqb_neq; lia).
  cbn [existsb filter List.length map negb orb].
  change (-1 <? -1) with false. change (-1 =? -1) with true.
  rewrite E1, E2, E3. cbn [orb negb filter List.length prod fold_right map].
  rewrite Z.mul_1_r, Hdiv.
  replace (nx =? 0) with false by (symmetry; apply Z.eqb_neq; lia).
  reflexivity.
Qed.

Lemma reshape_exact (s new : shape) :
  Forall (fun d => 0 <= d) new -> prod new = prod s ->
  tf_reshape s new = Py.ok new.
Proof.
  intros Hpos Hprod. unfold tf_reshape.
  assert (E1 : existsb (fun d => d <? -1) new = false).
  { clear Hprod. induction Hpos as [|d new Hd _ IH]; cbn [existsb]; [reflexivity|].
    rewrite IH. destruct (Z.ltb_spec d (-1)); [lia|reflexivity]. }
  assert (E2 : filter (Z.eqb (-1)) new = []).
  { clear Hprod E1. induction Hpos as [|d new Hd _ IH]; cbn [filter]; [reflexivity|].
    rewrite IH. destruct (Z.eqb_spec (-1) d); [lia|reflexivity]. }
  rewrite E1, E2. simpl List.length. now rewrite Hprod, Z.eqb_refl.
Qed.

Lemma matmul_2d (m k n : Z) : tf_matmul [m; k] [k; n] = Py.ok [m; n].
Proof. unfold tf_matmul. simpl. now rewrite Z.eqb_refl. Qed.

Lemma matmul_4d (b h m k n : Z) :
  tf_matmul [b; h; m; k] [b; h; k; n] = Py.ok [b; h; m; n].
Proof. unfold tf_matmul. simpl. now rewrite !Z.eqb_refl. Qed.

Lemma broadcast_dim_one (x : Z) :
  (if x =? 1 then Py.ok x
   else if x =? 1 then Py.ok 1
        else if 1 =? 1 then Py.ok x else Py.raise Py.ValueError)
  = (Py.ok x : Py.result Z).
Proof. destruct (x =? 1); reflexivity. Qed.

Lemma broadcast_rev_same (s : shape) : broadcast_rev s s = Py.ok s.
Proof.
  induction s as [|d s IH]; simpl; [reflexivity|].
  now rewrite Z.eqb_refl, IH.
Qed.

Lemma broadcast_same (s : shape) : broadcast s s = Py.ok s.
Proof.
  unfold broadcast. rewrite broadcast_rev_same. simpl.
  now rewrite rev_involutive.
Qed.

Lemma broadcast_rev_nil_r (a : shape) : broadcast_rev a [] = Py.ok a.
Proof. destruct a; reflexivity. Qed.

(** A vector along the last axis broadcasts against any tensor. *)
Lemma broadcast_last (lead : shape) (n : Z) :
  broadcast (lead ++ [n]) [n] = Py.ok (lead ++ [n]).
Proof.
  unfold broadcast. rewrite rev_app_distr.
  cbn [rev app broadcast_rev].
  rewrite Z.eqb_refl, broadcast_rev_nil_r. cbn [Py.bind Py.ok rev].
  now rewrite rev_involutive.
Qed.

(** A tensor whose last axis was reduced broadcasts back. *)
Lemma broadcast_keep (lead : shape) (n : Z) :
  broadcast (lead ++ [n]) (lead ++ [1]) = Py.ok (lead ++ [n]).
Proof.
  unfold broadcast. rewrite !rev_app_distr.
  cbn [rev app broadcast_rev].
  rewrite broadcast_dim_one, broadcast_rev_same. cbn [Py.bind Py.ok rev].
  now rewrite rev_involutive.
Qed.

Lemma last_dim_app (lead : shape) (n : Z) : last_dim (lead ++ [n]) = Py.ok n.
Proof. unfold last_dim. now rewrite rev_app_distr. Qed.

Lemma reduce_mean_keep_app (lead : shape) (n : Z) :
  reduce_mean_keep (lead ++ [n]) = Py.ok (lead ++ [1]).
Proof.
  unfold reduce_mean_keep. rewrite rev_app_distr. simpl.
  now rewrite rev_involutive.
Qed.

(** Layer normalisation keeps the shape of any tensor of rank >= 1. *)
Lemma norm_app (lead : shape) (n : Z) :
  norm (lead ++ [n]) = Py.ok (lead ++ [n]).
Proof.
  unfold norm. rewrite last_dim_app. cbn [Py.bind Py.ok].
  rewrite reduce_mean_keep_app. cbn [Py.bind Py.ok].
  rewrite broadcast_keep. cbn [Py.bind Py.ok].
  rewrite reduce_mean_keep_app. cbn [Py.bind Py.ok].
  rewrite broadcast_keep. cbn [Py.bind Py.ok].
  rewrite broadcast_last. cbn [Py.bind Py.ok].
  apply broadcast_last.
Qed.

Lemma dropout_ok (x : shape) (pdrop : Q) (train : bool) :
  (train = true -> (pdrop < 1)%Q) -> dropout x pdrop train = Py.ok x.
Proof.
  intros H. unfold dropout. destruct train; simpl; [|reflexivity].
  destruct (Qle_bool pdrop 0) eqn:E0; simpl; [reflexivity|].
  specialize (H eq_refl).
  assert (Hp : (0 < pdrop)%Q).
  { apply Qnot_le_lt. intros Hle. apply Qle_bool_iff in Hle. congruence. }
  assert (H1 : Qle_bool (1 - pdrop) 0 = false).
  { destruct (Qle_bool (1 - pdrop) 0) eqn:E1; [|reflexivity].
    apply Qle_bool_iff in E1. exfalso.
    apply (Qlt_not_le _ _ H). apply Qle_minus_iff in E1.
    apply Qle_minus_iff. setoid_replace (pdrop + - (1))%Q with (0 + - (1 - pdrop))%Q by ring.
    exact E1. }
  assert (H2 : Qle_bool (1 - pdrop) 1 = true).
  { apply Qle_bool_iff. apply Qle_minus_iff.
    setoid_replace (1 + - (1 - pdrop))%Q with pdrop by ring.
    now apply Qlt_le_weak. }
  now rewrite H1, H2.
Qed.

End ShapeOps.

Section ShapeBlock.
Import Shape.
Local Open Scope Z_scope.

Ltac step H := rewrite H; cbn [Py.bind Py.ok].

Lemma last_dim_rank3 (b t n : Z) : last_dim [b; t; n] = Py.ok n.
Proof. reflexivity. Qed.

Lemma last_dim_rank4 (b h t n : Z) : last_dim [b; h; t; n] = Py.ok n.
Proof. reflexivity. Qed.

Lemma broadcast_bias (m n : Z) : broadcast [m; n] [n] = Py.ok [m; n].
Proof. exact (broadcast_last [m] n). Qed.

Lemma norm_rank3 (b t n : Z) : norm [b; t; n] = Py.ok [b; t; n].
Proof. exact (norm_app [b; t] n). Qed.

Lemma conv1d_rank3 (b t nx nf : Z) :
  0 < b -> 0 < t -> 0 < nx -> 0 < nf ->
  conv1d [b; t; nx] nf = Py.ok [b; t; nf].
Proof.
  intros Hb Ht Hnx Hnf. unfold conv1d.
  step (last_dim_rank3 b t nx).
  assert (P1 : prod [b; t; nx] = b * t * nx)
    by (cbn [prod fold_right]; ring).
  assert (P2 : prod [1; nx; nf] = nx * nf)
    by (cbn [prod fold_right]; ring).
  rewrite reshape_flatten by (rewrite ?P1; try lia; apply Z.mod_mul; lia).
  cbn [Py.bind Py.ok]. rewrite P1, Z.div_mul by lia.
  rewrite reshape_flatten by (rewrite ?P2; try lia; apply Z.mod_mul; lia).
  cbn [Py.bind Py.ok]. rewrite P2, Z.div_mul by lia.
  step (matmul_2d (b * t) nx nf).
  step (broadcast_bias (b * t) nf).
  cbn [removelast app].
  apply reshape_exact.
  - repeat constructor; lia.
  - cbn [prod fold_right]. ring.
Qed.

Lemma split_heads_rank3 (b t h d : Z) (k : bool) :
  0 < b -> 0 < t -> 0 < h -> 0 < d ->
  split_heads [b; t; h * d] h k
  = Py.ok (if k then [b; h; d; t] else [b; h; t; d]).
Proof.
  intros Hb Ht Hh Hd. unfold split_heads, split_states.
  step (last_dim_rank3 b t (h * d)).
  replace (h =? 0) with false by (symmetry; apply Z.eqb_neq; lia).
  cbn [removelast app].
  rewrite (Z.mul_comm h d), Z.div_mul by lia.
  rewrite reshape_exact;
    [| repeat constructor; lia | cbn [prod fold_right]; ring].
  cbn [Py.bind Py.ok]. destruct k; reflexivity.
Qed.

Lemma mask_rank4 (b h t : Z) :
  0 < t -> mask_attn_weights [b; h; t; t] = Py.ok [b; h; t; t].
Proof.
  intros Ht. unfold mask_attn_weights.
  step (last_dim_rank4 b h t t).
  rewrite reshape_exact;
    [| repeat constructor; lia | cbn [prod fold_right]; ring].
  cbn [Py.bind Py.ok].
  assert (B : broadcast [b; h; t; t] [1; 1; t; t] = Py.ok [b; h; t; t]).
  { unfold broadcast. cbn [rev app broadcast_rev].
    rewrite !Z.eqb_refl. cbn [Py.bind Py.ok].
    rewrite !broadcast_dim_one. reflexivity. }
  step B. exact B.
Qed.

Lemma merge_heads_rank4 (b h t d : Z) :
  0 <= b -> 0 <= t -> 0 <= h -> 0 <= d ->
  merge_heads [b; h; t; d] = Py.ok [b; t; h * d].
Proof.
  intros Hb Ht Hh Hd. unfold merge_heads, tf_transpose.
  cbn [List.length Nat.eqb map nth Py.bind Py.ok].
  unfold merge_states.
  cbn [List.length Nat.sub firstn skipn app prod fold_right].
  rewrite Z.mul_1_r. apply reshape_exact.
  - repeat constructor; nia.
  - cbn [prod fold_right]. ring.
Qed.

Variable cfg : params.

Lemma _attn_rank4 (b h t d : Z) (train : bool) :
  0 < t -> (train = true -> (attn_pdrop cfg < 1)%Q) ->
  _attn cfg [b; h; t; d] [b; h; d; t] [b; h; t; d] train
  = Py.ok [b; h; t; d].
Proof.
  intros Ht Hrate. unfold _attn.
  step (matmul_4d b h t d t).
  step (@mask_rank4 b h t Ht).
  step (@dropout_ok [b; h; t; t] _ train Hrate).
  apply matmul_4d.
Qed.

(** With a positive head count that divides the width, the attention
    sublayer is built and keeps the shape of its input. *)
Lemma attn_rank3 (b t h d : Z) (train : bool) :
  0 < b -> 0 < t -> 0 < h -> 0 < d ->
  (train = true -> (attn_pdrop cfg < 1)%Q /\ (resid_pdrop cfg < 1)%Q) ->
  attn cfg [b; t; h * d] (h * d) h train = Py.ok [b; t; h * d].
Proof.
  intros Hb Ht Hh Hd Hrate. unfold attn.
  replace (h =? 0) with false by (symmetry; apply Z.eqb_neq; lia).
  replace ((h * d) mod h) with 0
    by (symmetry; rewrite (Z.mul_comm h d); apply Z.mod_mul; lia).
  cbn [Z.eqb negb].
  assert (Hn : 0 < h * d) by nia.
  step (@conv1d_rank3 b t (h * d) (h * d * 3) Hb Ht Hn ltac:(lia)).
  unfold tf_split3. rewrite Z.mod_mul, Z.div_mul by lia.
  cbn [Z.eqb Py.bind Py.ok].
  step (@split_heads_rank3 b t h d false Hb Ht Hh Hd).
  step (@split_heads_rank3 b t h d true Hb Ht Hh Hd).
  step (@_attn_rank4 b h t d train Ht (fun e => proj1 (Hrate e))).
  step (@merge_heads_rank4 b h t d ltac:(lia) ltac:(lia) ltac:(lia) ltac:(lia)).
  step (@conv1d_rank3 b t (h * d) (h * d) Hb Ht Hn Hn).
  apply dropout_ok. intros e. apply (proj2 (Hrate e)).
Qed.

Lemma mlp_rank3 (b t nx : Z) (train : bool) :
  0 < b -> 0 < t -> 0 < nx ->
  (train = true -> (resid_pdrop cfg < 1)%Q) ->
  (afn cfg = "relu" \/ afn cfg = "swish" \/ afn cfg = "gelu")%string ->
  mlp cfg [b; t; nx] (nx * 4) train = Py.ok [b; t; nx].
Proof.
  intros Hb Ht Hnx Hrate Hafn. unfold mlp.
  step (last_dim_rank3 b t nx).
  assert (A : act_fns (afn cfg) = Py.ok (fun s : shape => s)).
  { unfold act_fns. destruct Hafn as [-> | [-> | ->]]; reflexivity. }
  step A.
  step (@conv1d_rank3 b t nx (nx * 4) Hb Ht Hnx ltac:(lia)).
  step (@conv1d_rank3 b t (nx * 4) nx Hb Ht ltac:(lia) Hnx).
  now apply dropout_ok.
Qed.

Lemma block_rank3 (b t d : Z) (train : bool) :
  0 < b -> 0 < t -> 0 < n_head cfg -> 0 < d ->
  (train = true -> (attn_pdrop cfg < 1)%Q /\ (resid_pdrop cfg < 1)%Q) ->
  (afn cfg = "relu" \/ afn cfg = "swish" \/ afn cfg = "gelu")%string ->
  block cfg [b; t; n_head cfg * d] train = Py.ok [b; t; n_head cfg * d].
Proof.
  intros Hb Ht Hh Hd Hrate Hafn. unfold block.
  set (h := n_head cfg) in *.
  assert (Hn : 0 < h * d) by nia.
  step (last_dim_rank3 b t (h * d)).
  step (@attn_rank3 b t h d train Hb Ht Hh Hd Hrate).
  step (broadcast_same [b; t; h * d]).
  step (norm_rank3 b t (h * d)).
  step (@mlp_rank3 b t (h * d) train Hb Ht Hn (fun e => proj2 (Hrate e)) Hafn).
  step (broadcast_same [b; t; h * d]).
  apply norm_rank3.
Qed.

(** Whatever the rest of the configuration, a head count that does not
    divide the width stops the construction at once. *)
Lemma attn_fails_fast (x : shape) (n_state h : Z) (train : bool) :
  n_state mod h <> 0 \/ h = 0 -> Py.raises (attn cfg x n_state h train).
Proof.
  intros H. unfold attn, Py.raises.
  destruct (Z.eqb_spec h 0) as [E | E]; [eexists; reflexivity|].
  destruct H as [H | H]; [|contradiction].
  replace (n_state mod h =? 0) with false by (symmetry; now apply Z.eqb_neq).
  eexists; reflexivity.
Qed.

End ShapeBlock.

Section ShapeClaim.
Import Shape.
Local Open Scope Z_scope.
Variable cfg : params.

(** C6 (amended).  For an input of shape [[b; t; nx]] with positive
    dimensions, a positive head count, dropout rates below 1 when
    training: building the attention sublayer raises if and only if
    [nx] is not divisible by the head count, and then the block is not
    built either; when it is divisible and the activation is one of
    relu, swish and gelu, the block is built and maps the shape to
    itself.  For every configuration and input, a head count that is
    zero or does not divide the width makes the attention sublayer
    raise before anything is built. *)
Theorem attn_head_divisibility (b t nx : Z) (train : bool) :
  0 < b -> 0 < t -> 0 < nx -> 0 < n_head cfg ->
  (train = true -> (attn_pdrop cfg < 1)%Q /\ (resid_pdrop cfg < 1)%Q) ->
  (Py.raises (attn cfg [b; t; nx] nx (n_head cfg) train)
   <-> nx mod n_head cfg <> 0) /\
  (nx mod n_head cfg <> 0 -> Py.raises (block cfg [b; t; nx] train)) /\
  (nx mod n_head cfg = 0 ->
   (afn cfg = "relu" \/ afn cfg = "swish" \/ afn cfg = "gelu")%string ->
   block cfg [b; t; nx] train = Py.ok [b; t; nx]) /\
  (forall (x : shape) (n_state h : Z) (tr : bool),
      n_state mod h <> 0 \/ h = 0 -> Py.raises (attn cfg x n_state h tr)).
Proof.
  intros Hb Ht Hnx Hh Hrate.
  assert (Hdiv : nx mod n_head cfg = 0 ->
                 exists d, 0 < d /\ nx = n_head cfg * d).
  { intros Hm. exists (nx / n_head cfg).
    assert (E : nx = n_head cfg * (nx / n_head cfg))
      by (apply Z.div_exact; lia).
    split; [nia | exact E]. }
  repeat split.
  - intros [e He] Hm. destruct (Hdiv Hm) as (d & Hd & E).
    rewrite E in He at 1 2.
    rewrite (@attn_rank3 cfg b t (n_head cfg) d train) in He by assumption.
    discriminate.
  - intros Hm. apply attn_fails_fast. now left.
  - intros Hm. unfold block. rewrite last_dim_rank3. cbn [Py.bind Py.ok].
    destruct (@attn_fails_fast cfg [b; t; nx] nx (n_head cfg) train
                (or_introl Hm)) as [e He].
    rewrite He. exists e. reflexivity.
  - intros Hm Hafn. destruct (Hdiv Hm) as (d & Hd & E).
    rewrite E. now apply block_rank3.
  - intros x n_state h tr H. now apply attn_fails_fast.
Qed.

End ShapeClaim.

(** The default configuration: width 768, twelve heads, gelu. *)
Lemma attn_head_divisibility_witness :
  (768 mod Shape.n_head Examples.heads_12_gelu = 0)%Z /\
  Shape.block Examples.heads_12_gelu [16; 77; 768]%Z true
  = Py.ok [16; 77; 768]%Z.
Proof.
  assert (Hm : (768 mod Shape.n_head Examples.heads_12_gelu = 0)%Z)
    by reflexivity.
  split; [exact Hm|].
  refine (proj1 (proj2 (proj2
    (@attn_head_divisibility Examples.heads_12_gelu 16 77 768 true
                             _ _ _ _ _))) Hm _).
  - reflexivity.
  - reflexivity.
  - reflexivity.
  - reflexivity.
  - intros _. split; reflexivity.
  - right. right. reflexivity.
Defined.

(** C6 as stated fails: with the width divisible by the head count, the
    block is still not built when the activation name is unknown, and the
    attention sublayer is not built when the head count is negative. *)
Lemma block_fails_though_divisible :
  (768 mod Shape.n_head Examples.heads_12_tanh = 0)%Z /\
  Shape.block Examples.heads_12_tanh [16; 77; 768]%Z false
  = Py.raise Py.KeyError /\
  (768 mod Shape.n_head Examples.heads_minus_12 = 0)%Z /\
  Shape.attn Examples.heads_minus_12 [16; 77; 768]%Z 768
             (Shape.n_head Examples.heads_minus_12) false
  = Py.raise Py.ValueError.
Proof.
  repeat split; vm_compute; reflexivity.
Qed.

(** ** The language-model loss *)

Section LmHeadFacts.
Import Head.
Local Open Scope R_scope.

Lemma chunks_concat {A : Type} (cols : nat) (ls : list (list A)) :
  Forall (fun r => List.length r = cols) ls ->
  chunks (List.length ls) cols (concat ls) = ls.
Proof.
  induction 1 as [|r ls Hr _ IH]; simpl; [reflexivity|].
  rewrite firstn_app, skipn_app.
  replace (cols - List.length r)%nat with 0%nat by lia. simpl.
  rewrite app_nil_r, firstn_all2, skipn_all2 by lia. simpl. now rewrite IH.
Qed.

Lemma concat_length_uniform {A : Type} (cols : nat) (ls : list (list A)) :
  Forall (fun r => List.length r = cols) ls ->
  List.length (concat ls) = (List.length ls * cols)%nat.
Proof.
  induction 1 as [|r ls Hr _ IH]; simpl; [reflexivity|].
  rewrite length_app, IH, Hr. reflexivity.
Qed.

Lemma map2_app {A B C : Type} (f : A -> B -> C) (a1 a2 : list A)
      (b1 b2 : list B) :
  List.length a1 = List.length b1 ->
  Py.map2 f (a1 ++ a2) (b1 ++ b2) = Py.map2 f a1 b1 ++ Py.map2 f a2 b2.
Proof.
  revert b1; induction a1 as [|x a1 IH]; intros [|y b1] H; simpl in *;
    try discriminate; [reflexivity|].
  f_equal. apply IH. now injection H.
Qed.

(** An elementwise operation on two flattened tensors acts slice by
    slice. *)
Lemma map2_concat {A B C : Type} (f : A -> B -> C) (cols : nat)
      (la : list (list A)) (lb : list (list B)) :
  List.length la = List.length lb ->
  Forall (fun r => List.length r = cols) la ->
  Forall (fun r => List.length r = cols) lb ->
  Py.map2 f (concat la) (concat lb) = concat (Py.map2 (Py.map2 f) la lb).
Proof.
  revert lb; induction la as [|a la IH]; intros [|b lb] Hl Ha Hb;
    simpl in *; try discriminate; [reflexivity|].
  inversion Ha; subst. inversion Hb; subst.
  rewrite map2_app by congruence. f_equal. apply IH; auto.
Qed.

Lemma map2_indexed {A B C : Type} (f : A -> B -> C) (a : list A)
      (b : list B) (da : A) (db : B) (m : nat) :
  List.length a = m -> List.length b = m ->
  Py.map2 f a b = map (fun i => f (nth i a da) (nth i b db)) (seq 0 m).
Proof.
  revert b m; induction a as [|x a IH]; intros [|y b] m Ha Hb;
    simpl in *; subst; try discriminate; [reflexivity|].
  simpl. f_equal. rewrite <- seq_shift, map_map. apply IH; auto.
Qed.

Lemma nth_removelast {A : Type} (l : list A) (i : nat) (d : A) :
  (S i < List.length l)%nat -> nth i (removelast l) d = nth i l d.
Proof.
  revert i; induction l as [|x l IH]; intros i Hi; simpl in *; [lia|].
  destruct l as [|y l]; [simpl in *; lia|].
  destruct i as [|i]; [reflexivity|]. apply IH. simpl in *. lia.
Qed.

Lemma removelast_length {A : Type} (l : list A) :
  List.length (removelast l) = (List.length l - 1)%nat.
Proof.
  rewrite removelast_firstn_len, length_firstn. lia.
Qed.

Lemma nth_tl {A : Type} (l : list A) (i : nat) (d : A) :
  nth i (tl l) d = nth (S i) l d.
Proof. destruct l; [now destruct i|reflexivity]. Qed.

Lemma tl_length {A : Type} (l : list A) :
  List.length (tl l) = (List.length l - 1)%nat.
Proof. destruct l; simpl; lia. Qed.

Lemma map2_map_l {A A' B C : Type} (f : A' -> B -> C) (g : A -> A')
      (a : list A) (b : list B) :
  Py.map2 f (map g a) b = Py.map2 (fun x y => f (g x) y) a b.
Proof.
  revert b; induction a as [|x a IH]; intros [|y b]; simpl; auto.
  now rewrite IH.
Qed.

Lemma map2_ext_len {A B C : Type} (f g : A -> B -> C) (a : list A)
      (b : list B) :
  (forall x y, In x a -> In y b -> f x y = g x y) ->
  Py.map2 f a b = Py.map2 g a b.
Proof.
  revert b; induction a as [|x a IH]; intros [|y b] H; simpl; auto.
  f_equal; [apply H; now left|]. apply IH. intros; apply H; now right.
Qed.

Lemma map2_length_uniform {A B C : Type} (f : A -> B -> C) (cols : nat)
      (la : list (list A)) (lb : list (list B)) :
  List.length la = List.length lb ->
  Forall (fun r => List.length r = cols) la ->
  Forall (fun r => List.length r = cols) lb ->
  Forall (fun r => List.length r = cols) (Py.map2 (Py.map2 f) la lb).
Proof.
  revert lb; induction la as [|a la IH]; intros [|b lb] Hl Ha Hb;
    simpl in *; try discriminate; constructor.
  - inversion Ha; subst. inversion Hb; subst. rewrite map2_length. lia.
  - inversion Ha; subst. inversion Hb; subst. apply IH; auto.
Qed.

End LmHeadFacts.

Section LmHeadClaim.
Import Head.
Local Open Scope R_scope.

Lemma list_indexed {A : Type} (l : list A) (d : A) (m : nat) :
  List.length l = m -> l = map (fun i => nth i l d) (seq 0 m).
Proof.
  revert m; induction l as [|x l IH]; intros m Hm; simpl in *; subst;
    [reflexivity|].
  simpl. f_equal. rewrite <- seq_shift, map_map. now apply IH.
Qed.

Lemma map_seq_shift {A : Type} (f : nat -> A) (m : nat) :
  map f (seq 1 m) = map (fun i => f (S i)) (seq 0 m).
Proof. now rewrite <- seq_shift, map_map. Qed.

(** The masked sum of one sequence, position by position. *)
Lemma lm_row_sum (we : list (list R)) (n : nat) (hb : list (list R))
      (xb : list (nat * nat)) (mb : list R) :
  List.length hb = n -> List.length xb = n -> List.length mb = n ->
  Rsum (Py.map2 Rmult
          (Py.map2 cross_entropy (map (position_logits we) (removelast hb))
                   (map fst (tl xb)))
          (tl mb))
  = Rsum (map (fun t => cross_entropy (position_logits we (nth (t - 1) hb []))
                                      (fst (nth t xb (0%nat, 0%nat)))
                        * nth t mb 0)
              (seq 1 (n - 1))).
Proof.
  intros Hh Hx Hm. f_equal.
  rewrite map_seq_shift.
  rewrite (@map2_indexed _ _ _ Rmult _ _ 0 0 (n - 1));
    [| rewrite map2_length, !length_map, removelast_length, tl_length; lia
     | rewrite tl_length; lia].
  apply map_ext_in. intros i Hi. apply in_seq in Hi.
  rewrite nth_tl. f_equal.
  rewrite (map2_nth cross_entropy _ _ [] 0%nat 0)
    by (rewrite length_map, ?removelast_length, ?tl_length; lia).
  f_equal.
  - rewrite (nth_indep _ [] (position_logits we []))
      by (rewrite length_map, removelast_length; lia).
    rewrite (map_nth (position_logits we)).
    rewrite nth_removelast by lia. simpl. now rewrite Nat.sub_0_r.
  - rewrite (nth_indep _ 0%nat (fst (0%nat, 0%nat)))
      by (rewrite length_map, tl_length; lia).
    rewrite (map_nth fst). now rewrite nth_tl.
Qed.

Lemma mask_row_sum (n : nat) (mb : list R) :
  List.length mb = n ->
  Rsum (tl mb) = Rsum (map (fun t => nth t mb 0) (seq 1 (n - 1))).
Proof.
  intros Hm. f_equal. rewrite map_seq_shift.
  rewrite (@list_indexed _ (tl mb) 0 (n - 1)) at 1 by (rewrite tl_length; lia).
  apply map_ext. intros i. apply nth_tl.
Qed.

Lemma lm_losses_rows (n_ctx : nat) (h : list (list (list R)))
      (we : list (list R)) (X : list (list (nat * nat)))
      (M : list (list R)) :
  List.length h = List.length X -> List.length M = List.length X ->
  Forall (fun s => List.length s = n_ctx) h ->
  Forall (fun s => List.length s = n_ctx) X ->
  Forall (fun s => List.length s = n_ctx) M ->
  exists losses,
    lm_losses n_ctx h we X M = Py.ok losses /\
    List.length losses = List.length X /\
    forall b, (b < List.length X)%nat ->
      nth b losses 0 =
      Rsum (map (fun t =>
                   cross_entropy
                     (position_logits we (nth (t - 1) (nth b h []) []))
                     (fst (nth t (nth b X []) (0%nat, 0%nat)))
                   * nth t (nth b M []) 0)
                (seq 1 (n_ctx - 1)))
      / Rsum (map (fun t => nth t (nth b M []) 0) (seq 1 (n_ctx - 1))).
Proof.
  intros Hh HM Fh FX FM.
  set (LA := map (map (position_logits we)) (map Py.slice_to_last h)).
  set (LB := map (fun x : list (nat * nat) => map fst (Py.slice_from1 x)) X).
  set (rows := Py.map2 (Py.map2 cross_entropy) LA LB).
  assert (FLA : Forall (fun r => List.length r = (n_ctx - 1)%nat) LA).
  { unfold LA. rewrite map_map. apply Forall_map.
    eapply Forall_impl; [|exact Fh]. intros s Hs. cbv beta in *.
    unfold Py.slice_to_last. rewrite length_map, removelast_length. lia. }
  assert (FLB : Forall (fun r => List.length r = (n_ctx - 1)%nat) LB).
  { unfold LB. apply Forall_map.
    eapply Forall_impl; [|exact FX]. intros s Hs. cbv beta in *.
    unfold Py.slice_from1. rewrite length_map, tl_length. lia. }
  assert (HLA : List.length LA = List.length X).
  { unfold LA. now rewrite !length_map. }
  assert (HLB : List.length LB = List.length X).
  { unfold LB. now rewrite length_map. }
  assert (Hrows : List.length rows = List.length X).
  { unfold rows. rewrite map2_length. lia. }
  assert (Frows : Forall (fun r => List.length r = (n_ctx - 1)%nat) rows).
  { unfold rows. apply map2_length_uniform; auto. congruence. }
  assert (Hflat : Py.map2 cross_entropy
                    (matmul_transpose_b (concat (map Py.slice_to_last h)) we)
                    (concat LB) = concat rows).
  { unfold matmul_transpose_b. rewrite concat_map. fold LA.
    apply (@map2_concat _ _ _ cross_entropy (n_ctx - 1)); auto. congruence. }
  unfold lm_losses. fold LB. rewrite Hflat.
  unfold reshape2.
  rewrite (concat_length_uniform Frows), Hrows, Nat.eqb_refl.
  unfold Py.bind, Py.ok.
  replace (chunks (List.length X) (n_ctx - 1) (concat rows)) with rows
    by (rewrite <- Hrows; symmetry; apply chunks_concat, Frows).
  eexists. split; [reflexivity|]. split.
  { rewrite map2_length. lia. }
  intros b Hb.
  set (F := fun (ls m : list R) =>
              Rsum (Py.map2 Rmult ls (Py.slice_from1 m))
              / Rsum (Py.slice_from1 m)).
  rewrite (map2_nth F rows M [] [] 0) by lia.
  unfold F, rows.
  rewrite (map2_nth (Py.map2 cross_entropy) LA LB [] [] []) by lia.
  assert (HnA : nth b LA [] = map (position_logits we) (removelast (nth b h []))).
  { unfold LA. rewrite map_map.
    rewrite (nth_indep _ [] (map (position_logits we) (Py.slice_to_last [])))
      by (rewrite length_map; lia).
    now rewrite (map_nth (fun s => map (position_logits we) (Py.slice_to_last s))). }
  assert (HnB : nth b LB [] = map fst (tl (nth b X []))).
  { unfold LB.
    rewrite (nth_indep _ [] (map fst (Py.slice_from1 (@nil (nat * nat)))))
      by (rewrite length_map; lia).
    now rewrite (map_nth (fun x : list (nat * nat) => map fst (Py.slice_from1 x))). }
  rewrite HnA, HnB. unfold Py.slice_from1.
  assert (Lh : List.length (nth b h []) = n_ctx).
  { rewrite Forall_forall in Fh. apply Fh, nth_In. lia. }
  assert (Lx : List.length (nth b X []) = n_ctx).
  { rewrite Forall_forall in FX. apply FX, nth_In. lia. }
  assert (Lm : List.length (nth b M []) = n_ctx).
  { rewrite Forall_forall in FM. apply FM, nth_In. lia. }
  rewrite (@lm_row_sum we n_ctx _ _ _ Lh Lx Lm), (@mask_row_sum n_ctx _ Lm).
  reflexivity.
Qed.

Lemma map_over_positions {A B : Type} (f : A -> B) (l : list A) (d : A) :
  map f l = map (fun v => f (nth v l d)) (seq 0 (List.length l)).
Proof.
  rewrite <- (map_map (fun v => nth v l d) f). f_equal.
  now apply list_indexed.
Qed.

(** One logit, written out: the sum over the [n_embd] coordinates of the
    products of the hidden state and of the row of the table. *)
Lemma dot_written_out (n_embd : nat) (hv row : list R) :
  List.length hv = n_embd -> List.length row = n_embd ->
  dot hv row
  = fold_right Rplus 0
      (map (fun k => nth k hv 0 * nth k row 0) (seq 0 n_embd)).
Proof.
  intros Hh Hr. unfold dot, Rsum, Kernels.Rsum.
  now rewrite (@map2_indexed _ _ _ Rmult hv row 0 0 n_embd Hh Hr).
Qed.

(** The cross-entropy of one position, written out. *)
Lemma cross_entropy_written_out (n_embd : nat) (we : list (list R))
      (hv : list R) (label : nat) :
  List.length hv = n_embd ->
  Forall (fun row => List.length row = n_embd) we ->
  (label < List.length we)%nat ->
  cross_entropy (position_logits we hv) label
  = - ln (exp (fold_right Rplus 0
                 (map (fun k => nth k hv 0 * nth k (nth label we []) 0)
                      (seq 0 n_embd)))
          / fold_right Rplus 0
              (map (fun v =>
                      exp (fold_right Rplus 0
                             (map (fun k => nth k hv 0 * nth k (nth v we []) 0)
                                  (seq 0 n_embd))))
                   (seq 0 (List.length we)))).
Proof.
  intros Hh Hwe Hl.
  assert (Hrow : forall v, (v < List.length we)%nat ->
             dot hv (nth v we [])
             = fold_right Rplus 0
                 (map (fun k => nth k hv 0 * nth k (nth v we []) 0)
                      (seq 0 n_embd))).
  { intros v Hv. apply dot_written_out; [exact Hh|].
    rewrite Forall_forall in Hwe. apply Hwe, nth_In, Hv. }
  unfold cross_entropy, Kernels.softmax_row, position_logits.
  rewrite (nth_indep _ 0 ((fun v => exp v
             / Kernels.Rsum (map exp (map (dot hv) we))) 0))
    by (rewrite !length_map; exact Hl).
  rewrite (map_nth (fun v => exp v / Kernels.Rsum (map exp (map (dot hv) we)))).
  rewrite (nth_indep _ 0 (dot hv [])) by (rewrite length_map; exact Hl).
  rewrite (map_nth (dot hv)). rewrite (Hrow label Hl).
  do 3 f_equal. unfold Kernels.Rsum. f_equal.
  rewrite map_map, (map_over_positions _ we []).
  apply map_ext_in. intros v Hv. apply in_seq in Hv.
  f_equal. apply Hrow. lia.
Qed.

(** C4.  For a batch of sequences of [n_ctx] positions with hidden
    states and table rows of width [n_embd], token ids that are rows of
    the table, and masks whose entries from position 1 on do not sum to
    0, the loss of sequence [b] is the sum over [t = 1 .. n_ctx - 1] of
    the softmax cross-entropy between the logits at position [t - 1] and
    the token at position [t], weighted by the mask entry [M[b][t]],
    divided by the sum of [M[b][1:]].  The logit of token [v] at a
    position is the sum over the coordinates [k] of the hidden state
    times row [v] of the embedding table, and the cross-entropy is minus
    the logarithm of the exponential of the logit of the token over the
    sum of the exponentials of all logits. *)
Theorem lm_losses_masked_average (n_ctx n_embd : nat)
        (h : list (list (list R))) (we : list (list R))
        (X : list (list (nat * nat))) (M : list (list R)) :
  List.length h = List.length X -> List.length M = List.length X ->
  Forall (fun s => List.length s = n_ctx) h ->
  Forall (fun s => List.length s = n_ctx) X ->
  Forall (fun s => List.length s = n_ctx) M ->
  Forall (Forall (fun hv => List.length hv = n_embd)) h ->
  Forall (fun row => List.length row = n_embd) we ->
  Forall (Forall (fun p => (fst p < List.length we)%nat)) X ->
  Forall (fun m => Rsum (Py.slice_from1 m) <> 0) M ->
  exists losses,
    lm_losses n_ctx h we X M = Py.ok losses /\
    List.length losses = List.length X /\
    forall b, (b < List.length X)%nat ->
      let logit := fun (t v : nat) =>
        fold_right Rplus 0
          (map (fun k => nth k (nth (t - 1) (nth b h []) []) 0
                         * nth k (nth v we []) 0)
               (seq 0 n_embd)) in
      let token := fun t => fst (nth t (nth b X []) (0%nat, 0%nat)) in
      let xent := fun t =>
        - ln (exp (logit t (token t))
              / fold_right Rplus 0
                  (map (fun v => exp (logit t v))
                       (seq 0 (List.length we)))) in
      let weighted :=
        fold_right Rplus 0
          (map (fun t => xent t * nth t (nth b M []) 0)
               (seq 1 (n_ctx - 1))) in
      let mask_sum :=
        fold_right Rplus 0
          (map (fun t => nth t (nth b M []) 0) (seq 1 (n_ctx - 1))) in
      mask_sum <> 0 /\
      nth b losses 0 = weighted / mask_sum /\
      nth b losses 0 * mask_sum = weighted.
Proof.
  intros Hh HM Fh FX FM Wh Wwe Lab Hden.
  destruct (lm_losses_rows we Hh HM Fh FX FM) as (losses & Hrun & Hlen & Hall).
  exists losses. split; [exact Hrun|]. split; [exact Hlen|].
  intros b Hb logit token xent weighted mask_sum.
  assert (Lh : List.length (nth b h []) = n_ctx).
  { rewrite Forall_forall in Fh. apply Fh, nth_In. lia. }
  assert (Lx : List.length (nth b X []) = n_ctx).
  { rewrite Forall_forall in FX. apply FX, nth_In. lia. }
  assert (Lm : List.length (nth b M []) = n_ctx).
  { rewrite Forall_forall in FM. apply FM, nth_In. lia. }
  assert (Hmask : mask_sum <> 0).
  { unfold mask_sum. change (fold_right Rplus 0) with Rsum.
    rewrite <- (@mask_row_sum n_ctx _ Lm).
    rewrite Forall_forall in Hden. apply Hden, nth_In. lia. }
  assert (Hloss : nth b losses 0 = weighted / mask_sum).
  { rewrite (Hall b Hb). unfold weighted, mask_sum.
    change (fold_right Rplus 0) with Rsum. f_equal. f_equal.
    apply map_ext_in. intros t Ht. apply in_seq in Ht. f_equal.
    unfold xent, logit, token.
    apply cross_entropy_written_out; [|exact Wwe|].
    - rewrite Forall_forall in Wh.
      assert (Hin : In (nth b h []) h) by (apply nth_In; lia).
      specialize (Wh _ Hin). rewrite Forall_forall in Wh.
      apply Wh, nth_In. lia.
    - rewrite Forall_forall in Lab.
      assert (Hin : In (nth b X []) X) by (apply nth_In; lia).
      specialize (Lab _ Hin). rewrite Forall_forall in Lab.
      apply Lab, nth_In. lia. }
  split; [exact Hmask|]. split; [exact Hloss|].
  rewrite Hloss. field. exact Hmask.
Qed.

End LmHeadClaim.

(** One sequence of two positions over a vocabulary of two tokens: the
    logits at position 0 are 1 and 0, the next token is 1, and the loss is
    [ln (1 + e)]. *)
Lemma lm_losses_masked_average_witness :
  exists losses,
    Head.lm_losses 2 Examples.toy_h Examples.toy_we Examples.toy_X Examples.toy_M
    = Py.ok losses /\
    List.length losses = 1%nat /\
    nth 0 losses 0%R = ln (1 + exp 1).
Proof.
  destruct (@lm_losses_masked_average 2 1 Examples.toy_h Examples.toy_we
              Examples.toy_X Examples.toy_M eq_refl eq_refl
              ltac:(repeat constructor) ltac:(repeat constructor)
              ltac:(repeat constructor) ltac:(repeat constructor)
              ltac:(repeat constructor) ltac:(repeat constructor)
              ltac:(repeat constructor; simpl; lra))
    as (losses & Hrun & Hlen & Hval).
  exists losses. split; [exact Hrun|]. split; [exact Hlen|].
  destruct (Hval 0%nat ltac:(simpl; lia)) as (_ & Hloss & _).
  rewrite Hloss. simpl.
  replace (1 * 0 + 0)%R with 0%R by lra.
  replace (1 * 1 + 0)%R with 1%R by lra.
  rewrite exp_0.
  replace ((- ln (1 / (exp 1 + (1 + 0))) * 1 + 0) / (1 + 0))%R
    with (- ln (/ (1 + exp 1)))%R.
  - rewrite ln_Rinv by (pose proof (exp_pos 1); lra). lra.
  - replace (1 / (exp 1 + (1 + 0)))%R with (/ (1 + exp 1))%R;
      [lra|].
    pose proof (exp_pos 1). field. lra.
Defined.

(** ** The training loss of a replica *)

Section LossClaim.
Import Head.
Local Open Scope R_scope.
Variable Example : Type.
Variable model : list Example -> list (list R) * list R * list R.

Lemma train_loss_pos (lm_coef : R) (clf lm : list R) :
  0 < lm_coef ->
  train_loss lm_coef clf lm = reduce_mean clf + lm_coef * reduce_mean lm.
Proof.
  intros H. unfold train_loss. destruct (Rlt_dec 0 lm_coef); [reflexivity|].
  contradiction.
Qed.

Lemma train_loss_nonpos (lm_coef : R) (clf lm : list R) :
  lm_coef <= 0 -> train_loss lm_coef clf lm = reduce_mean clf.
Proof.
  intros H. unfold train_loss. destruct (Rlt_dec 0 lm_coef); [lra|].
  reflexivity.
Qed.

(** C2.  On every replica the loss whose gradients are taken is
    [mean(clf_losses) + lm_coef * mean(lm_losses)] when [lm_coef > 0] and
    [mean(clf_losses)] alone when [lm_coef <= 0]. *)
Theorem train_loss_combined (lm_coef : R) (n_gpu : nat) (xs : list Example)
        (shards : list (list Example)) :
  tf_split n_gpu xs = Py.ok shards ->
  exists losses,
    replica_losses model lm_coef n_gpu xs = Py.ok losses /\
    List.length losses = List.length shards /\
    forall i, (i < List.length shards)%nat ->
      let clf_losses := snd (fst (model (nth i shards []))) in
      let lm_losses := snd (model (nth i shards [])) in
      (0 < lm_coef ->
       nth i losses 0 =
       Rsum clf_losses / INR (List.length clf_losses)
       + lm_coef * (Rsum lm_losses / INR (List.length lm_losses))) /\
      (lm_coef <= 0 ->
       nth i losses 0 = Rsum clf_losses / INR (List.length clf_losses)).
Proof.
  intros Hsplit. unfold replica_losses. rewrite Hsplit.
  unfold Py.bind, Py.ok.
  eexists. split; [reflexivity|]. split; [apply length_map|].
  intros i Hi. cbv zeta.
  set (clf_losses := snd (fst (model (nth i shards [])))).
  set (lm_losses := snd (model (nth i shards []))).
  set (f := fun shard : list Example =>
              let '(_, c, l) := model shard in train_loss lm_coef c l).
  assert (Hnth : nth i (map f shards) 0
                 = train_loss lm_coef clf_losses lm_losses).
  { rewrite (nth_indep _ 0 (f [])) by (rewrite length_map; exact Hi).
    rewrite (map_nth f). unfold f, clf_losses, lm_losses.
    destruct (model (nth i shards [])) as [[lg c] l]. reflexivity. }
  split; intros Hc; rewrite Hnth.
  - now apply train_loss_pos.
  - now apply train_loss_nonpos.
Qed.

End LossClaim.

(** Four examples on two devices with the default coefficient. *)
Lemma train_loss_combined_witness :
  Head.tf_split 2 [1; 2; 3; 4]%nat = Py.ok [[1; 2]; [3; 4]]%nat /\
  exists losses,
    Head.replica_losses Examples.toy_model 0.5%R 2 [1; 2; 3; 4]%nat
    = Py.ok losses /\
    nth 1 losses 0%R
    = (Head.Rsum [INR 3; INR 4] / INR 2 + 0.5 * (Head.Rsum [1] / INR 1))%R.
Proof.
  assert (Hs : Head.tf_split 2 [1; 2; 3; 4]%nat = Py.ok [[1; 2]; [3; 4]]%nat)
    by reflexivity.
  split; [exact Hs|].
  destruct (train_loss_combined Examples.toy_model 0.5%R 2 [1; 2; 3; 4]%nat Hs)
    as (losses & Hrun & _ & Hall).
  exists losses. split; [exact Hrun|].
  apply (Hall 1%nat); [simpl; lia | lra].
Defined.

(** ** Batched evaluation: scaled logits and their argmax *)

Section EvalFacts.
Import Eval.

(** A map on floats that keeps the comparisons and the NaNs of the
    entries of a row keeps the result of the scan. *)
Lemma argmax_from_kept (s : F32.float32 -> F32.float32)
      (whole : list F32.float32) :
  (forall x y, In x whole -> In y whole ->
               F32.leb (s x) (s y) = F32.leb x y) ->
  (forall x, In x whole -> F32.is_nan (s x) = F32.is_nan x) ->
  forall (row : list F32.float32) (best : F32.float32) (bi i : nat),
    In best whole -> incl row whole ->
    F32.argmax_from (s best) bi i (map s row) = F32.argmax_from best bi i row.
Proof.
  intros Hle Hnan. induction row as [|x row IH]; intros best bi i Hb Hr;
    simpl; [reflexivity|].
  assert (Hx : In x whole) by (apply Hr; now left).
  assert (Hrow : incl row whole) by (intros y Hy; apply Hr; now right).
  rewrite (Hle x best Hx Hb), (Hnan x Hx).
  destruct (negb (F32.leb x best)); [destruct (F32.is_nan x); [reflexivity|]|];
    now apply IH.
Qed.

Lemma order_kept_spec (n : nat) (row : list F32.float32) :
  order_kept n row = true ->
  let scaled := fun v => F32.mul v (F32.of_int (Z.of_nat n)) in
  (forall x y, In x row -> In y row ->
               F32.leb (scaled x) (scaled y) = F32.leb x y) /\
  (forall x, In x row -> F32.is_nan (scaled x) = F32.is_nan x).
Proof.
  intros H scaled. unfold order_kept in H. cbv zeta in H. fold scaled in H.
  rewrite forallb_forall in H. split.
  - intros x y Hx Hy. specialize (H x Hx). apply andb_true_iff in H.
    destruct H as [_ H]. rewrite forallb_forall in H.
    apply eqb_prop. now apply H.
  - intros x Hx. specialize (H x Hx). apply andb_true_iff in H.
    destruct H as [H _]. now apply eqb_prop.
Qed.

Lemma argmax_row_kept (n : nat) (row : list F32.float32) :
  order_kept n row = true ->
  F32.argmax_row (map (fun v => F32.mul v (F32.of_int (Z.of_nat n))) row)
  = F32.argmax_row row.
Proof.
  intros H. destruct (order_kept_spec _ _ H) as [Hle Hnan].
  destruct row as [|x row]; [reflexivity|]. simpl.
  rewrite (Hnan x (or_introl eq_refl)).
  destruct (F32.is_nan x); [reflexivity|].
  apply (argmax_from_kept _ Hle Hnan); [now left|].
  intros y Hy. now right.
Qed.

Lemma argmax_scale_rows (n : nat) (r : list (list F32.float32)) :
  Forall (fun row => order_kept n row = true) r ->
  F32.argmax (scale_rows n r) = F32.argmax r.
Proof.
  unfold F32.argmax, scale_rows. rewrite map_map.
  induction 1 as [|row r Hrow _ IH]; simpl; [reflexivity|].
  now rewrite IH, argmax_row_kept.
Qed.

End EvalFacts.

Section EvalClaim.
Import Eval.
Local Open Scope Q_scope.
Variable Example : Type.
Variable n_batch_train : nat.
Variable eval_mgpu : list Example -> list (list F32.float32) * Q.
Variable eval_single : list Example -> list (list F32.float32) * Q.

Local Abbreviation run_graph := (run_graph n_batch_train eval_mgpu eval_single).
Local Abbreviation iter_apply := (iter_apply n_batch_train eval_mgpu eval_single).
Local Abbreviation true_logits := (true_logits n_batch_train eval_mgpu eval_single).

Lemma argmax_concat_scaled (batches : list (list Example)) :
  Forall (fun mb => Forall (fun row => order_kept (List.length mb) row = true)
                           (fst (run_graph mb))) batches ->
  F32.argmax (concat (map (fun mb => scale_rows (List.length mb)
                                                (fst (run_graph mb))) batches))
  = F32.argmax (true_logits batches).
Proof.
  unfold Eval.true_logits, F32.argmax.
  induction 1 as [|mb batches Hmb _ IH]; simpl; [reflexivity|].
  rewrite !map_app, IH. f_equal.
  now apply argmax_scale_rows.
Qed.

(** C10 (amended).  [iter_apply] multiplies the logits of every
    minibatch, and not only its mean loss, by the batch size [n] before
    concatenating: every returned logit is the 32-bit product, rounded,
    of the logit that the graph computed and of [n].  Whenever this
    multiplication keeps, within every row, which entries are NaN and
    how any two entries compare, the row-wise argmax of the returned
    logits equals that of the unscaled logits, and so does every accuracy
    computed from it. *)
Theorem iter_apply_scaled_argmax (batches : list (list Example)) :
  batches <> [] ->
  exists logits cost,
    iter_apply batches = Py.ok (logits, cost) /\
    logits
    = concat (map (fun mb =>
                     map (map (fun v =>
                                 SFmul 24 128 v
                                   (binary_normalize
                                      24 128 (Z.of_nat (List.length mb)) 0
                                      false)))
                         (fst (run_graph mb))) batches) /\
    cost = Qsum (map (fun mb => inject_Z (Z.of_nat (List.length mb))
                                * snd (run_graph mb)) batches) /\
    (Forall (fun mb => Forall (fun row => order_kept (List.length mb) row = true)
                              (fst (run_graph mb))) batches ->
     F32.argmax logits = F32.argmax (true_logits batches) /\
     forall y_true,
       accuracy_score y_true (F32.argmax logits)
       = accuracy_score y_true (F32.argmax (true_logits batches))).
Proof.
  intros Hne.
  assert (Hlog : concat (map fst (map (scaled_result n_batch_train eval_mgpu
                                                    eval_single) batches))
                 = concat (map (fun mb => scale_rows (List.length mb)
                                                     (fst (run_graph mb))) batches)).
  { now rewrite map_map. }
  assert (Hcost : map snd (map (scaled_result n_batch_train eval_mgpu
                                              eval_single) batches)
                  = map (fun mb => inject_Z (Z.of_nat (List.length mb))
                                   * snd (run_graph mb)) batches).
  { now rewrite map_map. }
  eexists _, _. split.
  - unfold Eval.iter_apply. destruct batches; [contradiction|reflexivity].
  - rewrite Hlog, Hcost. split; [reflexivity|]. split; [reflexivity|].
    intros Hkept. split.
    + now apply argmax_concat_scaled.
    + intros y_true. now rewrite argmax_concat_scaled.
Qed.

End EvalClaim.

Lemma toy_order_kept :
  Forall (fun mb : list Z =>
            Forall (fun row => Eval.order_kept (List.length mb) row = true)
                   (fst (Eval.run_graph 2 Examples.toy_graph Examples.toy_graph
                                        mb)))
         [[0%Z; 5%Z]; [3%Z]].
Proof. repeat constructor. Defined.

(** Three examples in batches of two: the last, partial batch runs on the
    single-device graph; the logits 0, 5, 3 and 1 become 0, 10, 3 and 2 or
    1. *)
Lemma iter_apply_scaled_argmax_witness :
  [[0%Z; 5%Z]; [3%Z]] <> [] /\
  exists logits cost,
    Eval.iter_apply 2 Examples.toy_graph Examples.toy_graph [[0%Z; 5%Z]; [3%Z]]
    = Py.ok (logits, cost) /\
    logits = [[F32.of_int 0; F32.of_int 2]; [F32.of_int 10; F32.of_int 2];
              [F32.of_int 3; F32.of_int 1]] /\
    F32.argmax logits
    = F32.argmax (Eval.true_logits 2 Examples.toy_graph Examples.toy_graph
                                   [[0%Z; 5%Z]; [3%Z]]).
Proof.
  assert (Hne : [[0%Z; 5%Z]; [3%Z]] <> []) by discriminate.
  split; [exact Hne|].
  destruct (iter_apply_scaled_argmax 2 Examples.toy_graph Examples.toy_graph Hne)
    as (logits & cost & Hrun & Hlog & _ & Harg).
  exists logits, cost. split; [exact Hrun|]. split.
  - rewrite Hlog. reflexivity.
  - exact (proj1 (Harg toy_order_kept)).
Defined.

Lemma iter_apply_example :
  exists cost,
    Eval.iter_apply 2 Examples.toy_graph Examples.toy_graph [[0%Z; 5%Z]; [3%Z]]
    = Py.ok ([[F32.of_int 0; F32.of_int 2]; [F32.of_int 10; F32.of_int 2];
              [F32.of_int 3; F32.of_int 1]], cost) /\
    F32.argmax [[F32.of_int 0; F32.of_int 2]; [F32.of_int 10; F32.of_int 2];
                [F32.of_int 3; F32.of_int 1]]
    = [1; 0; 0]%nat.
Proof.
  eexists. split; reflexivity.
Qed.

(** C10 as stated fails in 32-bit arithmetic: for a batch of three
    examples whose two logits are one unit in the last place apart, both
    products by 3 round to the same float, so the argmax of every scaled
    row is 0 where that of the unscaled row is 1, and the accuracy against
    the labels 1 drops from 1 to 0. *)
Lemma iter_apply_argmax_moves :
  (0 < 3)%nat /\
  F32.leb Examples.near_tie_high Examples.near_tie_low = false /\
  F32.mul Examples.near_tie_low (F32.of_int 3)
  = F32.mul Examples.near_tie_high (F32.of_int 3) /\
  exists logits cost,
    Eval.iter_apply 3 Examples.near_tie_graph Examples.near_tie_graph
                    [[tt; tt; tt]] = Py.ok (logits, cost) /\
    F32.argmax (Eval.true_logits 3 Examples.near_tie_graph
                                 Examples.near_tie_graph [[tt; tt; tt]])
    = [1; 1; 1]%nat /\
    F32.argmax logits = [0; 0; 0]%nat /\
    F32.argmax logits
    <> F32.argmax (Eval.true_logits 3 Examples.near_tie_graph
                                    Examples.near_tie_graph [[tt; tt; tt]]) /\
    (Eval.accuracy_score [1; 1; 1]%nat
       (F32.argmax (Eval.true_logits 3 Examples.near_tie_graph
                                     Examples.near_tie_graph [[tt; tt; tt]]))
     == 1)%Q /\
    (Eval.accuracy_score [1; 1; 1]%nat (F32.argmax logits) == 0)%Q.
Proof.
  split; [lia|]. split; [reflexivity|]. split; [reflexivity|].
  eexists _, _. split; [reflexivity|].
  repeat split; try reflexivity. discriminate.
Qed.

(** ** The input transformation stays inside its arrays *)

Section DataFacts.
Import Data.

Lemma slice_to_le {A : Type} (x : list A) (ml : Z) :
  (0 <= ml)%Z -> (len (Py.slice_to x ml) <= ml)%Z.
Proof.
  intros H. unfold len, Py.slice_to.
  destruct (ml <? 0)%Z eqn:E; [apply Z.ltb_lt in E; lia|].
  rewrite length_firstn. lia.
Qed.

Lemma sequence_length (cfg : config) (x1 x2 : list Z) :
  len (sequence cfg x1 x2)
  = (len (Py.slice_to x1 (max_len cfg)) + len (Py.slice_to x2 (max_len cfg)) + 3)%Z.
Proof.
  unfold sequence, len. simpl. rewrite !length_app. simpl.
  rewrite length_app. simpl. lia.
Qed.

Lemma sequence_bound (cfg : config) (x1 x2 : list Z) :
  (0 <= max_len cfg)%Z ->
  (len (sequence cfg x1 x2) <= 2 * max_len cfg + 3)%Z.
Proof.
  intros H. rewrite sequence_length.
  pose proof (slice_to_le x1 H). pose proof (slice_to_le x2 H). lia.
Qed.

Lemma skipn_repeat {A : Type} (v : A) (k n : nat) :
  skipn k (repeat v n) = repeat v (n - k).
Proof.
  revert n; induction k as [|k IH]; intros [|n]; simpl; auto.
Qed.

Lemma assign_prefix_fits {A : Type} (zero : A) (n : nat) (vals : list A) :
  (List.length vals <= n)%nat ->
  assign_prefix (repeat zero n) (List.length vals) vals
  = Py.ok (vals ++ repeat zero (n - List.length vals)).
Proof.
  intros H. unfold assign_prefix.
  rewrite repeat_length, Nat.min_l, skipn_repeat by assumption.
  destruct vals as [|v [|w vals]]; try reflexivity.
  now rewrite Nat.eqb_refl.
Qed.

Lemma assign_prefix_overflow {A : Type} (zero : A) (n : nat) (vals : list A) :
  (n < List.length vals)%nat -> (1 < List.length vals)%nat ->
  assign_prefix (repeat zero n) (List.length vals) vals
  = Py.raise Py.ValueError.
Proof.
  intros H H1. unfold assign_prefix.
  rewrite repeat_length, Nat.min_r by lia.
  destruct vals as [|v [|w vals]]; simpl in H1; try lia.
  replace (List.length (v :: w :: vals) =? n)%nat with false
    by (symmetry; apply Nat.eqb_neq; lia).
  reflexivity.
Qed.

Lemma fill_prefix_fits {A : Type} (zero one : A) (n l : nat) :
  (l <= n)%nat -> fill_prefix (repeat zero n) l one = pad n zero one l.
Proof.
  intros H. unfold fill_prefix, pad.
  now rewrite repeat_length, Nat.min_l, skipn_repeat by assumption.
Qed.

Lemma fill_example_fits (cfg : config) (n : nat)
      (x : list Z * (list Z * list Z)) :
  fits cfg n x -> storable cfg x ->
  fill_example cfg n x = Py.ok (filled_rows cfg n x).
Proof.
  destruct x as [x1 [x2 x3]]. intros [H2 H3] [S2 S3].
  unfold fill_example, store_tokens. rewrite S2, S3.
  rewrite !assign_prefix_fits by assumption. unfold Py.bind, Py.ok.
  now rewrite !fill_prefix_fits by assumption.
Qed.

(** A sequence holds integers of the array's type when its two token
    lists and the three special tokens do. *)
Lemma sequence_in_int32 (cfg : config) (x1 x2 : list Z) :
  in_int32 (start cfg) = true -> in_int32 (delimiter cfg) = true ->
  in_int32 (clf_token cfg) = true ->
  Forall (fun t => in_int32 t = true) x1 ->
  Forall (fun t => in_int32 t = true) x2 ->
  forallb in_int32 (sequence cfg x1 x2) = true.
Proof.
  intros Hs Hd Hc H1 H2.
  assert (Hslice : forall (x : list Z) (m : Z),
             Forall (fun t => in_int32 t = true) x ->
             Forall (fun t => in_int32 t = true) (Py.slice_to x m)).
  { intros x m Hx.
    assert (Hk : forall k, Forall (fun t => in_int32 t = true) (firstn k x)).
    { intro k. rewrite <- (firstn_skipn k x) in Hx.
      apply Forall_app in Hx. exact (proj1 Hx). }
    unfold Py.slice_to. destruct (m <? 0)%Z; apply Hk. }
  unfold sequence. apply forallb_forall. apply Forall_forall.
  repeat (apply Forall_app; split);
    try (now apply Hslice); constructor; solve [assumption | constructor].
Qed.

Lemma for_each_ok {A B : Type} (f : A -> Py.result B) (g : A -> B)
      (l : list A) :
  Forall (fun a => f a = Py.ok (g a)) l -> for_each f l = Py.ok (map g l).
Proof.
  induction 1 as [|a l Ha _ IH]; simpl; [reflexivity|].
  now rewrite Ha, IH.
Qed.

Lemma nth_error_zip3 {A : Type} (X1 X2 X3 : list A) (i : nat) (x1 x2 x3 : A) :
  nth_error X1 i = Some x1 -> nth_error X2 i = Some x2 ->
  nth_error X3 i = Some x3 ->
  nth_error (Py.zip X1 (Py.zip X2 X3)) i = Some (x1, (x2, x3)).
Proof.
  unfold Py.zip. revert X2 X3 i.
  induction X1 as [|a X1 IH]; intros [|b X2] [|c X3] [|i]; simpl;
    intros H1 H2 H3; try discriminate.
  - congruence.
  - now apply IH.
Qed.

Lemma zip3_length_le {A : Type} (X1 X2 X3 : list A) :
  (List.length (Py.zip X1 (Py.zip X2 X3)) <= List.length X1)%nat.
Proof. unfold Py.zip. rewrite !length_combine. lia. Qed.

(** When every example fits, [transform_roc] returns rows that hold the
    two sequences followed by padding, and masks that mark them. *)
Lemma transform_roc_fits (cfg : config) (X1 X2 X3 : list (list Z)) :
  (0 <= n_ctx cfg)%Z ->
  Forall (fits cfg (Z.to_nat (n_ctx cfg))) (Py.zip X1 (Py.zip X2 X3)) ->
  Forall (storable cfg) (Py.zip X1 (Py.zip X2 X3)) ->
  exists out,
    transform_roc cfg X1 X2 X3 = Py.ok out /\ rows_ok cfg X1 X2 X3 out.
Proof.
  intros Hn Hfit Hstore. unfold transform_roc.
  replace (n_ctx cfg <? 0)%Z with false by (symmetry; apply Z.ltb_ge; lia).
  set (n := Z.to_nat (n_ctx cfg)) in *.
  set (triples := Py.zip X1 (Py.zip X2 X3)) in *.
  rewrite (@for_each_ok _ _ (fill_example cfg n) (filled_rows cfg n))
    by (eapply Forall_impl; [|exact (Forall_and Hfit Hstore)];
        intros x [Hf Hs]; now apply fill_example_fits).
  unfold Py.bind, Py.ok. eexists. split; [reflexivity|].
  pose proof (zip3_length_le X1 X2 X3) as Hle. fold triples in Hle.
  unfold rows_ok. simpl fst. simpl snd.
  rewrite !length_map, !length_app, !repeat_length, !length_map.
  split; [lia|]. split; [lia|].
  intros i x1 x2 x3 H1 H2 H3.
  pose proof (nth_error_zip3 _ _ _ _ H1 H2 H3) as Hz. fold triples in Hz.
  assert (Hrow : forall tail,
             nth_error (map (filled_rows cfg n) triples ++ tail) i
             = Some (filled_rows cfg n (x1, (x2, x3)))).
  { intros tail. rewrite nth_error_app1
      by (rewrite length_map; apply nth_error_Some; congruence).
    now rewrite nth_error_map, Hz. }
  rewrite !nth_error_map, Hrow. simpl.
  eexists _, _. split; [reflexivity|]. split; [reflexivity|].
  rewrite Forall_forall in Hfit.
  destruct (Hfit _ (nth_error_In _ _ Hz)) as [F2 F3].
  unfold row_ok, pad. now repeat split.
Qed.

End DataFacts.

Section DataClaim.
Import Data.

Lemma fold_max_ge (l : list Z) (x : Z) :
  (x <= fold_left Z.max l x)%Z /\
  forall v, In v l -> (v <= fold_left Z.max l x)%Z.
Proof.
  revert x; induction l as [|y l IH]; intros x; simpl.
  - split; [lia|]. intros v [].
  - destruct (IH (Z.max x y)) as [H1 H2]. split; [lia|].
    intros v [<- | Hv]; [lia|]. now apply H2.
Qed.

Lemma py_max_ge (l : list Z) (m : Z) :
  py_max l = Py.ok m -> forall v, In v l -> (v <= m)%Z.
Proof.
  destruct l as [|x l]; simpl; [discriminate|].
  intros H. injection H as <-. destruct (fold_max_ge l x) as [H1 H2].
  intros v [<- | Hv]; auto.
Qed.

Lemma max_len_bound (n : Z) :
  (4 <= n)%Z -> (0 <= n / 2 - 2)%Z /\ (2 * (n / 2 - 2) + 3 <= n)%Z.
Proof.
  intros H. pose proof (Z.mul_div_le n 2 ltac:(lia)).
  assert (2 <= n / 2)%Z by (apply Z.div_le_lower_bound; lia). lia.
Qed.

(** Every example counted in [temp] fits the shrunk context. *)
Lemma split_fits (n vocab temp : Z) (s : split) :
  (4 <= n)%Z ->
  (forall v, In v (pair_lengths (n / 2 - 2) s) -> (v <= temp)%Z) ->
  let cfg := Config (Z.min (temp + 3) n) (n / 2 - 2) vocab 3
                    vocab (vocab + 1) (vocab + 2) in
  let '(X1, X2, X3) := s in
  Forall (fits cfg (Z.to_nat (n_ctx cfg))) (Py.zip X1 (Py.zip X2 X3)).
Proof.
  intros Hn Htemp cfg. destruct s as [[X1 X2] X3].
  apply Forall_forall. intros [x1 [x2 x3]] Hin.
  destruct (max_len_bound Hn) as [Hml Hn2].
  assert (Hv : (len (Py.slice_to x1 (n / 2 - 2))
                + Z.max (len (Py.slice_to x2 (n / 2 - 2)))
                        (len (Py.slice_to x3 (n / 2 - 2))) <= temp)%Z).
  { apply Htemp. unfold pair_lengths.
    apply (in_map (fun x : list Z * (list Z * list Z) =>
                     let '(x1, (x2, x3)) := x in
                     (len (Py.slice_to x1 (n / 2 - 2))
                      + Z.max (len (Py.slice_to x2 (n / 2 - 2)))
                              (len (Py.slice_to x3 (n / 2 - 2))))%Z)
                  _ _ Hin). }
  pose proof (sequence_length cfg x1 x2) as L2.
  pose proof (sequence_length cfg x1 x3) as L3.
  pose proof (@sequence_bound cfg x1 x2 Hml) as B2.
  pose proof (@sequence_bound cfg x1 x3 Hml) as B3.
  change (max_len cfg) with (n / 2 - 2)%Z in L2, L3, B2, B3.
  unfold fits, len in *. change (n_ctx cfg) with (Z.min (temp + 3) n). lia.
Qed.

(** Examples whose tokens and special tokens are integers of the array's
    type can all be stored. *)
Lemma tokens_storable (cfg : config) (X1 X2 X3 : list (list Z)) :
  in_int32 (start cfg) = true -> in_int32 (delimiter cfg) = true ->
  in_int32 (clf_token cfg) = true ->
  int32_tokens X1 -> int32_tokens X2 -> int32_tokens X3 ->
  Forall (storable cfg) (Py.zip X1 (Py.zip X2 X3)).
Proof.
  intros Hs Hd Hc H1 H2 H3. apply Forall_forall.
  intros [x1 [x2 x3]] Hin. unfold Py.zip in Hin.
  pose proof (in_combine_l _ _ _ _ Hin) as I1.
  pose proof (in_combine_r _ _ _ _ Hin) as I23.
  pose proof (in_combine_l _ _ _ _ I23) as I2.
  pose proof (in_combine_r _ _ _ _ I23) as I3.
  unfold int32_tokens in *. rewrite Forall_forall in H1, H2, H3.
  split; apply sequence_in_int32; auto.
Qed.

Lemma special_in_int32 (n vocab k : Z) :
  (4 <= n)%Z -> (0 <= vocab)%Z -> (vocab + 3 + n <= 2 ^ 31)%Z ->
  (0 <= k <= 2)%Z -> in_int32 (vocab + k) = true.
Proof.
  intros Hn Hv Hb Hk. unfold in_int32.
  apply andb_true_iff. split; [apply Z.leb_le | apply Z.ltb_lt]; lia.
Qed.

(** C8 (amended).  For a configured context length [n >= 4],
    [max_len = n//2 - 2] and a vocabulary whose token and position ids
    are 32-bit integers ([0 <= vocab] and [vocab + 3 + n <= 2^31]): each
    constructed sequence has length at most [2*max_len + 3 <= n], so on
    rows of [n] slots [transform_roc] raises nothing for any examples
    whose tokens are 32-bit integers; in [data_prep], which first shrinks
    [n_ctx] to [min(temp + 3, n)], the same holds for the three splits
    that [temp] was computed from.  Each written row is the sequence
    followed by zeros, and its mask is 1 on exactly the first [l]
    positions and 0 after them. *)
Theorem transform_roc_in_bounds (n vocab : Z) (tr va te : split) :
  (4 <= n)%Z -> (0 <= vocab)%Z -> (vocab + 3 + n <= 2 ^ 31)%Z ->
  let ml := (n / 2 - 2)%Z in
  let cfg0 := Config n ml vocab 3 vocab (vocab + 1) (vocab + 2) in
  (2 * ml + 3 <= n)%Z /\
  (forall x1 x2, (len (sequence cfg0 x1 x2) <= 2 * ml + 3)%Z) /\
  (forall X1 X2 X3,
      int32_tokens X1 -> int32_tokens X2 -> int32_tokens X3 ->
      exists out,
        transform_roc cfg0 X1 X2 X3 = Py.ok out /\
        rows_ok cfg0 X1 X2 X3 out) /\
  (pair_lengths ml tr ++ pair_lengths ml va ++ pair_lengths ml te <> [] ->
   int32_split tr -> int32_split va -> int32_split te ->
   exists cfg trXM vaXM teXM,
     data_prep n vocab tr va te = Py.ok (cfg, trXM, vaXM, teXM) /\
     (n_ctx cfg <= n)%Z /\ max_len cfg = ml /\
     split_ok cfg tr trXM /\ split_ok cfg va vaXM /\ split_ok cfg te teXM).
Proof.
  intros Hn Hvocab Hbound ml cfg0. destruct (max_len_bound Hn) as [Hml Hn2].
  assert (Hs0 : in_int32 vocab = true).
  { replace vocab with (vocab + 0)%Z by lia.
    apply (@special_in_int32 n); lia. }
  assert (Hs1 : in_int32 (vocab + 1) = true)
    by (apply (@special_in_int32 n); lia).
  assert (Hs2 : in_int32 (vocab + 2) = true)
    by (apply (@special_in_int32 n); lia).
  split; [exact Hn2|]. split.
  { intros x1 x2. now apply sequence_bound. }
  split.
  { intros X1 X2 X3 T1 T2 T3. apply transform_roc_fits; [simpl; lia| |].
    - apply Forall_forall. intros [x1 [x2 x3]] _.
      pose proof (@sequence_bound cfg0 x1 x2 Hml) as B2.
      pose proof (@sequence_bound cfg0 x1 x3 Hml) as B3.
      change (max_len cfg0) with ml in B2, B3. fold ml in Hn2.
      unfold fits, len in *. change (n_ctx cfg0) with n. lia.
    - now apply tokens_storable. }
  intros Hne Ttr Tva Tte. unfold data_prep. fold ml.
  destruct (py_max (pair_lengths ml tr ++ pair_lengths ml va ++ pair_lengths ml te))
    as [e | temp] eqn:Hmax.
  { destruct (pair_lengths ml tr ++ pair_lengths ml va ++ pair_lengths ml te);
      [contradiction | discriminate]. }
  pose proof (py_max_ge _ Hmax) as Hge.
  unfold Py.bind at 1.
  set (cfg := Config (Z.min (temp + 3) n) ml vocab 3 vocab (vocab + 1) (vocab + 2)).
  assert (Hpos : (0 <= n_ctx cfg)%Z).
  { simpl. destruct (pair_lengths ml tr ++ pair_lengths ml va ++ pair_lengths ml te)
      as [|v l] eqn:E; [contradiction|].
    assert (Hv : (v <= temp)%Z) by (apply Hge; now left).
    assert (Hv0 : (0 <= v)%Z).
    { assert (Hin : In v (pair_lengths ml tr ++ pair_lengths ml va ++ pair_lengths ml te))
        by (rewrite E; now left).
      clear - Hin. rewrite !in_app_iff in Hin.
      assert (Hs : forall s, In v (pair_lengths ml s) -> (0 <= v)%Z).
      { intros [[X1 X2] X3] H. unfold pair_lengths in H.
        apply in_map_iff in H. destruct H as ([x1 [x2 x3]] & <- & _).
        unfold len. lia. }
      destruct Hin as [H | [H | H]]; eapply Hs; eauto. }
    lia. }
  assert (Hrun : forall s, (forall v, In v (pair_lengths ml s) -> (v <= temp)%Z) ->
             int32_split s ->
             exists out, run_transform cfg s = Py.ok out /\ split_ok cfg s out).
  { intros s Hs Ts. pose proof (@split_fits n vocab temp s Hn Hs) as Hf.
    destruct s as [[X1 X2] X3]. simpl in Hf. destruct Ts as (T1 & T2 & T3).
    apply transform_roc_fits; [assumption | assumption |].
    now apply tokens_storable. }
  destruct (Hrun tr) as (trXM & -> & Htr); [|exact Ttr|].
  { intros v Hv. apply Hge. rewrite !in_app_iff. auto. }
  destruct (Hrun va) as (vaXM & -> & Hva); [|exact Tva|].
  { intros v Hv. apply Hge. rewrite !in_app_iff. auto. }
  destruct (Hrun te) as (teXM & -> & Hte); [|exact Tte|].
  { intros v Hv. apply Hge. rewrite !in_app_iff. auto. }
  exists cfg, trXM, vaXM, teXM. simpl. repeat split; auto. lia.
Qed.

End DataClaim.

(** A context of eight slots over a vocabulary of ten tokens, with one
    training example of lengths 3, 1 and 2: [transform_roc] fills rows of
    eight slots, and [data_prep] shrinks the context to the seven tokens
    of the longer sequence and fills rows of seven. *)
Lemma transform_roc_in_bounds_witness :
  (4 <= 8)%Z /\ (0 <= 10)%Z /\ (10 + 3 + 8 <= 2 ^ 31)%Z /\
  Data.int32_split Samples.roc_tr /\ Data.int32_split Samples.roc_none /\
  (exists out,
      Data.transform_roc Examples.ctx8 [[1; 2; 3]%Z] [[4]%Z] [[5; 6]%Z]
      = Py.ok out /\
      Data.rows_ok Examples.ctx8 [[1; 2; 3]%Z] [[4]%Z] [[5; 6]%Z] out) /\
  Data.data_prep 8 10 Samples.roc_tr Samples.roc_none Samples.roc_none
  = Py.ok (Pool.layout 7 2 10, Samples.roc_arrays7, Samples.no_arrays,
           Samples.no_arrays) /\
  Data.split_ok (Pool.layout 7 2 10) Samples.roc_tr Samples.roc_arrays7.
Proof.
  assert (H : (4 <= 8)%Z) by lia.
  assert (Hv : (0 <= 10)%Z) by lia.
  assert (Hb : (10 + 3 + 8 <= 2 ^ 31)%Z) by (vm_compute; discriminate).
  assert (T : forall l : list Z,
             forallb Data.in_int32 l = true ->
             Forall (fun t => Data.in_int32 t = true) l).
  { intros l Hl. apply Forall_forall. now apply forallb_forall. }
  assert (Ttr : Data.int32_split Samples.roc_tr).
  { repeat split; repeat constructor; now apply T. }
  assert (Tno : Data.int32_split Samples.roc_none).
  { repeat split; constructor. }
  destruct (@transform_roc_in_bounds 8 10 Samples.roc_tr Samples.roc_none
              Samples.roc_none H Hv Hb) as (_ & _ & Hroc & Hprep).
  split; [exact H|]. split; [exact Hv|]. split; [exact Hb|].
  split; [exact Ttr|]. split; [exact Tno|]. split.
  { exact (Hroc [[1; 2; 3]%Z] [[4]%Z] [[5; 6]%Z]
             (proj1 Ttr) (proj1 (proj2 Ttr)) (proj2 (proj2 Ttr))). }
  destruct (Hprep ltac:(discriminate) Ttr Tno Tno)
    as (cfg & trXM & vaXM & teXM & E & _ & _ & Htr & _ & _).
  assert (E' : Data.data_prep 8 10 Samples.roc_tr Samples.roc_none
                              Samples.roc_none
               = Py.ok (Pool.layout 7 2 10, Samples.roc_arrays7,
                        Samples.no_arrays, Samples.no_arrays))
    by reflexivity.
  split; [exact E'|].
  rewrite E' in E. injection E as <- <- <- <-. exact Htr.
Defined.

(** A token id of [2^31] does not fit the 32-bit array [xmb]: storing
    the sequence raises. *)
Lemma transform_roc_overflow :
  Data.transform_roc Examples.ctx8 [[2 ^ 31]%Z] [[4]%Z] [[5; 6]%Z]
  = Py.raise Py.OverflowError.
Proof. reflexivity. Qed.

Lemma transform_roc_example :
  Data.transform_roc Examples.ctx8 [[1; 2; 3]%Z] [[4]%Z] [[5; 6]%Z]
  = Py.ok ([([(10, 13); (1, 14); (2, 15); (11, 16); (4, 17); (12, 18);
              (0, 19); (0, 20)]%Z,
             [(10, 13); (1, 14); (2, 15); (11, 16); (5, 17); (6, 18);
              (12, 19); (0, 20)]%Z)],
           [([1; 1; 1; 1; 1; 1; 0; 0]%Q, [1; 1; 1; 1; 1; 1; 1; 0]%Q)]).
Proof. reflexivity. Qed.

(** C8 as stated fails for a context length below 4: [max_len] is then
    negative, the Python slice [x[:max_len]] drops elements from the end
    instead of truncating, and the sequence outgrows both the claimed
    bound and the row it is written to. *)
Lemma transform_roc_out_of_bounds :
  Data.max_len Examples.ctx3 = (-1)%Z /\
  Data.sequence Examples.ctx3 [1; 2; 3]%Z [4; 5; 6]%Z
  = [10; 1; 2; 11; 4; 5; 12]%Z /\
  ~ (Data.len (Data.sequence Examples.ctx3 [1; 2; 3]%Z [4; 5; 6]%Z)
     <= 2 * Data.max_len Examples.ctx3 + 3)%Z /\
  Data.transform_roc Examples.ctx3 [[1; 2; 3]%Z] [[4; 5; 6]%Z] [[7; 8; 9]%Z]
  = Py.raise Py.ValueError /\
  Data.data_prep 3 10 ([[1; 2; 3]%Z], [[4; 5; 6]%Z], [[7; 8; 9]%Z])
                 ([], [], []) ([], [], [])
  = Py.raise Py.ValueError.
Proof.
  repeat split. vm_compute. intros H. now apply H.
Qed.

(** ** Parameter transfer *)

Section TransferFacts.
Import Transfer.
Variable Tensor : Type.

Lemma slice_to_length {A : Type} (x : list A) (n : Z) :
  (0 <= n <= Z.of_nat (length x))%Z ->
  length (Py.slice_to x n) = Z.to_nat n.
Proof.
  intros H. unfold Py.slice_to.
  destruct (n <? 0)%Z eqn:E; [apply Z.ltb_lt in E; lia|].
  rewrite length_firstn. lia.
Qed.

Lemma slice_to_prefix {A : Type} (x : list A) (n : Z) :
  exists m, Py.slice_to x n = firstn m x /\ (m <= length x)%nat.
Proof.
  unfold Py.slice_to. destruct (n <? 0)%Z.
  - exists (length x - Z.to_nat (- n))%nat. split; [reflexivity|lia].
  - exists (Nat.min (Z.to_nat n) (length x)). split; [|lia].
    destruct (Nat.le_ge_cases (Z.to_nat n) (length x)) as [H|H].
    + now rewrite Nat.min_l.
    + rewrite Nat.min_r by assumption.
      now rewrite !firstn_all2 by lia.
Qed.

Lemma set_nth_length (k : nat) (v : Tensor) (vals : list Tensor) :
  length (set_nth k v vals) = length vals.
Proof.
  revert k; induction vals as [|w vals IH]; intros [|k]; simpl; auto.
Qed.

Lemma set_nth_same (k : nat) (v : Tensor) (vals : list Tensor) :
  (k < length vals)%nat -> nth_error (set_nth k v vals) k = Some v.
Proof.
  revert k; induction vals as [|w vals IH]; intros [|k]; simpl;
    intros H; try lia; auto.
  apply IH. lia.
Qed.

Lemma set_nth_other (k j : nat) (v : Tensor) (vals : list Tensor) :
  j <> k -> nth_error (set_nth k v vals) j = nth_error vals j.
Proof.
  revert k j; induction vals as [|w vals IH]; intros [|k] [|j]; simpl;
    intros H; try congruence; auto.
Qed.

(** Assigning a run of consecutive variables from a list of values. *)
Lemma run_assign_seq (s m : nat) (src vals : list Tensor) (j : nat) :
  (s + m <= length vals)%nat -> (m <= length src)%nat ->
  nth_error (run_assign (combine (seq s m) src) vals) j =
  if ((s <=? j) && (j <? s + m))%nat
  then nth_error src (j - s)
  else nth_error vals j.
Proof.
  unfold run_assign.
  revert s src vals; induction m as [|m IH]; intros s src vals Hv Hs.
  - simpl. replace (s + 0)%nat with s by lia.
    destruct (s <=? j)%nat eqn:E1, (j <? s)%nat eqn:E2; simpl; auto.
    apply Nat.leb_le in E1. apply Nat.ltb_lt in E2. lia.
  - destruct src as [|v src]; [simpl in Hs; lia|]. simpl.
    rewrite IH by (rewrite ?set_nth_length; simpl in *; lia).
    destruct (Nat.eq_dec j s) as [->|Hne].
    + replace (S s <=? s)%nat with false by (symmetry; apply Nat.leb_gt; lia).
      replace (s <=? s)%nat with true by (symmetry; apply Nat.leb_le; lia).
      replace (s <? s + S m)%nat with true by (symmetry; apply Nat.ltb_lt; lia).
      simpl. rewrite Nat.sub_diag. simpl. apply set_nth_same. lia.
    + rewrite set_nth_other by assumption.
      destruct (S s <=? j)%nat eqn:E1.
      * apply Nat.leb_le in E1.
        replace (s <=? j)%nat with true by (symmetry; apply Nat.leb_le; lia).
        replace (j <? s + S m)%nat with (j <? S s + m)%nat by (f_equal; lia).
        simpl. destruct (j <? S (s + m))%nat; auto.
        replace (j - s)%nat with (S (j - S s)) by lia. reflexivity.
      * apply Nat.leb_gt in E1.
        replace (s <=? j)%nat with false by (symmetry; apply Nat.leb_gt; lia).
        reflexivity.
Qed.

Lemma run_assign_length (ops : list (nat * Tensor)) (vals : list Tensor) :
  length (run_assign ops vals) = length vals.
Proof.
  unfold run_assign. revert vals.
  induction ops as [|op ops IH]; intros vals; simpl; auto.
  now rewrite IH, set_nth_length.
Qed.

Lemma firstn_seq (a s len : nat) :
  firstn a (seq s len) = seq s (Nat.min a len).
Proof.
  revert s len; induction a as [|a IH]; intros s [|len]; simpl; auto.
  now rewrite IH.
Qed.

Lemma combine_seq_firstn (a s : nat) (src : list Tensor) :
  combine (seq s a) src =
  combine (seq s (Nat.min a (length src)))
          (firstn (Nat.min a (length src)) src).
Proof.
  revert s src; induction a as [|a IH]; intros s [|v src]; simpl; auto.
  now rewrite <- IH.
Qed.

(** The assignments form a common prefix of the two lists. *)
Lemma assign_ops_prefix (n : Z) (n_params : nat) (init : list Tensor) :
  exists c,
    assign_ops n n_params init = combine (seq 0 c) (firstn c init) /\
    (c <= n_params)%nat /\ (c <= length init)%nat /\
    c = Nat.min (length (Py.slice_to (seq 0 n_params) n))
                (length (Py.slice_to init n)).
Proof.
  unfold assign_ops, Py.zip.
  destruct (slice_to_prefix (seq 0 n_params) n) as (a & -> & Ha).
  destruct (slice_to_prefix init n) as (b & -> & Hb).
  rewrite length_seq in Ha. rewrite firstn_seq, Nat.min_l by assumption.
  rewrite length_seq, length_firstn, (Nat.min_l b) by assumption.
  exists (Nat.min a b). repeat split; try lia.
  rewrite combine_seq_firstn, length_firstn, (Nat.min_l b) by assumption.
  rewrite firstn_firstn. f_equal. f_equal. lia.
Qed.

End TransferFacts.

Section TransferClaim.
Import Transfer.
Variable Tensor : Type.
Variable shape_of : Tensor -> Shape.shape.

Lemma shape_eqb_eq (a b : Shape.shape) :
  Shape.shape_eqb a b = true <-> a = b.
Proof.
  revert b; induction a as [|x a IH]; intros [|y b]; simpl;
    try (split; [discriminate|discriminate]); [split; reflexivity|].
  rewrite andb_true_iff, Z.eqb_eq, IH. split.
  - intros [-> ->]. reflexivity.
  - intros E. injection E as -> ->. split; reflexivity.
Qed.

(** All pairs are assignable when the shapes of the common prefix
    agree. *)
Lemma assignable_prefix (c : nat) (vals init : list Tensor) :
  (c <= length vals)%nat -> (c <= length init)%nat ->
  (forall k v ip, (k < c)%nat -> nth_error vals k = Some v ->
                  nth_error init k = Some ip -> shape_of v = shape_of ip) ->
  forallb (assignable shape_of vals) (combine (seq 0 c) (firstn c init)) = true.
Proof.
  intros Hv Hi Hs. apply forallb_forall. intros [k ip] Hin.
  destruct (In_nth_error _ _ Hin) as [j Hj].
  assert (Hjc : (j < c)%nat).
  { assert (Hl : (j < length (combine (seq 0 c) (firstn c init)))%nat)
      by (apply nth_error_Some; rewrite Hj; discriminate).
    rewrite length_combine, length_seq in Hl. lia. }
  assert (Hk : nth_error (seq 0 c) j = Some k /\
               nth_error (firstn c init) j = Some ip).
  { revert Hj. generalize (seq 0 c) (firstn c init). clear.
    induction j as [|j IH]; intros [|a l] [|b l']; simpl; try discriminate.
    - intros E. injection E as -> ->. split; reflexivity.
    - apply IH. }
  destruct Hk as [Hk Hip].
  rewrite nth_error_seq in Hk.
  replace (j <? c)%nat with true in Hk by (symmetry; now apply Nat.ltb_lt).
  injection Hk as <-. simpl in Hip.
  rewrite nth_error_firstn in Hip.
  replace (j <? c)%nat with true in Hip by (symmetry; now apply Nat.ltb_lt).
  unfold assignable. cbn [fst snd].
  destruct (nth_error vals j) as [v|] eqn:Ev.
  - apply shape_eqb_eq. now apply (Hs j).
  - apply nth_error_None in Ev. lia.
Qed.

Lemma not_assignable (c : nat) (vals init : list Tensor) (k : nat)
      (v ip : Tensor) :
  (c <= length init)%nat ->
  (k < c)%nat -> nth_error vals k = Some v -> nth_error init k = Some ip ->
  shape_of v <> shape_of ip ->
  forallb (assignable shape_of vals) (combine (seq 0 c) (firstn c init)) = false.
Proof.
  intros Hi Hk Hv Hip Hne.
  destruct (forallb _ _) eqn:E; [|reflexivity]. exfalso.
  rewrite forallb_forall in E.
  assert (Hin : In (k, ip) (combine (seq 0 c) (firstn c init))).
  { apply (nth_error_In _ k).
    assert (H1 : nth_error (seq 0 c) k = Some k).
    { rewrite nth_error_seq.
      now replace (k <? c)%nat with true by (symmetry; now apply Nat.ltb_lt). }
    assert (H2 : nth_error (firstn c init) k = Some ip).
    { rewrite nth_error_firstn.
      now replace (k <? c)%nat with true by (symmetry; now apply Nat.ltb_lt). }
    revert H1 H2. generalize (seq 0 c) (firstn c init). generalize k at 1 3 4.
    clear. induction k0 as [|j IH]; intros [|a l] [|b l']; simpl;
      try discriminate.
    - intros E1 E2. injection E1 as ->. injection E2 as ->. reflexivity.
    - apply IH. }
  specialize (E _ Hin). unfold assignable in E. cbn [fst snd] in E.
  rewrite Hv in E. apply shape_eqb_eq in E. contradiction.
Qed.

(** C5 (amended).  The transfer value [d] is rewritten to [0] when
    [d = -1] and to [1 + d*12] otherwise.  The number [c] of pairs of
    trainable and pretrained tensors is the length of the shorter of the
    two Python slices, and equals the rewritten value whenever that value
    is non-negative and at most the number of trainable and of pretrained
    tensors.  When the two tensors of each of the [c] pairs have the same
    shape, the copy assigns pretrained tensor [k] to trainable parameter
    [k] for every [k] below [c] and leaves all later parameters
    unchanged; when some pair differs in shape, building the assignments
    raises and nothing is copied. *)
Theorem transfer_copies_prefix (d : Z) (vals init : list Tensor) :
  let n := n_transfer d in
  let c := n_copied d vals init in
  (d = (-1)%Z -> n = 0%Z) /\
  (d <> (-1)%Z -> n = (1 + d * 12)%Z) /\
  c = Nat.min (length (Py.slice_to vals n)) (length (Py.slice_to init n)) /\
  ((0 <= n <= Z.of_nat (length vals))%Z /\ (n <= Z.of_nat (length init))%Z ->
   Z.of_nat c = n) /\
  ((forall k v ip, (k < c)%nat -> nth_error vals k = Some v ->
                   nth_error init k = Some ip -> shape_of v = shape_of ip) ->
   exists vals',
     transfer shape_of d vals init = Py.ok vals' /\
     length vals' = length vals /\
     (forall k, (k < c)%nat -> nth_error vals' k = nth_error init k) /\
     (forall k, (c <= k)%nat -> nth_error vals' k = nth_error vals k)) /\
  ((exists k v ip, (k < c)%nat /\ nth_error vals k = Some v /\
                   nth_error init k = Some ip /\ shape_of v <> shape_of ip) ->
   transfer shape_of d vals init = Py.raise Py.ValueError).
Proof.
  intros n c.
  assert (Hn1 : d = (-1)%Z -> n = 0%Z).
  { intros ->. reflexivity. }
  assert (Hn2 : d <> (-1)%Z -> n = (1 + d * 12)%Z).
  { intros Hd. unfold n, n_transfer.
    destruct (d =? -1)%Z eqn:E; [apply Z.eqb_eq in E; contradiction|reflexivity]. }
  destruct (assign_ops_prefix n (length vals) init) as (c' & Hops & Hcv & Hci & Hc).
  assert (Hcc : c = c').
  { unfold c, n_copied. fold n. rewrite Hops.
    rewrite length_combine, length_seq, length_firstn. lia. }
  assert (Hslice : length (Py.slice_to (seq 0 (length vals)) n)
                   = length (Py.slice_to vals n)).
  { unfold Py.slice_to. rewrite length_seq.
    destruct (n <? 0)%Z; rewrite !length_firstn, length_seq; reflexivity. }
  split; [exact Hn1|]. split; [exact Hn2|]. split; [|split; [|split]].
  - rewrite Hcc, Hc, Hslice. reflexivity.
  - intros [[H0 Hv] Hi]. rewrite Hcc, Hc, Hslice.
    rewrite !slice_to_length by lia. lia.
  - intros Hshape. rewrite Hcc in Hshape.
    unfold transfer. fold n. rewrite Hops.
    rewrite (@assignable_prefix c' vals init Hcv Hci Hshape).
    eexists. split; [reflexivity|]. split; [apply run_assign_length|]. split.
    + intros k Hk.
      rewrite run_assign_seq by (rewrite ?length_firstn; lia).
      replace ((0 <=? k) && (k <? 0 + c'))%nat with true
        by (symmetry; apply andb_true_iff; split;
            [apply Nat.leb_le | apply Nat.ltb_lt]; lia).
      rewrite Nat.sub_0_r, nth_error_firstn.
      now replace (k <? c')%nat with true by (symmetry; apply Nat.ltb_lt; lia).
    + intros k Hk.
      rewrite run_assign_seq by (rewrite ?length_firstn; lia).
      replace (k <? 0 + c')%nat with false
        by (symmetry; apply Nat.ltb_ge; lia).
      now rewrite andb_false_r.
  - intros (k & v & ip & Hk & Hv & Hip & Hne). rewrite Hcc in Hk.
    unfold transfer. fold n. rewrite Hops.
    now rewrite (@not_assignable c' vals init k v ip Hci Hk Hv Hip Hne).
Qed.

End TransferClaim.

(** The default depth of 12 on a model of 147 trainable tensors and a
    checkpoint of 145 of the same shape: the first 145 are copied, the
    last two are left alone. *)
Lemma transfer_copies_prefix_witness :
  Z.of_nat (Transfer.n_copied 12 Examples.trainable_147 Examples.pretrained_145)
  = Transfer.n_transfer 12 /\
  exists vals',
    Transfer.transfer Examples.scalar_shape 12 Examples.trainable_147
                      Examples.pretrained_145 = Py.ok vals' /\
    nth_error vals' 144 = Some 1%Z /\ nth_error vals' 145 = Some 0%Z.
Proof.
  assert (H : (0 <= Transfer.n_transfer 12
               <= Z.of_nat (List.length Examples.trainable_147))%Z /\
              (Transfer.n_transfer 12
               <= Z.of_nat (List.length Examples.pretrained_145))%Z).
  { vm_compute. repeat split; discriminate. }
  destruct (transfer_copies_prefix Examples.scalar_shape 12
              Examples.trainable_147 Examples.pretrained_145)
    as (_ & _ & _ & Hc & Hok & _).
  split; [exact (Hc H)|].
  destruct (Hok (fun k v ip _ _ _ => eq_refl)) as (vals' & Hrun & _ & Hlow & Hhigh).
  exists vals'. split; [exact Hrun|]. split.
  - rewrite (Hlow 144%nat) by (vm_compute; lia). reflexivity.
  - rewrite (Hhigh 145%nat) by (vm_compute; lia). reflexivity.
Defined.

(** C5 as stated fails outside that range: a depth of 13 asks for 157
    tensors where only 145 exist, and a depth of -2 yields the negative
    bound -23, which Python reads as "all but the last 23". *)
Lemma transfer_count_differs :
  Transfer.n_transfer 13 = 157%Z /\
  Transfer.n_copied 13 Examples.trainable_147 Examples.pretrained_145 = 145%nat /\
  Z.of_nat (Transfer.n_copied 13 Examples.trainable_147 Examples.pretrained_145)
  <> (1 + 13 * 12)%Z /\
  Transfer.n_transfer (-2) = (-23)%Z /\
  Transfer.n_copied (-2) Examples.trainable_147 Examples.pretrained_145 = 122%nat /\
  Z.of_nat (Transfer.n_copied (-2) Examples.trainable_147 Examples.pretrained_145)
  <> (1 + (-2) * 12)%Z.
Proof.
  vm_compute. repeat split; discriminate.
Qed.

(** With the default depth of 12, a model of six blocks pairs its 75
    tensors with the first 75 of the checkpoint; the two tensors of the
    classifier meet tensors of a seventh block, and nothing is copied. *)
Lemma transfer_six_blocks_raises :
  Transfer.n_copied 12 Examples.six_blocks Examples.twelve_blocks_checkpoint
  = 75%nat /\
  Transfer.transfer Examples.same_shape 12 Examples.six_blocks
                    Examples.twelve_blocks_checkpoint
  = Py.raise Py.ValueError.
Proof.
  split; vm_compute; reflexivity.
Qed.

(** ** Best-model selection in the training loop *)

Section TrainerFacts.
Import Trainer.
Variables (Params Opt Batch : Type).
Variable sgd : Batch -> Params * Opt -> Params * Opt.
Variable va_acc : Params -> Q.

Local Abbreviation state := (state Params Opt).
Local Abbreviation log := (log va_acc).
Local Abbreviation minibatch := (minibatch sgd va_acc).
Local Abbreviation end_epoch := (@end_epoch Params Opt va_acc).
Local Abbreviation epoch := (epoch sgd va_acc).
Local Abbreviation training_loop := (training_loop sgd va_acc).
Local Abbreviation train := (train sgd va_acc).
Local Abbreviation step := (step sgd va_acc).
Local Abbreviation run := (run sgd va_acc).
Local Abbreviation checkpoint_inv := (checkpoint_inv va_acc).

Lemma exceeds_true (score best : Q) :
  exceeds score best = true -> (best < score)%Q.
Proof.
  unfold exceeds. intros H. apply negb_true_iff in H.
  apply Qnot_le_lt. intros Hle. apply Qle_bool_iff in Hle. congruence.
Qed.

Lemma exceeds_false (score best : Q) :
  exceeds score best = false -> (score <= best)%Q.
Proof.
  unfold exceeds. intros H. apply negb_false_iff in H.
  now apply Qle_bool_iff.
Qed.

(** A strictly better score overwrites the checkpoint with the live
    parameters and becomes the best score. *)
Lemma log_improves (st : state) :
  (best_score st < va_acc (sess_params st))%Q ->
  best_params_jl (log st) = Some (sess_params st) /\
  best_score (log st) = va_acc (sess_params st) /\
  sess_params (log st) = sess_params st.
Proof.
  intros H. unfold Trainer.log; simpl.
  destruct (exceeds _ _) eqn:E; simpl; auto.
  apply exceeds_false in E. exfalso. revert E. now apply Qlt_not_le.
Qed.


Lemma inv_save_init (p : Params) (o : Opt) (jl : option Params) :
  checkpoint_inv p (save (init p o jl)).
Proof.
  unfold Trainer.checkpoint_inv; simpl. repeat split.
  - apply Qle_refl.
  - intros x [].
  - intros x [].
  - left. split; reflexivity.
Qed.

Lemma inv_log (p0 : Params) (st : state) :
  checkpoint_inv p0 st -> checkpoint_inv p0 (log st).
Proof.
  intros (Hpos & Hle & Hacc & Hbest). unfold Trainer.log; simpl.
  destruct (exceeds _ _) eqn:E; unfold Trainer.checkpoint_inv; simpl.
  - apply exceeds_true in E. repeat split.
    + apply Qlt_le_weak. eapply Qle_lt_trans; eauto.
    + intros x Hx. apply in_app_or in Hx. destruct Hx as [Hx | [<- | []]].
      * apply Qlt_le_weak. eapply Qle_lt_trans; eauto.
      * simpl. apply Qle_refl.
    + intros x Hx. apply in_app_or in Hx. destruct Hx as [Hx | [<- | []]]; auto.
    + right. eexists (logger st), _, []. simpl. repeat split.
      * eapply Qle_lt_trans; eauto.
      * intros x Hx. eapply Qle_lt_trans; eauto.
  - apply exceeds_false in E. repeat split; auto.
    + intros x Hx. apply in_app_or in Hx. destruct Hx as [Hx | [<- | []]]; auto.
    + intros x Hx. apply in_app_or in Hx. destruct Hx as [Hx | [<- | []]]; auto.
    + destruct Hbest as [Hzero | (l1 & e & l2 & Hl & Hjl & Hsc & Hgt & Hl1)].
      * now left.
      * right. exists l1, e, (l2 ++ [LogEntry (n_epochs st) (n_updates st)
                                       (va_acc (sess_params st)) (sess_params st)]).
        rewrite Hl, <- app_assoc. simpl. repeat split; auto.
Qed.

Lemma inv_minibatch (p0 : Params) (st : state) (b : Batch) :
  checkpoint_inv p0 st -> checkpoint_inv p0 (minibatch st b).
Proof.
  intros H. unfold Trainer.minibatch.
  destruct (sgd b _) as [p o].
  match goal with |- context [if ?c then _ else _] => destruct c end.
  - apply inv_log. exact H.
  - exact H.
Qed.

Lemma inv_end_epoch (p0 : Params) (st : state) :
  checkpoint_inv p0 st -> checkpoint_inv p0 (end_epoch st).
Proof. intros H. unfold Trainer.end_epoch. apply inv_log. exact H. Qed.

Lemma inv_step (p0 : Params) (st : state) (e : event Batch) :
  checkpoint_inv p0 st -> checkpoint_inv p0 (step st e).
Proof. destruct e; simpl; auto using inv_minibatch, inv_end_epoch. Qed.

Lemma inv_run (p0 : Params) (evs : list (event Batch)) (st : state) :
  checkpoint_inv p0 st -> checkpoint_inv p0 (run evs st).
Proof.
  unfold Trainer.run. revert st.
  induction evs as [|e evs IH]; simpl; auto using inv_step.
Qed.

(** The nested loops perform exactly the steps of the flat schedule. *)
Lemma training_loop_schedule (epochs : list (list Batch)) (st : state) :
  training_loop epochs st = run (schedule epochs) st.
Proof.
  unfold Trainer.training_loop, Trainer.run, schedule. revert st.
  induction epochs as [|bs epochs IH]; intros st; simpl; [reflexivity|].
  rewrite !fold_left_app. simpl. rewrite IH. f_equal.
  unfold Trainer.epoch. f_equal.
  clear. revert st. induction bs as [|b bs IH]; intros st; simpl; auto.
Qed.

Lemma inv_has_checkpoint (p0 : Params) (st : state) :
  checkpoint_inv p0 st -> exists b, best_params_jl st = Some b.
Proof.
  intros (_ & _ & _ & [[_ H] | (l1 & e & l2 & _ & H & _)]); eauto.
Qed.

End TrainerFacts.

Section TrainerClaims.
Import Trainer.
Variables (Params Opt Batch : Type).
Variable sgd : Batch -> Params * Opt -> Params * Opt.
Variable va_acc : Params -> Q.

Lemma train_result (p : Params) (o : Opt) (jl : option Params)
      (epochs : list (list Batch)) :
  let final := training_loop sgd va_acc epochs (save (init p o jl)) in
  checkpoint_inv va_acc p final /\
  exists b, best_params_jl final = Some b /\
    train sgd va_acc epochs (init p o jl) =
    Py.ok (State b (sess_opt final) (best_score final) (n_updates final)
                 (n_epochs final) (best_params_jl final) (logger final)).
Proof.
  intros final.
  assert (Hinv : checkpoint_inv va_acc p final).
  { unfold final. rewrite training_loop_schedule.
    apply inv_run, inv_save_init. }
  split; [exact Hinv|].
  destruct (inv_has_checkpoint Hinv) as [b Hb].
  exists b. split; [exact Hb|].
  unfold train, reload. fold final. now rewrite Hb.
Qed.

(** C1 (amended).  [log] overwrites the checkpoint with the live
    parameters whenever the validation accuracy strictly exceeds the best
    score so far, and [train] ends by loading the checkpoint.  Hence, for
    every run in which some logged accuracy exceeds 0 (the initial best
    score), the parameters at the end of [train] are those of the first
    evaluation that attained the maximum accuracy. *)
Theorem train_restores_best (p : Params) (o : Opt) (jl : option Params)
        (epochs : list (list Batch)) :
  (forall s : state Params Opt,
      (best_score s < va_acc (sess_params s))%Q ->
      best_params_jl (log va_acc s) = Some (sess_params s)) /\
  exists st : state Params Opt,
    train sgd va_acc epochs (init p o jl) = Py.ok st /\
    (forall x, In x (logger st) -> acc x = va_acc (evaluated x)) /\
    ((exists x, In x (logger st) /\ (0 < acc x)%Q) ->
     exists e, first_maximum (logger st) e /\ sess_params st = evaluated e).
Proof.
  split.
  { intros s Hs. now apply log_improves. }
  destruct (train_result p o jl epochs) as [Hinv (b & Hb & Htrain)].
  eexists. split; [exact Htrain|]. simpl.
  destruct Hinv as (Hpos & Hle & Hacc & Hbest).
  split; [exact Hacc|].
  intros (x & Hx & Hgt).
  destruct Hbest as [[Hzero _] | (l1 & e & l2 & Hl & Hjl & Hsc & Hegt & Hl1)].
  - exfalso. specialize (Hle x Hx). rewrite Hzero in Hle.
    revert Hle. now apply Qlt_not_le.
  - exists e. split.
    + exists l1, l2. repeat split; auto.
      intros y Hy. rewrite <- Hsc. apply Hle. rewrite Hl.
      apply in_or_app. right. now right.
    + rewrite Hjl in Hb. now inversion Hb.
Qed.


End TrainerClaims.

(** The run of section 8 of the specification: five epochs whose validation
    accuracies are 70, 85, 80, 90 and 88 end on the parameters of the
    fourth. *)
Lemma train_example_accuracies :
  exists st,
    Trainer.train Examples.count_updates Examples.spec_accuracies
                  Examples.five_epochs (Trainer.init 0%nat tt None)
    = Py.ok st /\
    map (@Trainer.acc nat) (Trainer.logger st) = [70; 85; 80; 90; 88]%Q /\
    Trainer.sess_params st = 4%nat /\
    Trainer.best_params_jl st = Some 4%nat.
Proof.
  eexists. split; [vm_compute; reflexivity|].
  repeat split.
Qed.

Lemma train_restores_best_witness :
  exists st,
    Trainer.train Examples.count_updates Examples.spec_accuracies
                  Examples.five_epochs (Trainer.init 0%nat tt None)
    = Py.ok st /\
    exists e, Trainer.first_maximum (Trainer.logger st) e /\
              Trainer.sess_params st = Trainer.evaluated e.
Proof.
  destruct (train_restores_best Examples.count_updates Examples.spec_accuracies
              0%nat tt None Examples.five_epochs)
    as [_ (st & Ht & _ & Hbest)].
  exists st. split; [exact Ht|]. apply Hbest.
  vm_compute in Ht. injection Ht as <-.
  eexists. split; [left; reflexivity|]. reflexivity.
Defined.


(** C1 as stated fails when no accuracy exceeds the initial best score:
    with one update and a validation accuracy of 0, [train] ends on the
    initial parameters, which no evaluation saw. *)
Lemma train_not_an_evaluation :
  exists st,
    Trainer.train Examples.add_one Examples.never_right [[tt]]
                  (Trainer.init 0%Z tt None) = Py.ok st /\
    Trainer.sess_params st = 0%Z /\
    map (@Trainer.evaluated Z) (Trainer.logger st) = [1%Z] /\
    ~ (exists e, In e (Trainer.logger st) /\
                 (forall x, In x (Trainer.logger st) ->
                            (Trainer.acc x <= Trainer.acc e)%Q) /\
                 Trainer.sess_params st = Trainer.evaluated e).
Proof.
  eexists. split; [vm_compute; reflexivity|].
  repeat split. simpl.
  intros (e & [<- | []] & _ & He). simpl in He. discriminate.
Qed.

(** ** The activation functions *)

Section ActFacts.
Import Kernels Act.
Local Open Scope R_scope.

Lemma tanh_bounds (y : R) : -1 < tanh y < 1.
Proof.
  unfold tanh, sinh, cosh.
  pose proof (exp_pos y) as Hp. pose proof (exp_pos (- y)) as Hn.
  replace ((exp y - exp (- y)) / 2 / ((exp y + exp (- y)) / 2))
    with ((exp y - exp (- y)) / (exp y + exp (- y))) by (field; lra).
  split.
  - apply Rmult_lt_reg_r with (exp y + exp (- y)); [lra|].
    unfold Rdiv. rewrite Rmult_assoc, Rinv_l by lra. lra.
  - apply Rmult_lt_reg_r with (exp y + exp (- y)); [lra|].
    unfold Rdiv. rewrite Rmult_assoc, Rinv_l by lra. lra.
Qed.

Lemma tanh_odd (y : R) : tanh (- y) = - tanh y.
Proof.
  unfold tanh, sinh, cosh. rewrite Ropp_involutive.
  pose proof (exp_pos y) as Hp. pose proof (exp_pos (- y)) as Hn.
  field. lra.
Qed.

Lemma sigmoid_bounds (v : R) : 0 < sigmoid v < 1.
Proof.
  unfold sigmoid. pose proof (exp_pos (- v)) as Hn.
  split.
  - apply Rdiv_lt_0_compat; lra.
  - apply Rmult_lt_reg_r with (1 + exp (- v)); [lra|].
    unfold Rdiv. rewrite Rmult_assoc, Rinv_l by lra. lra.
Qed.

Lemma sigmoid_opp (v : R) : sigmoid v + sigmoid (- v) = 1.
Proof.
  unfold sigmoid. rewrite Ropp_involutive, exp_Ropp.
  pose proof (exp_pos v) as Hp. field. split; lra.
Qed.

Lemma gelu_nth (x : tensor) (i : nat) :
  nth i (gelu x) 0 =
  0.5 * nth i x 0
  * (1 + tanh (sqrt (2 / PI) * (nth i x 0 + 0.044715 * nth i x 0 ^ 3))).
Proof.
  unfold gelu, t_mul, t_add, scal_mul, scal_add, tf_tanh, tf_pow.
  rewrite <- (map_id x) at 2.
  rewrite (map_map (fun v => v ^ 3) (Rmult 0.044715)).
  rewrite (map2_map_same Rplus (fun v => v)).
  rewrite !map_map.
  rewrite (map2_map_same Rmult).
  set (f := fun v : R => _).
  replace 0 with (f 0) at 1 by (unfold f; lra).
  now rewrite (map_nth f).
Qed.

Lemma swish_nth (x : tensor) (i : nat) :
  nth i (swish x) 0 = nth i x 0 * sigmoid (nth i x 0).
Proof.
  unfold swish, t_mul. rewrite <- (map_id x) at 1.
  rewrite (map2_map_same Rmult).
  set (f := fun v : R => _).
  replace 0 with (f 0) at 1 by (unfold f; lra).
  now rewrite (map_nth f).
Qed.

Lemma relu_nth (x : tensor) (i : nat) :
  nth i (relu x) 0 = Rmax (nth i x 0) 0.
Proof.
  unfold relu.
  replace 0 with ((fun v => Rmax v 0) 0) at 1
    by (unfold Rmax; destruct (Rle_dec 0 0); lra).
  now rewrite (map_nth (fun v => Rmax v 0)).
Qed.

Lemma between_scaled (v c : R) : 0 <= c <= 1 -> between_zero_and v (v * c).
Proof.
  intros [H0 H1]. unfold between_zero_and, Rmin, Rmax.
  destruct (Rle_dec 0 v); split; nra.
Qed.

Lemma act_fns_cases (name : string) (act : tensor -> tensor) :
  act_fns name = Py.ok act -> act = relu \/ act = swish \/ act = gelu.
Proof.
  unfold act_fns.
  destruct (String.eqb name "relu"); [intros H; injection H; auto|].
  destruct (String.eqb name "swish"); [intros H; injection H; auto|].
  destruct (String.eqb name "gelu"); [intros H; injection H; auto|].
  discriminate.
Qed.

(** Every activation that [afn] can select keeps the length of its input
    and maps each entry [v] to a value between 0 and [v]. *)
Theorem act_fns_between (name : string) (act : tensor -> tensor)
        (x : tensor) (i : nat) :
  act_fns name = Py.ok act ->
  List.length (act x) = List.length x /\
  between_zero_and (nth i x 0) (nth i (act x) 0).
Proof.
  intros H. destruct (act_fns_cases _ H) as [-> | [-> | ->]].
  - split; [apply length_map|]. rewrite relu_nth.
    unfold between_zero_and, Rmin, Rmax.
    destruct (Rle_dec 0 (nth i x 0)), (Rle_dec (nth i x 0) 0); split; lra.
  - split.
    + unfold swish, t_mul. rewrite map2_length, length_map. lia.
    + rewrite swish_nth. apply between_scaled.
      pose proof (sigmoid_bounds (nth i x 0)). lra.
  - split.
    + unfold gelu, t_mul, t_add, scal_mul, scal_add, tf_tanh, tf_pow.
      rewrite !map2_length, !length_map, !map2_length, !length_map. lia.
    + rewrite gelu_nth.
      set (v := nth i x 0).
      set (y := sqrt (2 / PI) * (v + 0.044715 * v ^ 3)).
      replace (0.5 * v * (1 + tanh y)) with (v * (0.5 * (1 + tanh y))) by field.
      apply between_scaled. pose proof (tanh_bounds y). lra.
Qed.

(** Every activation [f] that [afn] can select satisfies
    [f(v) - f(-v) = v] entry by entry. *)
Theorem act_fns_odd_part (name : string) (act : tensor -> tensor) (v : R) :
  act_fns name = Py.ok act ->
  nth 0 (act [v]) 0 - nth 0 (act [- v]) 0 = v.
Proof.
  intros H. destruct (act_fns_cases _ H) as [-> | [-> | ->]].
  - rewrite !relu_nth. simpl. unfold Rmax.
    destruct (Rle_dec v 0), (Rle_dec (- v) 0); lra.
  - rewrite !swish_nth. simpl. pose proof (sigmoid_opp v). nra.
  - rewrite !gelu_nth. simpl nth.
    replace (sqrt (2 / PI) * (- v + 0.044715 * (- v) ^ 3))
      with (- (sqrt (2 / PI) * (v + 0.044715 * v ^ 3))) by field.
    rewrite tanh_odd.
    set (T := tanh _). nra.
Qed.

(** A name outside the dictionary raises [KeyError]. *)
Lemma act_fns_unknown (name : string) :
  name <> "relu"%string -> name <> "swish"%string -> name <> "gelu"%string ->
  act_fns name = Py.raise Py.KeyError.
Proof.
  intros H1 H2 H3. unfold act_fns.
  destruct (String.eqb_spec name "relu"); [contradiction|].
  destruct (String.eqb_spec name "swish"); [contradiction|].
  destruct (String.eqb_spec name "gelu"); [contradiction|].
  reflexivity.
Qed.

End ActFacts.

(** ** Layer normalisation *)

Section NormFacts.
Import Norm.
Local Open Scope R_scope.

Lemma Rsum_affine (a c : R) (x : list R) :
  Kernels.Rsum (map (fun v => a * v + c) x)
  = a * Kernels.Rsum x + c * INR (List.length x).
Proof.
  induction x as [|v x IH]; [simpl; lra|].
  change (Kernels.Rsum (map (fun v0 => a * v0 + c) (v :: x)))
    with (a * v + c + Kernels.Rsum (map (fun v0 => a * v0 + c) x)).
  change (Kernels.Rsum (v :: x)) with (v + Kernels.Rsum x).
  rewrite IH. change (List.length (v :: x)) with (S (List.length x)).
  rewrite S_INR. ring.
Qed.

Lemma Rsum_scale (a : R) (x : list R) :
  Kernels.Rsum (map (fun v => a * v) x) = a * Kernels.Rsum x.
Proof.
  induction x as [|v x IH]; [simpl; lra|].
  change (Kernels.Rsum (map (fun v0 => a * v0) (v :: x)))
    with (a * v + Kernels.Rsum (map (fun v0 => a * v0) x)).
  change (Kernels.Rsum (v :: x)) with (v + Kernels.Rsum x).
  rewrite IH. ring.
Qed.

Lemma Rsum_squares_nonneg (u : R) (x : list R) :
  0 <= Kernels.Rsum (map (fun v => (v - u) * (v - u)) x).
Proof.
  induction x as [|v x IH]; [simpl; lra|].
  change (Kernels.Rsum (map (fun v0 => (v0 - u) * (v0 - u)) (v :: x)))
    with ((v - u) * (v - u)
          + Kernels.Rsum (map (fun v0 => (v0 - u) * (v0 - u)) x)).
  pose proof (Rle_0_sqr (v - u)) as Hsq. unfold Rsqr in Hsq. lra.
Qed.

Lemma INR_length_pos {A : Type} (x : list A) : x <> [] -> 0 < INR (List.length x).
Proof.
  destruct x as [|v x]; [contradiction|]. intros _.
  apply lt_0_INR. simpl. lia.
Qed.

Lemma variance_nonneg (x : list R) : x <> [] -> 0 <= variance x.
Proof.
  intros Hx. unfold variance, Head.reduce_mean, Head.Rsum.
  rewrite length_map.
  apply Rmult_le_pos; [apply Rsum_squares_nonneg|].
  left. apply Rinv_0_lt_compat. now apply INR_length_pos.
Qed.

Lemma reduce_mean_shift (c : R) (x : list R) :
  x <> [] ->
  Head.reduce_mean (map (Rplus c) x) = c + Head.reduce_mean x.
Proof.
  intros Hx. unfold Head.reduce_mean, Head.Rsum.
  pose proof (INR_length_pos Hx) as Hn.
  rewrite (map_ext (Rplus c) (fun v => 1 * v + c)) by (intros; ring).
  rewrite Rsum_affine, length_map. field. lra.
Qed.

Lemma variance_shift (c : R) (x : list R) :
  x <> [] -> variance (map (Rplus c) x) = variance x.
Proof.
  intros Hx. unfold variance. rewrite (reduce_mean_shift c Hx).
  rewrite map_map. set (u := Head.reduce_mean x).
  unfold Head.reduce_mean. rewrite !length_map.
  f_equal. f_equal. apply map_ext. intros v. ring.
Qed.

(** Adding a constant to every entry of the slice does not change the
    result of [_norm], whatever the gain, bias and epsilon. *)
Theorem _norm_shift_invariant (c : R) (x : list R) (g b : option (list R))
        (e : R) :
  _norm (map (Rplus c) x) g b e = _norm x g b e.
Proof.
  destruct x as [|v0 x0]; [reflexivity|].
  set (x := v0 :: x0). assert (Hx : x <> []) by discriminate.
  unfold _norm. rewrite (variance_shift c Hx), (reduce_mean_shift c Hx).
  rewrite map_map.
  rewrite (map_ext (fun v => (c + v - (c + Head.reduce_mean x))
                             * rsqrt (variance x + e))
                   (fun v => (v - Head.reduce_mean x)
                             * rsqrt (variance x + e)))
    by (intros; ring).
  reflexivity.
Qed.

Lemma map2_mul_ones (x : list R) :
  Py.map2 Rmult x (repeat 1 (List.length x)) = x.
Proof.
  induction x as [|v x IH]; simpl; [reflexivity|]. rewrite IH. f_equal. ring.
Qed.

Lemma map2_add_zeros (x : list R) :
  Py.map2 Rplus x (repeat 0 (List.length x)) = x.
Proof.
  induction x as [|v x IH]; simpl; [reflexivity|]. rewrite IH. f_equal. ring.
Qed.

(** With the gain and bias at their initial values 1 and 0, [norm] returns
    a slice of the same length whose entries sum to zero and whose mean
    square is [s / (s + 1e-5)], where [s] is the variance of the input;
    the mean square lies between 0 and 1. *)
Theorem norm_initial_standardises (x : list R) :
  x <> [] ->
  let n := List.length x in
  let y := norm x (constant_initializer 1 n) (constant_initializer 0 n) in
  List.length y = n /\
  Kernels.Rsum y = 0 /\
  Head.reduce_mean (map (fun v => v * v) y)
  = variance x / (variance x + 1e-5) /\
  0 <= Head.reduce_mean (map (fun v => v * v) y) <= 1.
Proof.
  intros Hx n y.
  pose proof (INR_length_pos Hx) as Hn. fold n in Hn.
  pose proof (variance_nonneg Hx) as Hs.
  assert (Hsdef : variance x
                  = Kernels.Rsum (map (fun v => (v - Head.reduce_mean x)
                                                * (v - Head.reduce_mean x)) x)
                    / INR n).
  { unfold variance, Head.reduce_mean at 1, Head.Rsum.
    now rewrite length_map. }
  assert (Hudef : Head.reduce_mean x = Kernels.Rsum x / INR n) by reflexivity.
  unfold y, norm, _norm, constant_initializer.
  set (u := Head.reduce_mean x) in *. set (s := variance x) in *.
  set (eps := 1e-5). assert (Heps : 0 < eps) by (unfold eps; lra).
  clearbody eps. set (k := rsqrt (s + eps)).
  set (sq := Kernels.Rsum (map (fun v => (v - u) * (v - u)) x)) in *.
  assert (Hy : Py.map2 Rplus
                 (Py.map2 Rmult (map (fun v => (v - u) * k) x) (repeat 1 n))
                 (repeat 0 n)
               = map (fun v => (v - u) * k) x).
  { unfold n.
    rewrite <- (length_map (fun v => (v - u) * k) x) at 1.
    rewrite map2_mul_ones.
    rewrite <- (length_map (fun v => (v - u) * k) x) at 1.
    now rewrite map2_add_zeros. }
  rewrite Hy.
  assert (Hk : k * k = / (s + eps)).
  { unfold k, rsqrt. rewrite <- Rinv_mult, sqrt_sqrt by lra. reflexivity. }
  assert (Hms : Head.reduce_mean
                  (map (fun v => v * v) (map (fun v => (v - u) * k) x))
                = s / (s + eps)).
  { rewrite map_map. unfold Head.reduce_mean, Head.Rsum.
    rewrite !length_map. fold n.
    rewrite (map_ext (fun v => (v - u) * k * ((v - u) * k))
                     (fun v => (k * k) * ((v - u) * (v - u))))
      by (intros; ring).
    rewrite <- (map_map (fun v => (v - u) * (v - u)) (fun w => k * k * w)).
    rewrite (Rsum_scale (k * k) (map (fun v => (v - u) * (v - u)) x)).
    fold sq. rewrite Hk, Hsdef. unfold Rdiv. ring. }
  repeat split.
  - apply length_map.
  - rewrite (map_ext (fun v => (v - u) * k) (fun v => k * v + (- u * k)))
      by (intros; ring).
    rewrite Rsum_affine. fold n. rewrite Hudef. field. lra.
  - exact Hms.
  - rewrite Hms. apply Rmult_le_pos; [lra|].
    apply Rlt_le, Rinv_0_lt_compat. lra.
  - rewrite Hms. apply Rmult_le_reg_r with (s + eps); [lra|].
    unfold Rdiv. rewrite Rmult_assoc, Rinv_l by lra. lra.
Qed.

End NormFacts.

(** ** Splitting and merging attention heads *)

Section HeadsFacts.
Import Heads.

Lemma nth_nil {A : Type} (j : nat) (d : A) : nth j [] d = d.
Proof. now destruct j. Qed.

Lemma seq_indexed {A : Type} (l : list A) (d : A) (m : nat) :
  List.length l = m -> map (fun i => nth i l d) (seq 0 m) = l.
Proof.
  revert m; induction l as [|x l IH]; intros m Hm; simpl in *; subst;
    [reflexivity|].
  simpl. f_equal. rewrite <- seq_shift, map_map. now apply IH.
Qed.

Lemma transpose_length {A : Type} (d : A) (cols : nat) (m : list (list A)) :
  List.length (transpose d cols m) = cols.
Proof. unfold transpose. now rewrite length_map, length_seq. Qed.

(** Transposing twice gives back a rectangular matrix. *)
Lemma transpose_involutive {A : Type} (d : A) (rows cols : nat)
      (m : list (list A)) :
  List.length m = rows -> Forall (fun r => List.length r = cols) m ->
  transpose d rows (transpose d cols m) = m.
Proof.
  intros Hr Hc. unfold transpose.
  transitivity (map (fun i => nth i m []) (seq 0 rows));
    [|now apply seq_indexed].
  apply map_ext_in. intros i Hi. apply in_seq in Hi.
  rewrite map_map.
  assert (Hrow : List.length (nth i m []) = cols).
  { rewrite Forall_forall in Hc. apply Hc, nth_In. lia. }
  transitivity (map (fun j => nth j (nth i m []) d) (seq 0 cols));
    [|now apply seq_indexed].
  apply map_ext. intros j.
  rewrite <- (nth_nil j d) at 1.
  now rewrite (map_nth (fun row => nth j row d)).
Qed.

Lemma concat_chunks {A : Type} (n d : nat) (l : list A) :
  List.length l = (n * d)%nat -> concat (Head.chunks n d l) = l.
Proof.
  revert l; induction n as [|n IH]; intros l Hl; simpl in *.
  - destruct l; [reflexivity|discriminate].
  - rewrite IH by (rewrite length_skipn; lia).
    apply firstn_skipn.
Qed.

Lemma chunks_length {A : Type} (n d : nat) (l : list A) :
  List.length (Head.chunks n d l) = n.
Proof. revert l; induction n as [|n IH]; intros l; simpl; auto. Qed.

Lemma chunks_uniform {A : Type} (n d : nat) (l : list A) :
  List.length l = (n * d)%nat ->
  Forall (fun c => List.length c = d) (Head.chunks n d l).
Proof.
  revert l; induction n as [|n IH]; intros l Hl; simpl in *; constructor.
  - rewrite length_firstn. lia.
  - apply IH. rewrite length_skipn. lia.
Qed.

Lemma for_each_map {A B : Type} (f : A -> Py.result B) (g : A -> B)
      (l : list A) :
  (forall a, In a l -> f a = Py.ok (g a)) ->
  Data.for_each f l = Py.ok (map g l).
Proof.
  induction l as [|a l IH]; intros H; simpl; [reflexivity|].
  rewrite (H a) by now left. unfold Py.bind, Py.ok.
  rewrite IH by (intros; apply H; now right). reflexivity.
Qed.

(** On a well-shaped tensor whose width is [n] heads of [d] entries,
    [split_states] cuts every vector into its [n] pieces. *)
Lemma split_states_ok (t n d : nat) (x : list (list (list R))) :
  n <> 0%nat -> d <> 0%nat -> rank3 t (n * d) x ->
  split_states (n * d) n x = Py.ok (map (map (Head.chunks n d)) x).
Proof.
  intros Hn Hd Hx. unfold split_states.
  replace (n =? 0)%nat with false by (symmetry; now apply Nat.eqb_neq).
  replace (n * d / n)%nat with d
    by (rewrite Nat.mul_comm; symmetry; now apply Nat.div_mul).
  apply for_each_map. intros e He.
  apply for_each_map. intros v Hv.
  unfold rank3 in Hx. rewrite Forall_forall in Hx.
  destruct (Hx e He) as [_ Hvs]. rewrite Forall_forall in Hvs.
  unfold Head.reshape2. now rewrite (Hvs v Hv), Nat.eqb_refl.
Qed.

(** [merge_heads] undoes [split_heads]: on a tensor [[batch][t][n*d]],
    splitting into [n] heads succeeds and merging the result gives the
    tensor back. *)
Theorem merge_heads_split_heads (t n d : nat) (x : list (list (list R))) :
  n <> 0%nat -> d <> 0%nat -> rank3 t (n * d) x ->
  exists y,
    split_heads (n * d) n false x = Py.ok y /\
    List.length y = List.length x /\
    Forall (fun e => List.length e = n) y /\
    merge_heads t y = x.
Proof.
  intros Hn Hd Hx. unfold split_heads.
  rewrite (split_states_ok Hn Hd Hx). unfold Py.bind, Py.ok.
  eexists. split; [reflexivity|].
  split; [now rewrite !length_map|].
  split.
  { apply Forall_map, Forall_forall. intros e _. apply transpose_length. }
  unfold merge_heads, merge_states. rewrite !map_map.
  rewrite <- (map_id x) at 2. apply map_ext_in. intros e He.
  unfold rank3 in Hx. rewrite Forall_forall in Hx.
  destruct (Hx e He) as [Ht Hvs].
  rewrite transpose_involutive.
  - rewrite map_map. rewrite <- (map_id e) at 2.
    apply map_ext_in. intros v Hv. apply concat_chunks.
    rewrite Forall_forall in Hvs. now apply Hvs.
  - now rewrite length_map.
  - apply Forall_map, Forall_forall. intros v _. apply chunks_length.
Qed.

End HeadsFacts.

(** ** Dense layers act position by position *)

Section DenseFacts.
Import Dense.
Local Open Scope R_scope.

Lemma all_length_true {A : Type} (k : nat) (l : list (list A)) :
  Forall (fun r => List.length r = k) l -> all_length k l = true.
Proof.
  intros H. unfold all_length. apply forallb_forall. intros r Hr.
  rewrite Forall_forall in H. apply Nat.eqb_eq. now apply H.
Qed.

Lemma rank3_rows (t m : nat) (x : list (list (list R))) :
  Heads.rank3 t m x ->
  Forall (fun e => List.length e = t) x /\
  Forall (fun v => List.length v = m) (concat x).
Proof.
  unfold Heads.rank3. induction 1 as [|e x [Ht Hv] _ [IH1 IH2]]; simpl.
  - split; constructor.
  - split; [now constructor|]. apply Forall_app. now split.
Qed.

Lemma rank3_map (t m m' : nat) (f : list R -> list R)
      (x : list (list (list R))) :
  (forall v, List.length v = m -> List.length (f v) = m') ->
  Heads.rank3 t m x -> Heads.rank3 t m' (map (map f) x).
Proof.
  intros Hf. unfold Heads.rank3. intros H.
  apply Forall_map. eapply Forall_impl; [|exact H].
  intros e [Ht Hv]. cbv beta in *. split; [now rewrite length_map|].
  apply Forall_map. eapply Forall_impl; [|exact Hv]. exact Hf.
Qed.

Lemma affine_length (nf : nat) (w : list (list (list R))) (b v : list R) :
  List.length b = nf -> List.length (affine nf w b v) = nf.
Proof.
  intros Hb. unfold affine.
  rewrite map2_length, length_map, length_seq. lia.
Qed.

(** On well-shaped arguments [conv1d] applies the same affine map to the
    vector of every position. *)
Lemma conv1d_position_wise (t nx nf : nat) (x : list (list (list R)))
      (w : list (list (list R))) (b : list R) :
  Heads.rank3 t nx x ->
  List.length (concat w) = nx ->
  Forall (fun r => List.length r = nf) (concat w) ->
  List.length b = nf ->
  conv1d t nx nf x w b = Py.ok (map (map (affine nf w b)) x).
Proof.
  intros Hx Hw1 Hw2 Hb. destruct (rank3_rows Hx) as [Ht Hrows].
  unfold conv1d.
  rewrite (all_length_true Hrows), (all_length_true Hw2), Hw1, Hb,
    !Nat.eqb_refl.
  cbn [andb]. unfold matmul. rewrite map_map.
  change (fun x0 : list R =>
            Py.map2 Rplus
              (map (fun j => Head.dot x0 (column j (concat w))) (seq 0 nf)) b)
    with (affine nf w b).
  rewrite concat_map.
  assert (Hu : Forall (fun r => List.length r = t) (map (map (affine nf w b)) x)).
  { apply Forall_map. eapply Forall_impl; [|exact Ht].
    intros e He. cbv beta in *. now rewrite length_map. }
  unfold Head.reshape2.
  rewrite (concat_length_uniform Hu), length_map, Nat.eqb_refl.
  rewrite <- (length_map (map (affine nf w b)) x) at 1.
  now rewrite (chunks_concat Hu).
Qed.

Lemma act_fns_length (afn : string) (act : Kernels.tensor -> Kernels.tensor)
      (v : list R) :
  Act.act_fns afn = Py.ok act -> List.length (act v) = List.length v.
Proof.
  intros H. destruct (act_fns_cases _ H) as [-> | [-> | ->]].
  - apply length_map.
  - unfold Act.swish, Kernels.t_mul. rewrite map2_length, length_map. lia.
  - unfold Kernels.gelu, Kernels.t_mul, Kernels.t_add, Kernels.scal_mul,
      Kernels.scal_add, Kernels.tf_tanh, Kernels.tf_pow.
    rewrite !map2_length, !length_map, !map2_length, !length_map. lia.
Qed.

Variable tf_dropout : R -> list (list (list R)) -> list (list (list R)).

(** In evaluation mode the feed-forward sublayer is position-wise: the
    output vector of a position is a fixed function of the input vector of
    that position alone. *)
Theorem mlp_position_wise (afn : string) (act : Kernels.tensor -> Kernels.tensor)
        (resid_pdrop : R) (vars : mlp_vars) (t nx n_state : nat)
        (x : list (list (list R))) :
  Act.act_fns afn = Py.ok act ->
  Heads.rank3 t nx x ->
  List.length (concat (fc_w vars)) = nx ->
  Forall (fun r => List.length r = n_state) (concat (fc_w vars)) ->
  List.length (fc_b vars) = n_state ->
  List.length (concat (proj_w vars)) = n_state ->
  Forall (fun r => List.length r = nx) (concat (proj_w vars)) ->
  List.length (proj_b vars) = nx ->
  mlp tf_dropout afn resid_pdrop vars t nx n_state x false
  = Py.ok (map (map (fun v =>
                       affine nx (proj_w vars) (proj_b vars)
                         (act (affine n_state (fc_w vars) (fc_b vars) v))))
               x).
Proof.
  intros Hact Hx Hf1 Hf2 Hf3 Hp1 Hp2 Hp3. unfold mlp.
  rewrite Hact. unfold Py.bind at 1. unfold Py.ok at 1.
  rewrite (@conv1d_position_wise t nx n_state x _ _ Hx Hf1 Hf2 Hf3).
  unfold Py.bind at 1. unfold Py.ok at 1.
  assert (Hh : Heads.rank3 t n_state
                 (map (map act)
                      (map (map (affine n_state (fc_w vars) (fc_b vars))) x))).
  { apply rank3_map with (m := n_state).
    - intros v Hv. now rewrite (@act_fns_length afn act v Hact).
    - apply rank3_map with (m := nx); [|exact Hx].
      intros v _. now apply affine_length. }
  rewrite (@conv1d_position_wise t n_state nx _ _ _ Hh Hp1 Hp2 Hp3).
  unfold Py.bind, Py.ok, dropout. f_equal.
  rewrite !map_map. apply map_ext. intros e. now rewrite !map_map.
Qed.

End DenseFacts.

(** ** Attention weights are a probability distribution *)

Section AttentionFacts.
Import Dense.
Local Open Scope R_scope.

Lemma Rsum_exp_positive (row : list R) :
  row <> [] -> 0 < Kernels.Rsum (map exp row).
Proof.
  destruct row as [|v row]; [contradiction|]. intros _.
  change (Kernels.Rsum (map exp (v :: row)))
    with (exp v + Kernels.Rsum (map exp row)).
  pose proof (exp_pos v). pose proof (Rsum_exp_pos row). lra.
Qed.

Lemma softmax_row_length (row : list R) :
  List.length (Kernels.softmax_row row) = List.length row.
Proof. unfold Kernels.softmax_row. apply length_map. Qed.

Lemma softmax_row_sum (row : list R) :
  row <> [] -> Kernels.Rsum (Kernels.softmax_row row) = 1.
Proof.
  intros Hrow. pose proof (Rsum_exp_positive Hrow) as Hz.
  unfold Kernels.softmax_row.
  rewrite (map_ext (fun v => exp v / Kernels.Rsum (map exp row))
                   (fun v => / Kernels.Rsum (map exp row) * exp v))
    by (intros; unfold Rdiv; ring).
  rewrite <- (map_map exp (fun e => / Kernels.Rsum (map exp row) * e)).
  rewrite Rsum_scale. apply Rinv_l. lra.
Qed.

Lemma softmax_row_positive (row : list R) :
  Forall (fun p => 0 < p) (Kernels.softmax_row row).
Proof.
  destruct row as [|v0 row0]; [constructor|].
  set (row := v0 :: row0).
  assert (Hz : 0 < Kernels.Rsum (map exp row))
    by (apply Rsum_exp_positive; discriminate).
  unfold Kernels.softmax_row. apply Forall_map, Forall_forall.
  intros v _. apply Rdiv_lt_0_compat; [apply exp_pos | exact Hz].
Qed.

(** A sum weighted by non-negative weights stays between the bounds of
    its terms, scaled by the total weight. *)
Lemma weighted_sum_bounds (lo hi : R) (w c : list R) :
  List.length w = List.length c ->
  Forall (fun p => 0 < p) w ->
  Forall (fun v => lo <= v <= hi) c ->
  lo * Kernels.Rsum w <= Kernels.Rsum (Py.map2 Rmult w c)
  <= hi * Kernels.Rsum w.
Proof.
  revert c; induction w as [|p w IH]; intros [|v c] Hl Hw Hc;
    simpl in Hl; try discriminate.
  - simpl. lra.
  - inversion Hw; subst. inversion Hc; subst.
    assert (Hl' : List.length w = List.length c) by lia.
    specialize (IH c Hl' H2 H4).
    change (Kernels.Rsum (p :: w)) with (p + Kernels.Rsum w).
    change (Kernels.Rsum (Py.map2 Rmult (p :: w) (v :: c)))
      with (p * v + Kernels.Rsum (Py.map2 Rmult w c)).
    nra.
Qed.

Lemma matmul_square (q k : Kernels.matrix) (n : nat) :
  List.length q = n -> Kernels.square n (matmul q k n).
Proof.
  intros Hq. unfold matmul. split; [now rewrite length_map|].
  apply Forall_map, Forall_forall. intros r _.
  now rewrite length_map, length_seq.
Qed.

Lemma weights_slice (n d : nat) (scale : bool) (qs ks : list Kernels.matrix)
      (s : nat) :
  (s < List.length qs)%nat -> (s < List.length ks)%nat ->
  List.length (nth s qs []) = n ->
  exists w, Kernels.square n w /\
            nth s (attn_weights n d scale qs ks) []
            = Kernels.softmax (Kernels.mask_slice n w).
Proof.
  intros Hq Hk Hn.
  set (w0 := Py.map2 (fun q k => matmul q k n) qs ks).
  assert (Hw0 : nth s w0 [] = matmul (nth s qs []) (nth s ks []) n)
    by (unfold w0;
        now rewrite (map2_nth (fun q k => matmul q k n) qs ks [] [] [])).
  assert (Hl0 : (s < List.length w0)%nat)
    by (unfold w0; rewrite map2_length; now apply Nat.min_glb_lt).
  set (w1 := if scale
             then map (map (map (fun e => e * Norm.rsqrt (INR d)))) w0
             else w0).
  assert (Hl1 : (s < List.length w1)%nat)
    by (unfold w1; destruct scale; rewrite ?length_map; exact Hl0).
  exists (nth s w1 []). split.
  - unfold w1. destruct scale.
    + rewrite (nth_indep _ [] (map (map (fun e => e * Norm.rsqrt (INR d))) []))
        by (rewrite length_map; exact Hl0).
      rewrite (map_nth (map (map (fun e => e * Norm.rsqrt (INR d))))), Hw0.
      apply square_map. now apply matmul_square.
    + rewrite Hw0. now apply matmul_square.
  - unfold attn_weights. fold w0. fold w1.
    rewrite (nth_indep _ [] (Kernels.softmax []))
      by (unfold Kernels.mask_attn_weights; rewrite !length_map; exact Hl1).
    rewrite (map_nth Kernels.softmax).
    now rewrite nth_mask_attn_weights.
Qed.

(** In evaluation mode, for every slice and every query position [i], the
    attention weights are non-negative and sum to one, and each coordinate of
    the output is the corresponding weighted average of that coordinate of
    the value vectors: it lies between any two bounds of those values. *)
Theorem attn_weighted_average (n d : nat) (scale : bool)
        (qs ks vs : list Kernels.matrix) (s i c : nat) (lo hi : R) :
  (s < List.length qs)%nat -> (s < List.length ks)%nat ->
  (s < List.length vs)%nat ->
  List.length (nth s qs []) = n -> List.length (nth s vs []) = n ->
  (i < n)%nat -> (c < d)%nat ->
  Forall (fun v => lo <= v <= hi) (column c (nth s vs [])) ->
  let row := nth i (nth s (attn_weights n d scale qs ks) []) [] in
  List.length row = n /\
  Forall (fun p => 0 <= p) row /\
  Kernels.Rsum row = 1 /\
  Kernels.entry (nth s (_attn n d scale qs ks vs) []) i c
  = Head.dot row (column c (nth s vs [])) /\
  lo <= Kernels.entry (nth s (_attn n d scale qs ks vs) []) i c <= hi.
Proof.
  intros Hq Hk Hv Hn Hvn Hi Hc Hbound row.
  destruct (@weights_slice n d scale qs ks s Hq Hk Hn) as (w & Hw & Hs).
  pose proof (square_mask_slice Hw) as [Hml Hmr].
  set (m := Kernels.mask_slice n w) in *.
  assert (Hrow : row = Kernels.softmax_row (nth i m [])).
  { unfold row. rewrite Hs. unfold Kernels.softmax.
    rewrite (nth_indep _ [] (Kernels.softmax_row []))
      by (rewrite length_map; lia).
    now rewrite (map_nth Kernels.softmax_row). }
  assert (Hlen : List.length (nth i m []) = n).
  { rewrite Forall_forall in Hmr. apply Hmr, nth_In. lia. }
  assert (Hne : nth i m [] <> []).
  { intros E. rewrite E in Hlen. simpl in Hlen. lia. }
  assert (Hrl : List.length row = n)
    by (rewrite Hrow, softmax_row_length; exact Hlen).
  assert (Hpos : Forall (fun p => 0 < p) row)
    by (rewrite Hrow; apply softmax_row_positive).
  assert (Hsum : Kernels.Rsum row = 1)
    by (rewrite Hrow; now apply softmax_row_sum).
  assert (Hwl : (s < List.length (attn_weights n d scale qs ks))%nat).
  { unfold attn_weights, Kernels.mask_attn_weights.
    rewrite !length_map. unfold Kernels.matrix in *. destruct scale;
      rewrite ?length_map, map2_length; lia. }
  assert (Hil : (i < List.length (nth s (attn_weights n d scale qs ks) []))%nat).
  { rewrite Hs. unfold Kernels.softmax. rewrite length_map. lia. }
  assert (Hentry : Kernels.entry (nth s (_attn n d scale qs ks vs) []) i c
                   = Head.dot row (column c (nth s vs []))).
  { unfold _attn, Kernels.entry.
    rewrite (map2_nth (fun w0 v => matmul w0 v d) _ _ [] [] []) by assumption.
    unfold matmul.
    set (f := fun r : list R =>
                map (fun j => Head.dot r (column j (nth s vs []))) (seq 0 d)).
    rewrite (nth_indep _ [] (f [])) by (rewrite length_map; exact Hil).
    rewrite (map_nth f). unfold f. fold row.
    set (g := fun j => Head.dot row (column j (nth s vs []))).
    rewrite (nth_indep _ 0 (g 0%nat))
      by (rewrite length_map, length_seq; exact Hc).
    rewrite (map_nth g), seq_nth by exact Hc. reflexivity. }
  repeat split; auto.
  - eapply Forall_impl; [|exact Hpos]. intros p Hp. now apply Rlt_le.
  - rewrite Hentry. unfold Head.dot, Head.Rsum.
    pose proof (@weighted_sum_bounds lo hi row (column c (nth s vs []))) as B.
    rewrite Hsum in B. unfold column in *. rewrite length_map in B.
    specialize (B ltac:(lia) Hpos Hbound). lra.
  - rewrite Hentry. unfold Head.dot, Head.Rsum.
    pose proof (@weighted_sum_bounds lo hi row (column c (nth s vs []))) as B.
    rewrite Hsum in B. unfold column in *. rewrite length_map in B.
    specialize (B ltac:(lia) Hpos Hbound). lra.
Qed.

End AttentionFacts.

(** ** What the model reads from the transformed input *)

Section PoolFacts.
Import Data Pool.

Lemma for_each_inv {A B : Type} (f : A -> Py.result B) (l : list A)
      (bs : list B) :
  for_each f l = Py.ok bs ->
  List.length bs = List.length l /\
  forall i a, nth_error l i = Some a ->
              exists b, nth_error bs i = Some b /\ f a = Py.ok b.
Proof.
  revert bs; induction l as [|a l IH]; intros bs H; simpl in H.
  - injection H as <-. split; [reflexivity|]. intros [|i] a0 Hi; discriminate.
  - unfold Py.bind in H.
    destruct (f a) as [e|b] eqn:Ea; [discriminate H|].
    destruct (for_each f l) as [e|bs'] eqn:El; [discriminate H|].
    injection H as <-. destruct (IH bs' eq_refl) as [Hlen Hall].
    split; [simpl; now rewrite Hlen|].
    intros [|i] a0 Hi; simpl in *.
    + injection Hi as <-. exists b. now split.
    + now apply Hall.
Qed.

Lemma sequence_length_ge3 (cfg : config) (x1 x2 : list Z) :
  (3 <= List.length (sequence cfg x1 x2))%nat.
Proof.
  pose proof (sequence_length cfg x1 x2) as H. unfold len in H. lia.
Qed.

Lemma assign_prefix_inv (n : nat) (vals out : list Z) :
  (1 < List.length vals)%nat ->
  assign_prefix (repeat 0%Z n) (List.length vals) vals = Py.ok out ->
  (List.length vals <= n)%nat.
Proof.
  intros H1 H. destruct (Nat.le_gt_cases (List.length vals) n) as [Hle|Hgt];
    [exact Hle|].
  rewrite (@assign_prefix_overflow Z 0%Z n vals Hgt H1) in H. discriminate.
Qed.

(** [fill_example] returns only when both sequences fit the row and
    hold integers of the array's type. *)
Lemma fill_example_inv (cfg : config) (n : nat)
      (x : list Z * (list Z * list Z)) (r : example_rows) :
  fill_example cfg n x = Py.ok r ->
  fits cfg n x /\ storable cfg x /\ r = filled_rows cfg n x.
Proof.
  destruct x as [x1 [x2 x3]]. intros H.
  assert (F : fits cfg n (x1, (x2, x3)) /\ storable cfg (x1, (x2, x3))).
  { unfold fill_example, store_tokens, Py.bind in H.
    destruct (forallb in_int32 (sequence cfg x1 x2)) eqn:S2;
      [|discriminate H].
    destruct (assign_prefix (repeat 0%Z n) (List.length (sequence cfg x1 x2))
                            (sequence cfg x1 x2)) as [e|r12] eqn:E2;
      [discriminate H|].
    destruct (forallb in_int32 (sequence cfg x1 x3)) eqn:S3;
      [|discriminate H].
    destruct (assign_prefix (repeat 0%Z n) (List.length (sequence cfg x1 x3))
                            (sequence cfg x1 x3)) as [e|r13] eqn:E3;
      [discriminate H|].
    pose proof (sequence_length_ge3 cfg x1 x2).
    pose proof (sequence_length_ge3 cfg x1 x3).
    split; [|split; [exact S2 | exact S3]].
    split; eapply assign_prefix_inv; eauto; lia. }
  destruct F as [F S]. split; [exact F|]. split; [exact S|].
  rewrite (@fill_example_fits cfg n _ F S) in H. now injection H.
Qed.

(** Whenever [transform_roc] returns, every example present in the three
    lists has its two rows filled as [rows_ok] describes. *)
Lemma transform_roc_inv (cfg : config) (X1 X2 X3 : list (list Z))
      (out : list (list (Z * Z) * list (Z * Z)) * list (list Q * list Q)) :
  transform_roc cfg X1 X2 X3 = Py.ok out -> rows_ok cfg X1 X2 X3 out.
Proof.
  intros H.
  assert (Hn : (0 <= n_ctx cfg)%Z).
  { unfold transform_roc in H.
    destruct (Z.ltb_spec (n_ctx cfg) 0); [discriminate|assumption]. }
  assert (Hfit : Forall (fun x => fits cfg (Z.to_nat (n_ctx cfg)) x /\
                                  storable cfg x)
                        (Py.zip X1 (Py.zip X2 X3))).
  { unfold transform_roc in H.
    replace (n_ctx cfg <? 0)%Z with false in H
      by (symmetry; apply Z.ltb_ge; lia).
    destruct (for_each (fill_example cfg (Z.to_nat (n_ctx cfg)))
                       (Py.zip X1 (Py.zip X2 X3))) as [e|filled] eqn:E;
      [discriminate H|].
    destruct (@for_each_inv _ _ _ _ _ E) as [_ Hall].
    apply Forall_forall. intros x Hx.
    destruct (In_nth_error _ _ Hx) as [i Hi].
    destruct (Hall i x Hi) as (r & _ & Hr).
    destruct (@fill_example_inv _ _ _ _ Hr) as (F & S & _). now split. }
  destruct (@transform_roc_fits cfg X1 X2 X3 Hn
              (Forall_impl _ (fun x => @proj1 _ _) Hfit)
              (Forall_impl _ (fun x => @proj2 _ _) Hfit))
    as (out' & Hrun & Hok).
  rewrite Hrun in H. now injection H as <-.
Qed.

Lemma map_fst_combine {A B : Type} (a : list A) (b : list B) :
  List.length a = List.length b -> map fst (combine a b) = a.
Proof.
  revert b; induction a as [|x a IH]; intros [|y b] H; simpl in *;
    try discriminate; [reflexivity|].
  f_equal. apply IH. lia.
Qed.

Lemma positions_length (cfg : config) (n : nat) :
  List.length (positions cfg n) = n.
Proof. unfold positions. now rewrite length_map, length_seq. Qed.

Lemma firstn_Forall {A : Type} (P : A -> Prop) (k : nat) (x : list A) :
  Forall P x -> Forall P (firstn k x).
Proof.
  revert k; induction x as [|a x IH]; intros [|k] H; simpl;
    try constructor.
  - now inversion H.
  - apply IH. now inversion H.
Qed.

Lemma slice_to_Forall {A : Type} (P : A -> Prop) (x : list A) (m : Z) :
  Forall P x -> Forall P (Py.slice_to x m).
Proof.
  intros H. unfold Py.slice_to. destruct (m <? 0)%Z; now apply firstn_Forall.
Qed.

End PoolFacts.

Section PoolRows.
Import Data Pool.

Lemma example_rows_ok (cfg : config) (X1 X2 X3 : list (list Z))
      (out : list (list (Z * Z) * list (Z * Z)) * list (list Q * list Q))
      (i : nat) (x1 x2 x3 : list Z)
      (xr : list (Z * Z) * list (Z * Z)) (mr : list Q * list Q) :
  transform_roc cfg X1 X2 X3 = Py.ok out ->
  example_at X1 X2 X3 out i x1 x2 x3 xr mr ->
  (0 <= n_ctx cfg)%Z /\
  row_ok cfg (sequence cfg x1 x2) (fst xr) (fst mr) /\
  row_ok cfg (sequence cfg x1 x3) (snd xr) (snd mr).
Proof.
  intros Hrun (H1 & H2 & H3 & Hx & Hm).
  assert (Hn : (0 <= n_ctx cfg)%Z).
  { unfold transform_roc in Hrun.
    destruct (Z.ltb_spec (n_ctx cfg) 0); [discriminate Hrun|assumption]. }
  destruct (transform_roc_inv _ _ _ _ Hrun) as (_ & _ & Hall).
  destruct (Hall i x1 x2 x3 H1 H2 H3) as (xr' & mr' & Hx' & Hm' & R2 & R3).
  rewrite Hx in Hx'. injection Hx' as <-.
  rewrite Hm in Hm'. injection Hm' as <-.
  split; [exact Hn | split; assumption].
Qed.

Lemma sequence_tokens (n_ctx ml vocab : Z) (x1 x2 : list Z) :
  (0 <= vocab)%Z -> encoded vocab x1 -> encoded vocab x2 ->
  Forall (fun t => (0 <= t < vocab + 3)%Z)
         (sequence (layout n_ctx ml vocab) x1 x2).
Proof.
  intros Hv E1 E2. unfold sequence, layout. simpl.
  constructor; [lia|].
  apply Forall_app. split.
  - eapply Forall_impl; [|apply slice_to_Forall, E1]. intros t Ht; cbv beta in *; lia.
  - constructor; [lia|]. apply Forall_app. split.
    + eapply Forall_impl; [|apply slice_to_Forall, E2].
      intros t Ht; cbv beta in *; lia.
    + constructor; [lia|constructor].
Qed.

Lemma Forall_combine {A B : Type} (P : A -> Prop) (Q : B -> Prop)
      (a : list A) (b : list B) :
  Forall P a -> Forall Q b ->
  Forall (fun p => P (fst p) /\ Q (snd p)) (combine a b).
Proof.
  intros Ha. revert b. induction Ha as [|x a Hx _ IH]; intros b Hb; simpl;
    [constructor|].
  destruct Hb as [|y b Hy Hb]; constructor; auto.
Qed.

Lemma row_gatherable (n_ctx ml vocab : Z) (x1 x2 : list Z)
      (xrow : list (Z * Z)) (mrow : list Q) :
  (0 <= vocab)%Z -> (0 <= n_ctx)%Z ->
  encoded vocab x1 -> encoded vocab x2 ->
  row_ok (layout n_ctx ml vocab)
         (sequence (layout n_ctx ml vocab) x1 x2) xrow mrow ->
  Forall (gatherable (layout n_ctx ml vocab)) xrow.
Proof.
  intros Hv Hn E1 E2 (Hl & -> & _).
  unfold gatherable, table_rows.
  apply (@Forall_combine Z Z (fun t => (0 <= t < vocab + 3)%Z)
           (fun p => (vocab + 3 <= p < vocab + 3 + n_ctx)%Z)).
  - apply Forall_app. split; [now apply sequence_tokens|].
    apply Forall_forall. intros t Ht. apply repeat_spec in Ht. lia.
  - unfold positions. apply Forall_map, Forall_forall.
    intros k Hk. apply in_seq in Hk. unfold layout in *.
    cbn [Data.n_vocab Data.n_special Data.n_ctx] in *. lia.
Qed.

(** Whenever [transform_roc] returns on encoded token lists, every pair
    (token id, position id) in the rows of an example is a valid row of
    the embedding table: the token lies among the vocabulary and the
    three special rows, the position among the [n_ctx] rows after them. *)
Theorem transform_roc_gatherable (n_ctx ml vocab : Z)
        (X1 X2 X3 : list (list Z))
        (out : list (list (Z * Z) * list (Z * Z)) * list (list Q * list Q))
        (i : nat) (x1 x2 x3 : list Z)
        (xr : list (Z * Z) * list (Z * Z)) (mr : list Q * list Q) :
  (0 <= vocab)%Z ->
  transform_roc (layout n_ctx ml vocab) X1 X2 X3 = Py.ok out ->
  example_at X1 X2 X3 out i x1 x2 x3 xr mr ->
  encoded vocab x1 -> encoded vocab x2 -> encoded vocab x3 ->
  Forall (gatherable (layout n_ctx ml vocab)) (fst xr) /\
  Forall (gatherable (layout n_ctx ml vocab)) (snd xr).
Proof.
  intros Hv Hrun Hex E1 E2 E3.
  destruct (@example_rows_ok _ _ _ _ _ _ _ _ _ _ _ Hrun Hex) as (Hn & R2 & R3).
  change (0 <= n_ctx)%Z in Hn.
  split.
  - exact (@row_gatherable n_ctx ml vocab x1 x2 _ _ Hv Hn E1 E2 R2).
  - exact (@row_gatherable n_ctx ml vocab x1 x3 _ _ Hv Hn E1 E3 R3).
Qed.

End PoolRows.

Section PoolIndex.
Import Data Pool.

Lemma argmax_after_one (clf : Z) (l : list Z) (bi i : nat) :
  Eval.argmax_from 1%Q bi i
    (map (fun t => if (t =? clf)%Z then 1%Q else 0%Q) l) = bi.
Proof.
  revert i; induction l as [|t l IH]; intros i; simpl; [reflexivity|].
  destruct (t =? clf)%Z; simpl; apply IH.
Qed.

(** The largest indicator is first reached at the first classify token. *)
Lemma argmax_first_clf (clf : Z) (pre post : list Z) (bi i : nat) :
  Forall (fun t => t <> clf) pre ->
  Eval.argmax_from 0%Q bi i
    (map (fun t => if (t =? clf)%Z then 1%Q else 0%Q) (pre ++ clf :: post))
  = (i + List.length pre)%nat.
Proof.
  intros Hpre. revert i.
  induction Hpre as [|t pre Ht _ IH]; intros i; simpl.
  - rewrite Z.eqb_refl. simpl. rewrite argmax_after_one. lia.
  - replace (t =? clf)%Z with false by (symmetry; now apply Z.eqb_neq).
    simpl. rewrite IH. lia.
Qed.

Lemma argmax_row_first_clf (clf : Z) (pre post : list Z) :
  Forall (fun t => t <> clf) pre ->
  Eval.argmax_row
    (map (fun t => if (t =? clf)%Z then 1%Q else 0%Q) (pre ++ clf :: post))
  = List.length pre.
Proof.
  intros Hpre. destruct Hpre as [|t pre Ht Hpre]; simpl.
  - rewrite Z.eqb_refl. apply argmax_after_one.
  - replace (t =? clf)%Z with false by (symmetry; now apply Z.eqb_neq).
    now rewrite argmax_first_clf.
Qed.

Lemma nth_repeat_lt {A : Type} (a d : A) (k l : nat) :
  (k < l)%nat -> nth k (repeat a l) d = a.
Proof.
  revert k; induction l as [|l IH]; intros [|k] H; simpl; try lia; auto.
  apply IH. lia.
Qed.

Lemma nth_pad_one (n l k : nat) :
  (k < l)%nat -> nth k (repeat 1%Q l ++ repeat 0%Q (n - l)) 0%Q = 1%Q.
Proof.
  intros H. rewrite app_nth1 by (rewrite repeat_length; exact H).
  now apply nth_repeat_lt.
Qed.

Lemma nth_pad_zero (n l k : nat) :
  (l <= k)%nat -> nth k (repeat 1%Q l ++ repeat 0%Q (n - l)) 0%Q = 0%Q.
Proof.
  intros H. rewrite app_nth2 by (rewrite repeat_length; exact H).
  rewrite repeat_length.
  destruct (Nat.lt_ge_cases (k - l) (n - l)) as [Hlt|Hge].
  - now apply nth_repeat_lt.
  - apply nth_overflow. now rewrite repeat_length.
Qed.

Lemma row_pool_idx (n_ctx ml vocab : Z) (x1 x2 : list Z)
      (xrow : list (Z * Z)) (mrow : list Q) :
  (0 <= vocab)%Z -> encoded vocab x1 -> encoded vocab x2 ->
  row_ok (layout n_ctx ml vocab)
         (sequence (layout n_ctx ml vocab) x1 x2) xrow mrow ->
  let cfg := layout n_ctx ml vocab in
  let l := List.length (sequence cfg x1 x2) in
  pool_idx cfg xrow = (l - 1)%nat /\
  nth (pool_idx cfg xrow) mrow 0%Q = 1%Q /\
  nth (S (pool_idx cfg xrow)) mrow 0%Q = 0%Q.
Proof.
  intros Hv E1 E2 (Hl & Hx & Hm) cfg l. fold cfg in Hl, Hx, Hm.
  fold l in Hl, Hx, Hm.
  pose proof (sequence_length_ge3 cfg x1 x2) as H3. fold l in H3.
  set (pre := vocab :: Py.slice_to x1 ml ++ (vocab + 1)%Z :: Py.slice_to x2 ml).
  assert (Hseq : sequence cfg x1 x2 = pre ++ [(vocab + 2)%Z]).
  { unfold sequence, cfg, layout, pre. simpl.
    now rewrite <- !app_assoc. }
  assert (Hpre : Forall (fun t => t <> (vocab + 2)%Z) pre).
  { unfold pre. constructor; [lia|]. apply Forall_app. split.
    - eapply Forall_impl; [|apply slice_to_Forall, E1].
      intros t Ht; cbv beta in *; lia.
    - constructor; [lia|].
      eapply Forall_impl; [|apply slice_to_Forall, E2].
      intros t Ht; cbv beta in *; lia. }
  assert (Hlen : List.length pre = (l - 1)%nat).
  { unfold l. rewrite Hseq, length_app. simpl. lia. }
  assert (Hpool : pool_idx cfg xrow = (l - 1)%nat).
  { unfold pool_idx, is_clf. rewrite Hx.
    rewrite <- (map_map fst (fun t => if (t =? clf_token cfg)%Z then 1%Q else 0%Q)).
    rewrite map_fst_combine
      by (rewrite length_app, repeat_length, positions_length; fold l; lia).
    rewrite Hseq, <- app_assoc.
    change (clf_token cfg) with (vocab + 2)%Z.
    change ([(vocab + 2)%Z] ++ repeat 0%Z (Z.to_nat (Data.n_ctx cfg) - l))
      with ((vocab + 2)%Z :: repeat 0%Z (Z.to_nat (Data.n_ctx cfg) - l)).
    rewrite (@argmax_row_first_clf (vocab + 2)%Z pre _ Hpre).
    exact Hlen. }
  rewrite Hpool, Hm.
  split; [reflexivity|]. split.
  - apply nth_pad_one. lia.
  - apply nth_pad_zero. lia.
Qed.

(** Whenever [transform_roc] returns on encoded token lists, the position
    that the classification head pools from is the last real token of
    each candidate sequence: the mask is 1 there and 0 right after. *)
Theorem pool_idx_last_token (n_ctx ml vocab : Z) (X1 X2 X3 : list (list Z))
        (out : list (list (Z * Z) * list (Z * Z)) * list (list Q * list Q))
        (i : nat) (x1 x2 x3 : list Z)
        (xr : list (Z * Z) * list (Z * Z)) (mr : list Q * list Q) :
  (0 <= vocab)%Z ->
  transform_roc (layout n_ctx ml vocab) X1 X2 X3 = Py.ok out ->
  example_at X1 X2 X3 out i x1 x2 x3 xr mr ->
  encoded vocab x1 -> encoded vocab x2 -> encoded vocab x3 ->
  let cfg := layout n_ctx ml vocab in
  (pool_idx cfg (fst xr) = (List.length (sequence cfg x1 x2) - 1)%nat /\
   nth (pool_idx cfg (fst xr)) (fst mr) 0%Q = 1%Q /\
   nth (S (pool_idx cfg (fst xr))) (fst mr) 0%Q = 0%Q) /\
  (pool_idx cfg (snd xr) = (List.length (sequence cfg x1 x3) - 1)%nat /\
   nth (pool_idx cfg (snd xr)) (snd mr) 0%Q = 1%Q /\
   nth (S (pool_idx cfg (snd xr))) (snd mr) 0%Q = 0%Q).
Proof.
  intros Hv Hrun Hex E1 E2 E3 cfg.
  destruct (@example_rows_ok _ _ _ _ _ _ _ _ _ _ _ Hrun Hex) as (Hn & R2 & R3).
  split.
  - exact (@row_pool_idx n_ctx ml vocab x1 x2 _ _ Hv E1 E2 R2).
  - exact (@row_pool_idx n_ctx ml vocab x1 x3 _ _ Hv E1 E3 R3).
Qed.

Lemma Qsum_app (a b : list Q) :
  (Eval.Qsum (a ++ b) == Eval.Qsum a + Eval.Qsum b)%Q.
Proof.
  induction a as [|x a IH]; simpl; [ring|]. rewrite IH. ring.
Qed.

Lemma Qsum_repeat_one (k : nat) :
  (Eval.Qsum (repeat 1%Q k) == inject_Z (Z.of_nat k))%Q.
Proof.
  induction k as [|k IH]; [reflexivity|].
  change (Eval.Qsum (repeat 1%Q (S k))) with (1 + Eval.Qsum (repeat 1%Q k))%Q.
  rewrite IH, Nat2Z.inj_succ. unfold Z.succ. rewrite inject_Z_plus. ring.
Qed.

Lemma Qsum_repeat_zero (k : nat) : (Eval.Qsum (repeat 0%Q k) == 0)%Q.
Proof.
  induction k as [|k IH]; [reflexivity|].
  change (Eval.Qsum (repeat 0%Q (S k))) with (0 + Eval.Qsum (repeat 0%Q k))%Q.
  rewrite IH. ring.
Qed.

Lemma row_mask_sum (cfg : config) (s : list Z) (xrow : list (Z * Z))
      (mrow : list Q) :
  (3 <= List.length s)%nat -> row_ok cfg s xrow mrow ->
  (Eval.Qsum (Py.slice_from1 mrow) == inject_Z (len s - 1))%Q /\
  (0 < Eval.Qsum (Py.slice_from1 mrow))%Q.
Proof.
  intros H3 (Hl & _ & ->).
  assert (Hsum : (Eval.Qsum (Py.slice_from1
                    (repeat 1%Q (List.length s)
                     ++ repeat 0%Q (Z.to_nat (n_ctx cfg) - List.length s)))
                  == inject_Z (len s - 1))%Q).
  { destruct (List.length s) as [|k] eqn:E; [lia|].
    unfold Py.slice_from1. simpl tl.
    rewrite Qsum_app, Qsum_repeat_one, Qsum_repeat_zero.
    unfold len. rewrite E, Nat2Z.inj_succ. unfold Z.succ.
    replace (Z.of_nat k + 1 - 1)%Z with (Z.of_nat k) by lia. ring. }
  split; [exact Hsum|].
  rewrite Hsum. change 0%Q with (inject_Z 0). rewrite <- Zlt_Qlt.
  unfold len. lia.
Qed.

(** Whenever [transform_roc] returns, the sum of [M[1:]] of each candidate
    sequence of an example, by which the language-model loss divides, is
    the number of its tokens minus one, hence positive. *)
Theorem lm_denominator_positive (cfg : config) (X1 X2 X3 : list (list Z))
        (out : list (list (Z * Z) * list (Z * Z)) * list (list Q * list Q))
        (i : nat) (x1 x2 x3 : list Z)
        (xr : list (Z * Z) * list (Z * Z)) (mr : list Q * list Q) :
  transform_roc cfg X1 X2 X3 = Py.ok out ->
  example_at X1 X2 X3 out i x1 x2 x3 xr mr ->
  ((Eval.Qsum (Py.slice_from1 (fst mr))
    == inject_Z (len (sequence cfg x1 x2) - 1))%Q /\
   (0 < Eval.Qsum (Py.slice_from1 (fst mr)))%Q) /\
  ((Eval.Qsum (Py.slice_from1 (snd mr))
    == inject_Z (len (sequence cfg x1 x3) - 1))%Q /\
   (0 < Eval.Qsum (Py.slice_from1 (snd mr)))%Q).
Proof.
  intros Hrun Hex.
  destruct (@example_rows_ok _ _ _ _ _ _ _ _ _ _ _ Hrun Hex) as (Hn & R2 & R3).
  split.
  - exact (@row_mask_sum cfg _ _ _ (sequence_length_ge3 cfg x1 x2) R2).
  - exact (@row_mask_sum cfg _ _ _ (sequence_length_ge3 cfg x1 x3) R3).
Qed.

End PoolIndex.

(** ** Counters, records and the best score of a training run *)

Section TrainerCounters.
Import Trainer.
Variables (Params Opt Batch : Type).
Variable sgd : Batch -> Params * Opt -> Params * Opt.
Variable va_acc : Params -> Q.

Local Abbreviation state := (state Params Opt).
Local Abbreviation log := (log va_acc).
Local Abbreviation minibatch := (minibatch sgd va_acc).
Local Abbreviation end_epoch := (@end_epoch Params Opt va_acc).
Local Abbreviation epoch := (epoch sgd va_acc).
Local Abbreviation training_loop := (training_loop sgd va_acc).
Local Abbreviation train := (train sgd va_acc).

(** [log] appends one record and touches neither counter. *)
Lemma log_record (st : state) :
  n_updates (log st) = n_updates st /\
  n_epochs (log st) = n_epochs st /\
  logger (log st)
  = logger st ++ [LogEntry (n_epochs st) (n_updates st)
                           (va_acc (sess_params st)) (sess_params st)].
Proof.
  unfold Trainer.log; simpl. destruct (exceeds _ _); simpl; auto.
Qed.

Lemma minibatch_counters (st : state) (b : Batch) :
  n_updates (minibatch st b) = (n_updates st + 1)%Z /\
  n_epochs (minibatch st b) = n_epochs st.
Proof.
  unfold Trainer.minibatch. destruct (sgd b _) as [p o].
  match goal with |- context [if ?c then _ else _] => destruct c end.
  - match goal with |- context [Trainer.log _ ?s] =>
      destruct (log_record s) as (-> & -> & _) end.
    split; reflexivity.
  - split; reflexivity.
Qed.

Lemma minibatches_counters (bs : list Batch) (st : state) :
  n_updates (fold_left minibatch bs st)
  = (n_updates st + Z.of_nat (List.length bs))%Z /\
  n_epochs (fold_left minibatch bs st) = n_epochs st.
Proof.
  revert st; induction bs as [|b bs IH]; intros st.
  - simpl. split; [lia|reflexivity].
  - change (fold_left minibatch (b :: bs) st)
      with (fold_left minibatch bs (minibatch st b)).
    destruct (IH (minibatch st b)) as [-> ->].
    destruct (minibatch_counters st b) as [-> ->].
    split; [|reflexivity].
    change (List.length (b :: bs)) with (S (List.length bs)). lia.
Qed.

(** After the first epoch a minibatch never writes a record. *)
Lemma minibatch_silent (st : state) (b : Batch) :
  n_epochs st <> 0%Z -> logger (minibatch st b) = logger st.
Proof.
  intros H. unfold Trainer.minibatch. destruct (sgd b _) as [p o].
  cbn [n_epochs n_updates].
  replace (n_epochs st =? 0)%Z with false by (symmetry; now apply Z.eqb_neq).
  now rewrite andb_false_r.
Qed.

Lemma minibatches_silent (bs : list Batch) (st : state) :
  n_epochs st <> 0%Z -> logger (fold_left minibatch bs st) = logger st.
Proof.
  revert st; induction bs as [|b bs IH]; intros st H; [reflexivity|].
  change (fold_left minibatch (b :: bs) st)
    with (fold_left minibatch bs (minibatch st b)).
  rewrite IH by (destruct (minibatch_counters st b) as [_ ->]; exact H).
  now apply minibatch_silent.
Qed.

Lemma epoch_counters (st : state) (bs : list Batch) :
  n_updates (epoch st bs) = (n_updates st + Z.of_nat (List.length bs))%Z /\
  n_epochs (epoch st bs) = (n_epochs st + 1)%Z.
Proof.
  unfold Trainer.epoch, Trainer.end_epoch.
  match goal with |- context [Trainer.log _ ?s] =>
    destruct (log_record s) as (-> & -> & _) end.
  cbn [n_updates n_epochs].
  destruct (minibatches_counters bs st) as [-> ->]. split; reflexivity.
Qed.

Lemma training_loop_counters (epochs : list (list Batch)) (st : state) :
  n_updates (training_loop epochs st)
  = (n_updates st + Z.of_nat (List.length (concat epochs)))%Z /\
  n_epochs (training_loop epochs st)
  = (n_epochs st + Z.of_nat (List.length epochs))%Z.
Proof.
  revert st; induction epochs as [|bs epochs IH]; intros st.
  - simpl. split; lia.
  - change (training_loop (bs :: epochs) st)
      with (training_loop epochs (epoch st bs)).
    destruct (IH (epoch st bs)) as [-> ->].
    destruct (epoch_counters st bs) as [-> ->].
    change (concat (bs :: epochs)) with (bs ++ concat epochs).
    rewrite length_app.
    change (List.length (bs :: epochs)) with (S (List.length epochs)).
    split; lia.
Qed.

(** A run of [train] that completes leaves [n_updates] at the total
    number of minibatches of all epochs and [n_epochs] at the number of
    epochs, whatever was logged or saved on the way. *)
Theorem train_counters (p : Params) (o : Opt) (jl : option Params)
        (epochs : list (list Batch)) (st : state) :
  train epochs (init p o jl) = Py.ok st ->
  n_updates st = Z.of_nat (List.length (concat epochs)) /\
  n_epochs st = Z.of_nat (List.length epochs).
Proof.
  unfold Trainer.train, Trainer.reload. intros H.
  destruct (training_loop_counters epochs (save (init p o jl))) as [Hu He].
  cbn [n_updates n_epochs save init] in Hu, He.
  destruct (best_params_jl (training_loop epochs (save (init p o jl))));
    [|discriminate H].
  injection H as <-. cbn [n_updates n_epochs].
  rewrite Hu, He. split; reflexivity.
Qed.

(** In an epoch that starts after the first one has ended, the only
    record written is the one at the end of the epoch; it carries the
    incremented epoch count and the update count reached, and it is
    computed from the parameters the epoch ended on. *)
Theorem later_epoch_logs_once (st : state) (bs : list Batch) :
  n_epochs st <> 0%Z ->
  exists e,
    logger (epoch st bs) = logger st ++ [e] /\
    at_epochs e = (n_epochs st + 1)%Z /\
    at_updates e = (n_updates st + Z.of_nat (List.length bs))%Z /\
    evaluated e = sess_params (epoch st bs) /\
    acc e = va_acc (sess_params (epoch st bs)).
Proof.
  intros H. unfold Trainer.epoch, Trainer.end_epoch.
  match goal with |- context [Trainer.log _ ?s] =>
    destruct (log_record s) as (_ & _ & Hl);
    assert (Hp : sess_params (log s) = sess_params s)
      by (unfold Trainer.log; simpl; destruct (exceeds _ _); reflexivity)
  end.
  rewrite Hl, Hp. cbn [logger n_epochs n_updates sess_params].
  rewrite (@minibatches_silent bs st H).
  destruct (minibatches_counters bs st) as [-> ->].
  eexists. split; [reflexivity|]. repeat split.
Qed.

(** [train] always returns with a best score that bounds every logged
    accuracy; the score is 0 with the post-transfer parameters restored,
    or it is positive and equal to the validation accuracy of the
    parameters that [train] ends on. *)
Theorem train_best_score (p : Params) (o : Opt) (jl : option Params)
        (epochs : list (list Batch)) :
  exists st : state,
    train epochs (init p o jl) = Py.ok st /\
    (forall x, In x (logger st) -> (acc x <= best_score st)%Q) /\
    ((best_score st == 0 /\ sess_params st = p)%Q \/
     ((0 < best_score st)%Q /\ best_score st = va_acc (sess_params st))).
Proof.
  destruct (train_result sgd va_acc p o jl epochs) as [Hinv (b & Hb & Htrain)].
  eexists. split; [exact Htrain|]. cbn [logger best_score sess_params].
  destruct Hinv as (_ & Hle & Hacc & Hbest).
  split; [exact Hle|].
  destruct Hbest as [[Hz Hjl] | (l1 & e & l2 & Hl & Hjl & Hsc & Hgt & _)].
  - left. split; [exact Hz|]. rewrite Hjl in Hb. now injection Hb.
  - right. rewrite Hsc. split; [exact Hgt|].
    rewrite Hjl in Hb. injection Hb as <-.
    apply Hacc. rewrite Hl. apply in_or_app. right. now left.
Qed.

End TrainerCounters.


(** ** The context length chosen by [data_prep] *)

Section PrepFacts.
Import Data Prep.

Lemma fold_max_in (l : list Z) (x : Z) : In (fold_left Z.max l x) (x :: l).
Proof.
  revert x; induction l as [|y l IH]; intros x; simpl; [now left|].
  destruct (IH (Z.max x y)) as [H | H]; [|now right; right].
  destruct (Z.max_spec x y) as [[_ E] | [_ E]]; rewrite E in *; auto.
Qed.

Lemma py_max_in (l : list Z) (m : Z) : py_max l = Py.ok m -> In m l.
Proof.
  destruct l as [|x l]; simpl; [discriminate|].
  intros H. injection H as <-. apply fold_max_in.
Qed.

Lemma pair_lengths_examples (ml : Z) (s : split) :
  pair_lengths ml s
  = map (fun x : list Z * (list Z * list Z) =>
           let '(x1, (x2, x3)) := x in
           (len (Py.slice_to x1 ml)
            + Z.max (len (Py.slice_to x2 ml)) (len (Py.slice_to x3 ml)))%Z)
        (examples s).
Proof. now destruct s as [[X1 X2] X3]. Qed.

Lemma longest_pair_length (cfg : config) (x : list Z * (list Z * list Z)) :
  longest cfg x
  = ((let '(x1, (x2, x3)) := x in
      len (Py.slice_to x1 (max_len cfg))
      + Z.max (len (Py.slice_to x2 (max_len cfg)))
              (len (Py.slice_to x3 (max_len cfg)))) + 3)%Z.
Proof.
  destruct x as [x1 [x2 x3]]. unfold longest.
  rewrite !sequence_length. lia.
Qed.

Lemma data_prep_config (n vocab : Z) (tr va te : split) (cfg : config)
      (trXM vaXM teXM : list (list (Z * Z) * list (Z * Z))
                        * list (list Q * list Q)) :
  data_prep n vocab tr va te = Py.ok (cfg, trXM, vaXM, teXM) ->
  exists temp,
    py_max (pair_lengths (n / 2 - 2) tr ++ pair_lengths (n / 2 - 2) va
            ++ pair_lengths (n / 2 - 2) te) = Py.ok temp /\
    cfg = Config (Z.min (temp + 3) n) (n / 2 - 2) vocab 3
                 vocab (vocab + 1) (vocab + 2).
Proof.
  unfold data_prep. intros H.
  destruct (py_max _) as [e|temp]; [discriminate H|].
  exists temp. split; [reflexivity|].
  unfold Py.bind at 1 in H.
  destruct (run_transform _ tr) as [e|a]; [discriminate H|].
  unfold Py.bind at 1 in H.
  destruct (run_transform _ va) as [e|b]; [discriminate H|].
  unfold Py.bind at 1 in H.
  destruct (run_transform _ te) as [e|c]; [discriminate H|].
  unfold Py.bind, Py.ok in H. now injection H as <- _ _ _.
Qed.

(** For a configured context length of at least 4, the context length
    that [data_prep] settles on is exactly the number of tokens of the
    longest sequence of the three splits: no example is longer, and some
    example fills its row completely. *)
Theorem data_prep_context_tight (n vocab : Z) (tr va te : split)
        (cfg : config)
        (trXM vaXM teXM : list (list (Z * Z) * list (Z * Z))
                          * list (list Q * list Q)) :
  (4 <= n)%Z ->
  data_prep n vocab tr va te = Py.ok (cfg, trXM, vaXM, teXM) ->
  (forall x, In x (examples tr ++ examples va ++ examples te) ->
             (longest cfg x <= n_ctx cfg)%Z) /\
  (exists x, In x (examples tr ++ examples va ++ examples te) /\
             longest cfg x = n_ctx cfg).
Proof.
  intros Hn Hrun.
  destruct (data_prep_config _ _ _ _ _ Hrun) as (temp & Hmax & ->).
  destruct (max_len_bound Hn) as [Hml Hn2].
  rewrite !pair_lengths_examples, <- !map_app in Hmax.
  set (pl := fun x : list Z * (list Z * list Z) =>
               let '(x1, (x2, x3)) := x in
               (len (Py.slice_to x1 (n / 2 - 2))
                + Z.max (len (Py.slice_to x2 (n / 2 - 2)))
                        (len (Py.slice_to x3 (n / 2 - 2))))%Z) in *.
  set (all := examples tr ++ examples va ++ examples te) in *.
  assert (Hlong : forall x,
             longest (Config (Z.min (temp + 3) n) (n / 2 - 2) vocab 3
                             vocab (vocab + 1) (vocab + 2)) x
             = (pl x + 3)%Z).
  { intros x. now rewrite longest_pair_length. }
  assert (Hpl : forall x, (pl x <= 2 * (n / 2 - 2))%Z).
  { intros [x1 [x2 x3]]. unfold pl.
    pose proof (slice_to_le x1 Hml). pose proof (slice_to_le x2 Hml).
    pose proof (slice_to_le x3 Hml). lia. }
  destruct (proj1 (in_map_iff pl all temp) (py_max_in _ Hmax))
    as (x0 & Hx0 & Hin0).
  assert (Hctx : Z.min (temp + 3) n = (temp + 3)%Z).
  { specialize (Hpl x0). lia. }
  split.
  - intros x Hx. rewrite Hlong. cbn [n_ctx]. rewrite Hctx.
    pose proof (py_max_ge _ Hmax (pl x) (in_map pl all x Hx)). lia.
  - exists x0. split; [exact Hin0|]. rewrite Hlong. cbn [n_ctx]. lia.
Qed.

(** Without a single example in any split, [data_prep] raises. *)
Lemma data_prep_no_examples (n vocab : Z) (tr va te : split) :
  examples tr = [] -> examples va = [] -> examples te = [] ->
  data_prep n vocab tr va te = Py.raise Py.ValueError.
Proof.
  intros H1 H2 H3. unfold data_prep.
  now rewrite !pair_lengths_examples, H1, H2, H3.
Qed.

End PrepFacts.


(** ** Logged costs and accuracies *)

Section MetricsFacts.
Import Eval Metrics.
Local Open Scope Q_scope.
Variable Input : Type.
Variable n_batch_train : nat.
Variable mgpu_logits : list Input -> list (list F32.float32).
Variable single_logits : list Input -> list (list F32.float32).
Variable mgpu_clf_losses : list (Input * nat) -> list Q.
Variable single_clf_losses : list (Input * nat) -> list Q.

Local Abbreviation eval_mgpu := (eval_mgpu mgpu_logits mgpu_clf_losses).
Local Abbreviation eval_single := (eval_single single_logits single_clf_losses).
Local Abbreviation run_graph := (run_graph n_batch_train eval_mgpu eval_single).
Local Abbreviation fetched_logits :=
  (fetched_logits n_batch_train mgpu_logits single_logits).
Local Abbreviation clf_losses :=
  (clf_losses n_batch_train mgpu_clf_losses single_clf_losses).
Local Abbreviation iter_apply :=
  (Metrics.iter_apply n_batch_train mgpu_logits single_logits
                      mgpu_clf_losses single_clf_losses).
Local Abbreviation batched :=
  (batched n_batch_train mgpu_logits single_logits
           mgpu_clf_losses single_clf_losses).
Local Abbreviation all_losses :=
  (all_losses n_batch_train mgpu_clf_losses single_clf_losses).
Local Abbreviation returned_logits :=
  (returned_logits n_batch_train mgpu_logits single_logits).
Local Abbreviation log_metrics :=
  (log_metrics n_batch_train mgpu_logits single_logits
               mgpu_clf_losses single_clf_losses).

Lemma run_graph_fetches (mb : list (Input * nat)) :
  run_graph mb = (fetched_logits (map fst mb), reduce_mean (clf_losses mb)).
Proof.
  unfold Eval.run_graph, Metrics.fetched_logits, Metrics.clf_losses.
  rewrite length_map. now destruct (_ =? _)%nat.
Qed.

Lemma Qsum_concat (ls : list (list Q)) :
  Qsum (concat ls) == Qsum (map Qsum ls).
Proof.
  induction ls as [|l ls IH]; simpl; [reflexivity|].
  rewrite Qsum_app, IH. reflexivity.
Qed.

Lemma Qsum_ext (a b : list Q) : Forall2 Qeq a b -> Qsum a == Qsum b.
Proof.
  induction 1 as [|x y a b Hxy _ IH]; simpl; [reflexivity|].
  now rewrite Hxy, IH.
Qed.

(** Multiplying the mean by the number of entries gives back the sum. *)
Lemma scaled_mean (n : nat) (l : list Q) :
  (0 < n)%nat -> List.length l = n ->
  inject_Z (Z.of_nat n) * reduce_mean l == Qsum l.
Proof.
  intros Hn Hl. unfold reduce_mean. rewrite Hl. field.
  change 0 with (inject_Z 0). rewrite inject_Z_injective. lia.
Qed.

Lemma iter_apply_total (batches : list (list (Input * nat))) (Y : list nat) :
  batched batches Y ->
  exists cost,
    iter_apply batches = Py.ok (returned_logits batches, cost) /\
    cost == Qsum (all_losses batches) /\
    List.length (all_losses batches) = List.length Y /\
    List.length (F32.argmax (returned_logits batches)) = List.length Y /\
    (0 < List.length Y)%nat.
Proof.
  intros (Hne & Hall & HY).
  assert (Hpos : Forall (fun mb : list (Input * nat) =>
                           (0 < List.length mb)%nat) batches).
  { eapply Forall_impl; [|exact Hall]. now intros mb (H & _). }
  assert (Hret : concat (map fst (map (scaled_result n_batch_train eval_mgpu
                                                    eval_single) batches))
                 = returned_logits batches).
  { unfold Metrics.returned_logits. rewrite map_map. f_equal.
    apply map_ext. intros mb. cbn [scaled_result fst].
    now rewrite run_graph_fetches. }
  eexists. split.
  { unfold Metrics.iter_apply, Eval.iter_apply.
    destruct batches; [contradiction|]. now rewrite Hret. }
  rewrite !map_map. cbn [scaled_result snd].
  split; [|split; [|split]].
  - unfold Metrics.all_losses. rewrite Qsum_concat, map_map.
    apply Qsum_ext. clear Hne HY Hpos Hret.
    induction Hall as [|mb batches (Hn & Hl & _) _ IH]; simpl; constructor;
      [|exact IH].
    rewrite run_graph_fetches. cbn [snd]. now apply scaled_mean.
  - rewrite <- HY, length_map. unfold Metrics.all_losses.
    clear Hne HY Hpos Hret.
    induction Hall as [|mb batches (_ & Hl & _) _ IH]; simpl; [reflexivity|].
    now rewrite !length_app, IH, Hl.
  - rewrite <- HY, length_map. unfold F32.argmax. rewrite length_map.
    unfold Metrics.returned_logits. clear Hne HY Hpos Hret.
    induction Hall as [|mb batches (_ & _ & Hl) _ IH]; simpl in *;
      [reflexivity|].
    rewrite !length_app, IH. f_equal.
    unfold scale_rows. rewrite length_map. exact Hl.
  - rewrite <- HY, length_map.
    destruct batches as [|mb batches]; [contradiction|].
    simpl. rewrite length_app. inversion Hpos; subst. lia.
Qed.

(** When [iter_data] covers the first [n_valid] training examples and the
    validation set, [log] raises nothing, the costs it logs are the means
    of the per-example classification losses, whatever the sizes of the
    minibatches, and the accuracies are those of the logits that
    [iter_apply] returns, each minibatch multiplied by its size, in
    percent. *)
Theorem log_metrics_exact (tr_batches va_batches : list (list (Input * nat)))
        (trY vaY : list nat) :
  let n_valid := Data.len vaY in
  batched tr_batches (Py.slice_to trY n_valid) ->
  batched va_batches vaY ->
  exists tr_cost va_cost tr_acc va_acc,
    log_metrics tr_batches va_batches trY vaY n_valid
    = Py.ok (tr_cost, va_cost, tr_acc, va_acc) /\
    tr_cost == reduce_mean (all_losses tr_batches) /\
    va_cost == reduce_mean (all_losses va_batches) /\
    tr_acc = accuracy_score (Py.slice_to trY n_valid)
                            (F32.argmax (returned_logits tr_batches)) * 100 /\
    va_acc = accuracy_score vaY (F32.argmax (returned_logits va_batches)) * 100.
Proof.
  intros n_valid Htr Hva.
  destruct (iter_apply_total Htr) as (ct & Rt & Ct & Lt & Gt & Pt).
  destruct (iter_apply_total Hva) as (cv & Rv & Cv & Lv & Gv & Pv).
  unfold Metrics.log_metrics. rewrite Rt, Rv.
  unfold py_div, checked_accuracy, Py.bind, Py.ok. cbn [fst snd].
  replace (Data.len (Py.slice_to trY n_valid) =? 0)%Z with false
    by (symmetry; apply Z.eqb_neq; unfold Data.len; lia).
  replace (n_valid =? 0)%Z with false
    by (symmetry; apply Z.eqb_neq; unfold n_valid, Data.len; lia).
  rewrite Gt, Gv, !Nat.eqb_refl.
  eexists _, _, _, _. split; [reflexivity|].
  repeat split.
  - rewrite Ct. unfold reduce_mean, Data.len. now rewrite Lt.
  - rewrite Cv. unfold reduce_mean, n_valid, Data.len. now rewrite Lv.
Qed.

End MetricsFacts.

Section DevicesFacts.
Import Metrics.
Variable Example : Type.
Variable model : list Example -> list (list Q) * list Q * list Q.



End DevicesFacts.


(** ** The merged embedding table matches the ids of [transform_roc] *)

Section EmbedFacts.
Import Data Pool Embed.

Lemma nth_error_positions (cfg : config) (n k : nat) :
  (k < n)%nat ->
  nth_error (positions cfg n) k
  = Some (n_vocab cfg + n_special cfg + Z.of_nat k)%Z.
Proof.
  intros H. unfold positions. rewrite nth_error_map, nth_error_seq.
  replace (k <? n)%nat with true by (symmetry; now apply Nat.ltb_lt).
  reflexivity.
Qed.

Lemma nth_positions (cfg : config) (n k : nat) :
  (k < n)%nat ->
  nth k (positions cfg n) 0%Z = (n_vocab cfg + n_special cfg + Z.of_nat k)%Z.
Proof.
  intros H. apply nth_error_nth. now apply nth_error_positions.
Qed.

Lemma merge_embeddings_table {Slice : Type} (embd_wide : Slice -> bool)
      (n_ctx : Z) (special pos tok : list Slice)
      (rest out : list (list Slice)) :
  (0 <= n_ctx)%Z ->
  merge_embeddings embd_wide n_ctx special (pos :: tok :: rest) = Py.ok out ->
  out = (tok ++ special ++ firstn (Z.to_nat n_ctx) pos) :: rest.
Proof.
  intros Hn H. unfold merge_embeddings, Py.slice_to in H.
  replace (n_ctx <? 0)%Z with false in H by (symmetry; apply Z.ltb_ge; lia).
  destruct (forallb _ _); [|discriminate H].
  now injection H as <-.
Qed.

Lemma table_lookups {Slice : Type} (n_ctx ml vocab : Z)
      (special pos tok : list Slice) :
  len tok = vocab -> len special = 3%Z -> (0 <= n_ctx <= len pos)%Z ->
  let cfg := layout n_ctx ml vocab in
  let we := tok ++ special ++ firstn (Z.to_nat n_ctx) pos in
  len we = table_rows cfg /\
  (forall t, (t < List.length (tok ++ special))%nat ->
             nth_error we t = nth_error (tok ++ special) t) /\
  (forall k, (k < Z.to_nat n_ctx)%nat ->
     nth_error we (Z.to_nat (nth k (positions cfg (Z.to_nat n_ctx)) 0%Z))
     = nth_error pos k).
Proof.
  intros Ht Hs Hn cfg we. unfold len in *. split; [|split].
  - unfold we, table_rows, cfg, layout. cbn [n_vocab n_special Data.n_ctx].
    rewrite !length_app, length_firstn. lia.
  - intros t Hlt. unfold we. rewrite app_assoc. now apply nth_error_app1.
  - intros k Hk. rewrite nth_positions by exact Hk.
    unfold we, cfg, layout. cbn [n_vocab n_special].
    rewrite app_assoc, nth_error_app2 by (rewrite length_app; lia).
    replace (Z.to_nat (vocab + 3 + Z.of_nat k)
             - List.length (tok ++ special))%nat with k
      by (rewrite length_app; lia).
    rewrite nth_error_firstn.
    replace (k <? Z.to_nat n_ctx)%nat with true
      by (symmetry; now apply Nat.ltb_lt).
    reflexivity.
Qed.

(** When the pretrained token table has as many rows as the vocabulary
    and the pretrained positional table at least [n_ctx], the table that
    [train] assembles has the [n_vocab + n_special + n_ctx] rows of the
    variable [we]; a token id gathers the pretrained row of that token,
    the three special ids gather the freshly drawn rows, and the position
    id that [transform_roc] writes in slot [k] gathers pretrained
    positional row [k]. *)
Theorem merged_table_layout {Slice : Type} (embd_wide : Slice -> bool)
        (n_ctx ml vocab : Z) (special pos tok : list Slice)
        (rest out : list (list Slice)) :
  merge_embeddings embd_wide n_ctx special (pos :: tok :: rest) = Py.ok out ->
  len tok = vocab -> len special = 3%Z -> (0 <= n_ctx <= len pos)%Z ->
  let cfg := layout n_ctx ml vocab in
  exists we,
    out = we :: rest /\
    len we = table_rows cfg /\
    (forall t, (t < List.length tok)%nat -> nth_error we t = nth_error tok t) /\
    nth_error we (Z.to_nat (start cfg)) = nth_error special 0 /\
    nth_error we (Z.to_nat (delimiter cfg)) = nth_error special 1 /\
    nth_error we (Z.to_nat (clf_token cfg)) = nth_error special 2 /\
    (forall k, (k < Z.to_nat n_ctx)%nat ->
       nth_error we (Z.to_nat (nth k (positions cfg (Z.to_nat n_ctx)) 0%Z))
       = nth_error pos k).
Proof.
  intros H Ht Hs Hn cfg.
  rewrite (merge_embeddings_table _ _ _ _ _ (proj1 Hn) H).
  destruct (@table_lookups Slice n_ctx ml vocab special pos tok Ht Hs Hn)
    as (Hlen & Htok & Hpos).
  eexists. split; [reflexivity|]. split; [exact Hlen|].
  assert (Hspecial : forall j, (j < 3)%nat ->
            nth_error (tok ++ special ++ firstn (Z.to_nat n_ctx) pos)
                      (Z.to_nat (vocab + Z.of_nat j))
            = nth_error special j).
  { intros j Hj. unfold len in *.
    rewrite Htok by (rewrite length_app; lia).
    rewrite nth_error_app2 by lia. f_equal. lia. }
  split; [|split; [|split; [|split]]].
  - intros t Hlt. rewrite Htok by (rewrite length_app; lia).
    now apply nth_error_app1.
  - unfold cfg, layout. cbn [start].
    rewrite <- (Hspecial 0%nat) by lia. do 2 f_equal. cbn. lia.
  - apply (Hspecial 1%nat). lia.
  - apply (Hspecial 2%nat). lia.
  - exact Hpos.
Qed.

Lemma all_some_map {A B : Type} (f : A -> option B) (g : A -> B)
      (l : list A) :
  Forall (fun a => f a = Some (g a)) l -> all_some (map f l) = Some (map g l).
Proof.
  induction 1 as [|a l Ha _ IH]; simpl; [reflexivity|].
  now rewrite Ha, IH.
Qed.

(** With the table assembled by [train], [embed] finds every id of a row
    written by [transform_roc]: the hidden state of slot [k] is the
    pretrained (or, for a special token, freshly drawn) row of the token
    in that slot plus pretrained positional row [k]. *)
Theorem embed_pretrained_rows (n_ctx ml vocab : Z) (n_embd : nat)
        (special pos tok : list (list R)) (rest out : list (list (list R)))
        (s : list Z) (xrow : list (Z * Z)) (mrow : list Q) :
  merge_embeddings (fun r => (List.length r =? n_embd)%nat) n_ctx special
                   (pos :: tok :: rest) = Py.ok out ->
  len tok = vocab -> len special = 3%Z -> (0 <= n_ctx <= len pos)%Z ->
  Forall (fun t => (0 <= t < vocab + 3)%Z) s ->
  row_ok (layout n_ctx ml vocab) s xrow mrow ->
  exists we h,
    out = we :: rest /\
    embed we xrow = Some h /\
    List.length h = Z.to_nat n_ctx /\
    forall k, (k < Z.to_nat n_ctx)%nat ->
      nth_error h k
      = Some (Kernels.t_add
                (nth (Z.to_nat (fst (nth k xrow (0, 0)%Z))) (tok ++ special) [])
                (nth k pos [])).
Proof.
  intros H Ht Hs Hn Htok (Hl & Hx & _).
  rewrite (merge_embeddings_table _ _ _ _ _ (proj1 Hn) H).
  destruct (@table_lookups (list R) n_ctx ml vocab special pos tok Ht Hs Hn)
    as (Hlen & Hlook & Hpos).
  set (cfg := layout n_ctx ml vocab) in *.
  set (we := tok ++ special ++ firstn (Z.to_nat n_ctx) pos) in *.
  set (n := Z.to_nat n_ctx) in *.
  change (Z.to_nat (Data.n_ctx cfg)) with n in Hl, Hx.
  set (toks := s ++ repeat 0%Z (n - List.length s)) in *.
  assert (Hlt : List.length toks = n).
  { unfold toks. rewrite length_app, repeat_length. lia. }
  assert (Hlp : List.length (positions cfg n) = n) by apply positions_length.
  assert (Htoks : Forall (fun t => (0 <= t < vocab + 3)%Z) toks).
  { unfold toks. apply Forall_app. split; [exact Htok|].
    apply Forall_forall. intros t Hin. apply repeat_spec in Hin.
    unfold len in *. lia. }
  set (G := fun p : Z * Z =>
              Kernels.t_add (nth (Z.to_nat (fst p)) (tok ++ special) [])
                            (nth (Z.to_nat (snd p - vocab - 3)) pos [])).
  assert (Hall : Forall (fun p =>
             match lookup we (fst p), lookup we (snd p) with
             | Some a, Some b => Some (Kernels.t_add a b)
             | _, _ => None
             end = Some (G p)) xrow).
  { rewrite Hx. apply Forall_forall. intros [t q] Hin.
    pose proof (in_combine_l _ _ _ _ Hin) as Hin1.
    pose proof (in_combine_r _ _ _ _ Hin) as Hin2.
    rewrite Forall_forall in Htoks. specialize (Htoks t Hin1).
    destruct (In_nth _ _ 0%Z Hin2) as (k & Hk & Hq).
    rewrite Hlp in Hk. cbn [fst snd]. unfold lookup, G. cbn [fst snd].
    replace (t <? 0)%Z with false by (symmetry; apply Z.ltb_ge; lia).
    assert (Hq' : q = (vocab + 3 + Z.of_nat k)%Z).
    { rewrite <- Hq. now rewrite nth_positions. }
    replace (q <? 0)%Z with false by (symmetry; apply Z.ltb_ge; lia).
    assert (Htl : (Z.to_nat t < List.length (tok ++ special))%nat).
    { rewrite length_app. unfold len in *. lia. }
    rewrite (Hlook _ Htl).
    rewrite (nth_error_nth' _ [] Htl).
    rewrite <- Hq, (Hpos k Hk).
    assert (Hkp : (k < List.length pos)%nat) by (unfold len in *; lia).
    rewrite (nth_error_nth' _ [] Hkp).
    rewrite Hq. replace (Z.to_nat (q - vocab - 3)) with k by lia.
    reflexivity. }
  exists we, (map G xrow). split; [reflexivity|]. split.
  { unfold embed. now apply all_some_map. }
  assert (Hxl : List.length xrow = n).
  { rewrite Hx, length_combine. lia. }
  split; [now rewrite length_map|].
  intros k Hk. rewrite nth_error_map.
  rewrite (nth_error_nth' xrow (0, 0)%Z) by lia. cbn [option_map].
  unfold G. do 3 f_equal.
  rewrite Hx, combine_nth by lia. cbn [snd].
  rewrite nth_positions by exact Hk.
  unfold cfg, layout. cbn [n_vocab n_special]. lia.
Qed.

End EmbedFacts.


(** ** The classification head reads the classify token of each candidate *)

Section ClassifierFacts.
Import Classifier.
Local Open Scope R_scope.

Lemma argmax_from_range (row : list Q) (best : Q) (bi i : nat) :
  Eval.argmax_from best bi i row = bi \/
  (i <= Eval.argmax_from best bi i row < i + List.length row)%nat.
Proof.
  revert best bi i; induction row as [|x row IH]; intros best bi i; simpl;
    [now left|].
  destruct (negb (Qle_bool x best)).
  - right. destruct (IH x i (S i)) as [-> | H]; lia.
  - destruct (IH best bi (S i)) as [-> | H]; [now left|right; lia].
Qed.

(** The argmax of a non-empty row is one of its positions. *)
Lemma argmax_row_lt (row : list Q) :
  row <> [] -> (Eval.argmax_row row < List.length row)%nat.
Proof.
  destruct row as [|x row]; [contradiction|]. intros _. simpl.
  destruct (argmax_from_range row x 0 1) as [-> | H]; lia.
Qed.

Lemma pool_idx_lt (cfg : Data.config) (xrow : list (Z * Z)) :
  xrow <> [] -> (Pool.pool_idx cfg xrow < List.length xrow)%nat.
Proof.
  intros H. unfold Pool.pool_idx.
  replace (List.length xrow) with (List.length (Pool.is_clf cfg xrow))
    by (unfold Pool.is_clf; apply length_map).
  apply argmax_row_lt. unfold Pool.is_clf. destruct xrow; [contradiction|].
  discriminate.
Qed.

Lemma nth_error_concat_uniform {A : Type} (n : nat) (ls : list (list A))
      (i p : nat) :
  Forall (fun r => List.length r = n) ls -> (p < n)%nat ->
  nth_error (concat ls) (i * n + p) = nth_error (nth i ls []) p.
Proof.
  intros Hall Hp. revert i.
  induction Hall as [|r ls Hr _ IH]; intros i.
  - destruct i; simpl; now rewrite !nth_error_nil.
  - destruct i as [|i]; simpl.
    + apply nth_error_app1. lia.
    + rewrite nth_error_app2 by lia.
      replace (n + i * n + p - List.length r)%nat with (i * n + p)%nat by lia.
      apply IH.
Qed.

Lemma nth_chunks {A : Type} (n d : nat) (l : list A) (e c : nat) (x : A) :
  (e < n)%nat -> (c < d)%nat ->
  nth c (nth e (Head.chunks n d l) []) x = nth (e * d + c) l x.
Proof.
  revert l e; induction n as [|n IH]; intros l e He Hc; [lia|].
  destruct e as [|e]; simpl.
  - rewrite nth_firstn.
    now replace (c <? d)%nat with true by (symmetry; now apply Nat.ltb_lt).
  - rewrite IH by lia. rewrite nth_skipn. f_equal. lia.
Qed.

Lemma map2_indexed_nth {A B : Type} (f : nat -> A -> B) (l : list A)
      (k : nat) (d : A) (db : B) :
  (k < List.length l)%nat ->
  nth k (Py.map2 f (seq 0 (List.length l)) l) db = f k (nth k l d).
Proof.
  intros H.
  rewrite (map2_nth f (seq 0 (List.length l)) l 0%nat d db)
    by (rewrite ?length_seq; exact H).
  now rewrite seq_nth.
Qed.

Lemma gather_map {A : Type} (params : list A) (indices : list nat)
      (g : nat -> A) :
  Forall (fun i => nth_error params i = Some (g i)) indices ->
  gather params indices = Some (map g indices).
Proof. intros H. unfold gather. now apply all_some_map. Qed.

Lemma column_of_column_matrix (w0 : list R) :
  Dense.column 0 (column_matrix w0) = w0.
Proof.
  unfold Dense.column, column_matrix. rewrite map_map. simpl.
  apply map_id.
Qed.

Lemma clf_single_logit (n_embd : nat) (g : list (list R)) (w0 : list R)
      (b0 : R) :
  Forall (fun v => List.length v = n_embd) g -> List.length w0 = n_embd ->
  clf n_embd 1 g (column_matrix w0) [b0]
  = Py.ok (map (fun v => [Head.dot v w0 + b0]) g).
Proof.
  intros Hg Hw. unfold clf.
  assert (H1 : Dense.all_length n_embd g = true).
  { unfold Dense.all_length. apply forallb_forall. intros v Hv.
    rewrite Forall_forall in Hg. apply Nat.eqb_eq. now apply Hg. }
  assert (H2 : Dense.all_length 1 (column_matrix w0) = true).
  { unfold Dense.all_length, column_matrix. apply forallb_forall.
    intros r Hr. apply in_map_iff in Hr. now destruct Hr as (v & <- & _). }
  rewrite H1, H2. unfold column_matrix at 1. rewrite length_map, Hw.
  rewrite Nat.eqb_refl. simpl andb. cbv iota. f_equal.
  unfold Dense.matmul. rewrite map_map. apply map_ext. intros v.
  simpl. now rewrite column_of_column_matrix.
Qed.

(** In evaluation mode, for an even number of sequences of [n_ctx > 0]
    slots with hidden states of width [n_embd], the head returns one row
    of two logits per example: logit [c] of example [e] is the affine
    score of the hidden state of sequence [2e + c] at the position that
    [pool_idx] finds in its token row. *)
Theorem clf_logits_at_pool_idx
        (tf_dropout : R -> list (list (list R)) -> list (list (list R)))
        (cfg : Data.config) (n_ctx n_embd n_examples : nat) (clf_pdrop : R)
        (X : list (list (Z * Z))) (h : list (list (list R)))
        (w0 : list R) (b0 : R) :
  (0 < n_ctx)%nat ->
  List.length X = (n_examples * 2)%nat ->
  List.length h = (n_examples * 2)%nat ->
  Forall (fun xrow => List.length xrow = n_ctx) X ->
  Heads.rank3 n_ctx n_embd h ->
  List.length w0 = n_embd ->
  exists lg,
    clf_logits tf_dropout cfg n_ctx n_embd clf_pdrop X h
               (column_matrix w0) [b0] false = Some lg /\
    List.length lg = n_examples /\
    forall e c, (e < n_examples)%nat -> (c < 2)%nat ->
      nth c (nth e lg []) 0
      = Head.dot (nth (Pool.pool_idx cfg (nth (e * 2 + c) X []))
                      (nth (e * 2 + c) h []) [])
                 w0 + b0.
Proof.
  intros Hn HX Hh HXrows Hrank Hw.
  set (state := fun (i : nat) (xrow : list (Z * Z)) =>
                  nth (Pool.pool_idx cfg xrow) (nth i h []) []).
  set (g := Py.map2 state (seq 0 (List.length X)) X).
  assert (Hlen_g : List.length g = (n_examples * 2)%nat).
  { unfold g. rewrite map2_length, length_seq. lia. }
  assert (Hrows : Forall (fun e => List.length e = n_ctx) h).
  { eapply Forall_impl; [|exact Hrank]. now intros e [He _]. }
  assert (Hpool : forall i, (i < List.length X)%nat ->
             (Pool.pool_idx cfg (nth i X []) < n_ctx)%nat).
  { intros i Hi. rewrite Forall_forall in HXrows.
    pose proof (HXrows _ (nth_In X [] Hi)) as Hl.
    rewrite <- Hl. apply pool_idx_lt. intros E. rewrite E in Hl. simpl in Hl. lia. }
  assert (Hstate : forall i, (i < List.length X)%nat ->
             nth i g [] = state i (nth i X []) /\
             List.length (nth i g []) = n_embd).
  { intros i Hi. unfold g.
    rewrite (map2_indexed_nth state X [] [] Hi). split; [reflexivity|].
    unfold state. unfold Heads.rank3 in Hrank. rewrite Forall_forall in Hrank.
    assert (Hih : (i < List.length h)%nat) by lia.
    destruct (Hrank _ (nth_In h [] Hih)) as [Hl Hv].
    rewrite Forall_forall in Hv. apply Hv. apply nth_In.
    rewrite Hl. now apply Hpool. }
  assert (Hwide : Forall (fun v => List.length v = n_embd) g).
  { apply Forall_forall. intros v Hv.
    destruct (In_nth _ _ [] Hv) as (i & Hi & <-).
    apply Hstate. lia. }
  assert (Hgather :
            gather (concat h)
                   (Py.map2 (fun i p => (i * n_ctx + p)%nat)
                            (seq 0 (List.length X))
                            (map (Pool.pool_idx cfg) X))
            = Some g).
  { unfold gather, g.
    assert (Hgen : forall (l : list (list (Z * Z))) (s : nat),
               (s + List.length l <= List.length X)%nat ->
               (forall k, (k < List.length l)%nat -> nth k l [] = nth (s + k) X []) ->
               Embed.all_some
                 (map (nth_error (concat h))
                      (Py.map2 (fun i p => (i * n_ctx + p)%nat)
                               (seq s (List.length l))
                               (map (Pool.pool_idx cfg) l)))
               = Some (Py.map2 state (seq s (List.length l)) l)).
    { induction l as [|xrow l IH]; intros s Hs Hnth; [reflexivity|].
      simpl.
      assert (Hx : xrow = nth s X []).
      { specialize (Hnth 0%nat). simpl in Hnth.
        rewrite Nat.add_0_r in Hnth. apply Hnth. lia. }
      assert (Hp : (Pool.pool_idx cfg xrow < n_ctx)%nat).
      { rewrite Hx. apply Hpool. simpl in Hs. lia. }
      rewrite (nth_error_concat_uniform s Hrows Hp).
      assert (Hsh : (s < List.length h)%nat) by (simpl in Hs; lia).
      pose proof (Forall_forall (fun e => List.length e = n_ctx) h) as [F _].
      pose proof (F Hrows _ (nth_In h [] Hsh)) as Hl.
      rewrite (nth_error_nth' _ [] (n := Pool.pool_idx cfg xrow))
        by (rewrite Hl; exact Hp).
      rewrite IH; [reflexivity | simpl in Hs; lia |].
      intros k Hk. specialize (Hnth (S k)). simpl in Hnth.
      rewrite Hnth by lia. f_equal. lia. }
    apply (Hgen X 0%nat); [lia | reflexivity]. }
  set (flat := map (fun v => Head.dot v w0 + b0) g).
  assert (Hflat : concat (map (fun v => [Head.dot v w0 + b0]) g) = flat).
  { unfold flat. clear. induction g as [|v g IH]; simpl; [reflexivity|].
    now rewrite IH. }
  assert (Hdiv : (n_examples * 2 / 2 = n_examples)%nat)
    by (apply Nat.div_mul; lia).
  exists (Head.chunks n_examples 2 flat). split; [|split].
  - unfold clf_logits. rewrite Hgather. unfold and_then at 1.
    rewrite Hlen_g, Hdiv. unfold Head.reshape2 at 1.
    rewrite Hlen_g, Nat.eqb_refl. unfold attempt at 1, Py.ok, and_then at 1.
    rewrite concat_chunks by exact Hlen_g.
    rewrite (@clf_single_logit n_embd g w0 b0 Hwide Hw).
    unfold attempt at 1, Py.ok, and_then. rewrite Hflat.
    assert (Hlf : List.length flat = (n_examples * 2)%nat).
    { unfold flat. now rewrite length_map. }
    rewrite Hlf, Hdiv. unfold Head.reshape2. rewrite Hlf, Nat.eqb_refl.
    reflexivity.
  - apply chunks_length.
  - intros e c He Hc. rewrite nth_chunks by assumption.
    assert (Hi : (e * 2 + c < List.length X)%nat) by lia.
    unfold flat.
    change (Head.dot (nth (Pool.pool_idx cfg (nth (e * 2 + c) X []))
                          (nth (e * 2 + c) h []) []) w0 + b0)
      with ((fun v => Head.dot v w0 + b0) (state (e * 2 + c)%nat
                                                (nth (e * 2 + c) X []))).
    rewrite <- (proj1 (Hstate _ Hi)).
    rewrite (nth_indep _ 0 ((fun v => Head.dot v w0 + b0) []))
      by (rewrite length_map; lia).
    exact (map_nth (fun v => Head.dot v w0 + b0) g [] (e * 2 + c)).
Qed.

(** The classification loss of an example with logits [a] and [b] is
    [ln (1 + exp (-m))] for the margin [m] of the labelled logit over the
    other one; it is never negative, and it is at most [ln 2] when the
    labelled logit is not the smaller one. *)
Theorem clf_loss_margin (a b : R) :
  clf_losses [[a; b]] [0%nat] = [ln (1 + exp (b - a))] /\
  clf_losses [[a; b]] [1%nat] = [ln (1 + exp (a - b))] /\
  0 <= ln (1 + exp (b - a)) /\
  (b <= a -> ln (1 + exp (b - a)) <= ln 2).
Proof.
  assert (Hce : forall u v,
             - ln (exp u / (exp u + (exp v + 0))) = ln (1 + exp (v - u))).
  { intros u v. pose proof (exp_pos u) as Hu. pose proof (exp_pos v) as Hv.
    rewrite <- ln_Rinv by (apply Rdiv_lt_0_compat; lra).
    f_equal. unfold Rminus. rewrite exp_plus, exp_Ropp. field. lra. }
  assert (Hmono : forall x y, 0 < x -> x <= y -> ln x <= ln y).
  { intros x y Hx [Hlt | ->]; [|lra]. apply Rlt_le. now apply ln_increasing. }
  pose proof (exp_pos (b - a)) as Hp.
  split; [|split; [|split]].
  - unfold clf_losses, Head.cross_entropy, Kernels.softmax_row; simpl.
    now rewrite Hce.
  - unfold clf_losses, Head.cross_entropy, Kernels.softmax_row; simpl.
    f_equal. rewrite <- (Hce b a). do 3 f_equal. lra.
  - rewrite <- ln_1. apply Hmono; lra.
  - intros H. apply Hmono; [lra|].
    assert (He : exp (b - a) <= exp 0).
    { destruct H as [H | ->].
      - apply Rlt_le, exp_increasing. lra.
      - replace (a - a) with 0 by ring. lra. }
    rewrite exp_0 in He. lra.
Qed.

End ClassifierFacts.


(** ** The whole model is built, with the expected output shapes *)

Section GraphFacts.
Import Shape Graph.
Local Open Scope Z_scope.

Ltac run H := rewrite H; cbn [Py.bind Py.ok].

Lemma prod_positive (s : shape) : Forall (fun d => 0 < d) s -> 0 < prod s.
Proof.
  induction 1 as [|d s Hd _ IH]; cbn [prod fold_right]; [lia|].
  fold (prod s). nia.
Qed.

(** A reshape whose first entry is inferred. *)
Lemma reshape_infer (s rest : shape) :
  Forall (fun d => 0 < d) rest -> prod s mod prod rest = 0 ->
  tf_reshape s (-1 :: rest) = Py.ok (prod s / prod rest :: rest).
Proof.
  intros Hpos Hdiv. unfold tf_reshape.
  assert (E1 : existsb (fun d => d <? -1) rest = false).
  { clear Hdiv. induction Hpos as [|d r Hd _ IH]; cbn [existsb]; [reflexivity|].
    rewrite IH. destruct (Z.ltb_spec d (-1)); [lia|reflexivity]. }
  assert (E2 : filter (Z.eqb (-1)) rest = []).
  { clear Hdiv E1. induction Hpos as [|d r Hd _ IH]; cbn [filter]; [reflexivity|].
    rewrite IH. destruct (Z.eqb_spec (-1) d); [lia|reflexivity]. }
  assert (E3 : filter (fun d => negb (d =? -1)) rest = rest).
  { clear Hdiv E1 E2. induction Hpos as [|d r Hd _ IH]; cbn [filter]; [reflexivity|].
    rewrite IH. destruct (Z.eqb_spec d (-1)); [lia|reflexivity]. }
  assert (E4 : forall q, map (fun d => if d =? -1 then q else d) rest = rest).
  { clear Hdiv E1 E2 E3. intros q.
    induction Hpos as [|d r Hd _ IH]; cbn [map]; [reflexivity|].
    rewrite IH. destruct (Z.eqb_spec d (-1)); [lia|reflexivity]. }
  cbn [existsb filter map]. change (-1 <? -1) with false.
  change (-1 =? -1) with true. cbn [orb negb].
  rewrite E1, E2, E3. cbn [List.length].
  pose proof (prod_positive Hpos) as Hp.
  replace (prod rest =? 0) with false by (symmetry; apply Z.eqb_neq; lia).
  rewrite Hdiv. cbn [Z.eqb negb orb]. now rewrite E4.
Qed.

(** The same, with the inferred entry named. *)
Lemma reshape_lead (lead : Z) (s rest : shape) :
  Forall (fun d => 0 < d) rest -> prod s = lead * prod rest ->
  tf_reshape s (-1 :: rest) = Py.ok (lead :: rest).
Proof.
  intros Hpos Hprod. pose proof (prod_positive Hpos) as Hp.
  rewrite reshape_infer by (try assumption; rewrite Hprod; apply Z.mod_mul; lia).
  now rewrite Hprod, Z.div_mul by lia.
Qed.

Lemma blocks_rank3 (cfg : params) (layers : nat) (b t d : Z) (train : bool) :
  0 < b -> 0 < t -> 0 < n_head cfg -> 0 < d ->
  (train = true -> (attn_pdrop cfg < 1)%Q /\ (resid_pdrop cfg < 1)%Q) ->
  (afn cfg = "relu" \/ afn cfg = "swish" \/ afn cfg = "gelu")%string ->
  blocks cfg layers [b; t; n_head cfg * d] train
  = Py.ok [b; t; n_head cfg * d].
Proof.
  intros Hb Ht Hh Hd Hrate Hafn.
  induction layers as [|layers IH]; [reflexivity|].
  cbn [blocks]. run (@block_rank3 cfg b t d train Hb Ht Hh Hd Hrate Hafn).
  exact IH.
Qed.

Lemma sparse_xent_ok (lead : shape) (c : Z) :
  sparse_xent (lead ++ [c]) lead = Py.ok lead.
Proof.
  unfold sparse_xent. rewrite rev_app_distr. cbn [rev app].
  now rewrite rev_involutive, shape_eqb_refl.
Qed.

(** For a buildable configuration and the arrays of [b > 0] examples,
    [model] is built whatever the number of layers, with classification
    logits of shape [[b; 2]], one classification loss per example and
    one language-model loss per candidate sequence. *)
Theorem model_shapes (hp : hparams) (b : Z) (train : bool) :
  0 < b -> buildable hp train ->
  model hp [b; 2; n_ctx hp; 2] [b; 2; n_ctx hp] [b] train
  = Py.ok ([b; 2], [b], [b * 2]).
Proof.
  intros Hb (Hrows & Ht & Hh & He & Hdiv & Hafn & Hrate).
  set (t := n_ctx hp) in *. set (e := n_embd hp) in *.
  set (cfg := block_params hp) in *.
  assert (Hed : e = n_head cfg * (e / n_head cfg)).
  { pose proof (Z.div_mod e (n_head cfg) ltac:(lia)) as E. lia. }
  assert (Hd : 0 < e / n_head cfg).
  { apply Z.div_str_pos. split; [lia|].
    apply Z.divide_pos_le; [lia|]. apply Z.mod_divide; [lia|exact Hdiv]. }
  unfold model. fold t e cfg.
  run (@dropout_ok [n_vocab hp + n_special hp + t; e] (embd_pdrop hp) train
         (fun E => proj1 (Hrate E))).
  (* X and M *)
  rewrite (@reshape_lead (b * 2) [b; 2; t; 2] [t; 2])
    by (try (repeat constructor; lia); cbn [prod fold_right]; ring).
  cbn [Py.bind Py.ok].
  rewrite (@reshape_lead (b * 2) [b; 2; t] [t])
    by (try (repeat constructor; lia); cbn [prod fold_right]; ring).
  cbn [Py.bind Py.ok].
  set (s := b * 2) in *.
  assert (Hs : 0 < s) by (unfold s; lia).
  (* embed and the blocks *)
  unfold embed, tf_gather, reduce_axis.
  cbn [Py.bind Py.ok app List.length Nat.ltb Nat.leb firstn skipn].
  rewrite Hed at 1.
  run (@blocks_rank3 cfg (Z.to_nat (n_layer hp)) s t (e / n_head cfg) train
         Hs Ht Hh Hd (fun E => proj2 (proj2 (Hrate E))) Hafn).
  rewrite <- Hed.
  (* the language-model head *)
  unfold drop_one. cbn [Py.bind Py.ok].
  replace (Z.max 0 (t - 1)) with (t - 1) by lia.
  rewrite (@reshape_lead (s * (t - 1)) [s; t - 1; e] [e])
    by (try (repeat constructor; lia); cbn [prod fold_right]; ring).
  cbn [Py.bind Py.ok].
  unfold matmul_transpose_b.
  run (matmul_2d (s * (t - 1)) e (n_vocab hp + n_special hp + t)).
  unfold first_of_axis2. change (0 <? 2) with true. cbn [Py.bind Py.ok].
  rewrite (@reshape_lead (s * (t - 1)) [s; t - 1] [])
    by (try (repeat constructor; lia); cbn [prod fold_right]; ring).
  cbn [Py.bind Py.ok].
  run (sparse_xent_ok [s * (t - 1)] (n_vocab hp + n_special hp + t)
       : sparse_xent [s * (t - 1); n_vocab hp + n_special hp + t]
                     [s * (t - 1)] = _).
  cbn [nth].
  rewrite (@reshape_exact [s * (t - 1)] [s; t - 1])
    by (try (repeat constructor; lia); cbn [prod fold_right]; ring).
  cbn [Py.bind Py.ok].
  run (broadcast_same [s; t - 1]).
  cbn [Py.bind Py.ok app List.length Nat.ltb Nat.leb firstn skipn].
  run (broadcast_same [s]).
  (* the classification head *)
  rewrite (@reshape_lead (s * t) [s; t; e] [e])
    by (try (repeat constructor; lia); cbn [prod fold_right]; ring).
  cbn [Py.bind Py.ok app List.length Nat.ltb Nat.leb firstn skipn].
  rewrite (@reshape_lead b [s; e] [2; e])
    by (try (repeat constructor; lia); unfold s; cbn [prod fold_right]; ring).
  cbn [Py.bind Py.ok].
  run (@dropout_ok [b; 2; e] (clf_pdrop hp) train
         (fun E => proj1 (proj2 (Hrate E)))).
  rewrite (@reshape_lead s [b; 2; e] [e])
    by (try (repeat constructor; lia); unfold s; cbn [prod fold_right]; ring).
  cbn [Py.bind Py.ok].
  unfold clf. change (last_dim [s; e]) with (Py.ok e). cbn [Py.bind Py.ok].
  run (matmul_2d s e 1). run (broadcast_bias s 1).
  rewrite (@reshape_lead b [s; 1] [2])
    by (try (repeat constructor; lia); unfold s; cbn [prod fold_right]; ring).
  cbn [Py.bind Py.ok].
  run (sparse_xent_ok [b] 2 : sparse_xent [b; 2] [b] = _).
  reflexivity.
Qed.

(** Without a head count that divides the width, no model with at least
    one layer is built. *)
Lemma model_needs_divisible_width (hp : hparams) (b : Z) (train : bool) :
  0 < b -> 0 < n_ctx hp -> 0 < n_embd hp ->
  (train = true -> (embd_pdrop hp < 1)%Q) ->
  (0 < n_layer hp) ->
  n_embd hp mod n_head (block_params hp) <> 0 ->
  Py.raises (model hp [b; 2; n_ctx hp; 2] [b; 2; n_ctx hp] [b] train).
Proof.
  intros Hb Ht He Hrate Hl Hdiv.
  set (t := n_ctx hp) in *. set (e := n_embd hp) in *.
  unfold model. fold t e.
  run (@dropout_ok [n_vocab hp + n_special hp + t; e] (embd_pdrop hp) train
         Hrate).
  rewrite (@reshape_lead (b * 2) [b; 2; t; 2] [t; 2])
    by (try (repeat constructor; lia); cbn [prod fold_right]; ring).
  cbn [Py.bind Py.ok].
  rewrite (@reshape_lead (b * 2) [b; 2; t] [t])
    by (try (repeat constructor; lia); cbn [prod fold_right]; ring).
  cbn [Py.bind Py.ok].
  unfold embed, tf_gather, reduce_axis.
  cbn [Py.bind Py.ok app List.length Nat.ltb Nat.leb firstn skipn].
  destruct (Z.to_nat (n_layer hp)) as [|layers] eqn:El; [lia|].
  cbn [blocks]. unfold block.
  change (last_dim [b * 2; t; e]) with (Py.ok e). cbn [Py.bind Py.ok].
  destruct (@attn_fails_fast (block_params hp) [b * 2; t; e] e
              (n_head (block_params hp)) train (or_introl Hdiv)) as [err ->].
  eexists. reflexivity.
Qed.

End GraphFacts.


(** ** The submission file has one valid row per test example *)

Section SubmissionFacts.
Import Submission.
Variable Input : Type.
Variable n_batch_train : nat.
Variable mgpu_logits : list Input -> list (list Q).
Variable single_logits : list Input -> list (list Q).

Local Abbreviation logits :=
  (Metrics.logits n_batch_train mgpu_logits single_logits).
Local Abbreviation predict :=
  (predict n_batch_train mgpu_logits single_logits).

Lemma concat_logits_rows (batches : list (list Input)) :
  Forall (fun mb => List.length (logits mb) = List.length mb /\
                    Forall (fun row => List.length row = 2%nat) (logits mb))
         batches ->
  List.length (concat (map logits batches)) = List.length (concat batches) /\
  Forall (fun row => List.length row = 2%nat) (concat (map logits batches)).
Proof.
  induction 1 as [|mb batches (Hl & Hr) _ (IHl & IHr)]; simpl.
  - split; [reflexivity|constructor].
  - rewrite !length_app, Hl, IHl. split; [reflexivity|].
    apply Forall_app. split; assumption.
Qed.

(** For the data set [rocstories], with test minibatches on which the
    graphs return one row of two logits per example, [predict] writes
    one row per test example, numbered from 0 in the order of the
    examples, and every prediction is 0 or 1; any other data set name
    raises [KeyError]. *)
Theorem predict_rows (dataset : string) (te_batches : list (list Input)) :
  te_batches <> [] ->
  Forall (fun mb => List.length (logits mb) = List.length mb /\
                    Forall (fun row => List.length row = 2%nat) (logits mb))
         te_batches ->
  (dataset <> "rocstories"%string ->
   predict dataset te_batches = Py.raise Py.KeyError) /\
  exists rows,
    predict "rocstories" te_batches = Py.ok rows /\
    List.length rows = List.length (concat te_batches) /\
    forall i, (i < List.length rows)%nat ->
      fst (nth i rows (0, 0)%nat) = i /\
      (snd (nth i rows (0, 0)%nat) < 2)%nat /\
      snd (nth i rows (0, 0)%nat)
      = Eval.argmax_row (nth i (concat (map logits te_batches)) []).
Proof.
  intros Hne Hall. split.
  { intros Hd. unfold Submission.predict, pred_fns.
    apply String.eqb_neq in Hd. now rewrite Hd. }
  destruct (concat_logits_rows Hall) as [Hlen Hrows].
  set (L := concat (map logits te_batches)) in *.
  exists (combine (seq 0 (List.length (Eval.argmax L))) (Eval.argmax L)).
  assert (Hla : List.length (Eval.argmax L) = List.length L)
    by (unfold Eval.argmax; apply length_map).
  split; [|split].
  - unfold Submission.predict, pred_fns, Metrics.iter_predict. simpl String.eqb.
    cbn [Py.bind Py.ok]. destruct te_batches; [contradiction|reflexivity].
  - rewrite length_combine, length_seq, Hla. lia.
  - intros i Hi. rewrite length_combine, length_seq, Hla in Hi.
    rewrite combine_nth by (rewrite length_seq; reflexivity).
    cbn [fst snd]. rewrite seq_nth by lia.
    unfold Eval.argmax.
    rewrite (nth_indep _ 0%nat (Eval.argmax_row [])) by (rewrite length_map; lia).
    rewrite (map_nth Eval.argmax_row L [] i).
    split; [reflexivity|]. split; [|reflexivity].
    rewrite Forall_forall in Hrows.
    assert (Hin : In (nth i L []) L) by (apply nth_In; lia).
    rewrite <- (Hrows _ Hin). apply argmax_row_lt.
    intros E. specialize (Hrows _ Hin). rewrite E in Hrows. discriminate.
Qed.

End SubmissionFacts.

(** ** Examples of the properties above on concrete inputs *)

(** [swish] on a vector with a negative entry. *)
Lemma act_fns_between_witness :
  List.length (Act.swish [1; -2]%R) = 2%nat /\
  Act.between_zero_and (-2)%R (nth 1 (Act.swish [1; -2]%R) 0%R).
Proof.
  exact (@act_fns_between "swish" Act.swish [1; -2]%R 1 eq_refl).
Defined.

(** [gelu] at 2 and at its opposite. *)
Lemma act_fns_odd_part_witness :
  (nth 0 (Kernels.gelu [2]) 0 - nth 0 (Kernels.gelu [Ropp 2]) 0 = 2)%R.
Proof.
  exact (@act_fns_odd_part "gelu" Kernels.gelu 2%R eq_refl).
Defined.

(** A slice of two entries through a freshly initialised [norm]. *)
Lemma norm_initial_standardises_witness :
  [1; 3]%R <> [] /\
  Kernels.Rsum (Norm.norm [1; 3]%R (Norm.constant_initializer 1 2)
                          (Norm.constant_initializer 0 2)) = 0%R.
Proof.
  assert (H : [1; 3]%R <> []) by discriminate.
  split; [exact H|].
  destruct (norm_initial_standardises H) as (_ & Hs & _). exact Hs.
Defined.

(** One position of width two, split into two heads and merged again. *)
Lemma merge_heads_split_heads_witness :
  Heads.rank3 1 (2 * 1) [[[1; 2]]]%R /\
  exists y,
    Heads.split_heads (2 * 1) 2 false [[[1; 2]]]%R = Py.ok y /\
    Heads.merge_heads 1 y = [[[1; 2]]]%R.
Proof.
  assert (H : Heads.rank3 1 (2 * 1) [[[1; 2]]]%R).
  { repeat constructor. }
  split; [exact H|].
  destruct (@merge_heads_split_heads 1 2 1 [[[1; 2]]]%R
              ltac:(discriminate) ltac:(discriminate) H)
    as (y & Hy & _ & _ & Hm).
  exists y. split; assumption.
Defined.

(** The doubling sublayer with [relu] on one position. *)
Lemma mlp_position_wise_witness :
  Dense.mlp Samples.keep_all "relu" 0.1%R Samples.doubling 1 1 1 [[[3%R]]] false
  = Py.ok (map (map (fun v =>
                       Dense.affine 1 [[[2%R]]] [0%R]
                         (Act.relu (Dense.affine 1 [[[2%R]]] [0%R] v))))
               [[[3%R]]]).
Proof.
  apply (@mlp_position_wise Samples.keep_all "relu" Act.relu 0.1%R
           Samples.doubling 1 1 1 [[[3%R]]] eq_refl);
    repeat constructor.
Defined.

(** One head, one position: the output is the value itself. *)
Lemma attn_weighted_average_witness :
  (5 <= Kernels.entry (nth 0 (Dense._attn 1 1 true [[[1]]] [[[1]]] [[[5]]]) [])
                      0 0 <= 5)%R.
Proof.
  assert (H : Forall (fun v => 5 <= v <= 5)%R
                     (Dense.column 0 (nth 0 [[[5%R]]] []))).
  { simpl. repeat constructor; lra. }
  destruct (@attn_weighted_average 1 1 true [[[1%R]]] [[[1%R]]] [[[5%R]]]
              0 0 0 5%R 5%R ltac:(simpl; lia) ltac:(simpl; lia)
              ltac:(simpl; lia) eq_refl eq_refl ltac:(lia) ltac:(lia) H)
    as (_ & _ & _ & _ & Hb).
  exact Hb.
Defined.

Lemma roc_example_at :
  Pool.example_at [[1; 2; 3]%Z] [[4]%Z] [[5; 6]%Z] Samples.roc_arrays 0
                  [1; 2; 3]%Z [4]%Z [5; 6]%Z Samples.roc_rows Samples.roc_masks.
Proof. repeat split. Defined.

Lemma roc_encoded :
  Pool.encoded 10 [1; 2; 3]%Z /\ Pool.encoded 10 [4]%Z /\
  Pool.encoded 10 [5; 6]%Z.
Proof. repeat split; repeat constructor; lia. Defined.

(** The example of eight slots: every id is a row of the table. *)
Lemma transform_roc_gatherable_witness :
  Forall (Pool.gatherable (Pool.layout 8 2 10)) (fst Samples.roc_rows) /\
  Forall (Pool.gatherable (Pool.layout 8 2 10)) (snd Samples.roc_rows).
Proof.
  destruct roc_encoded as (E1 & E2 & E3).
  exact (@transform_roc_gatherable 8 2 10 [[1; 2; 3]%Z] [[4]%Z] [[5; 6]%Z]
           Samples.roc_arrays 0 [1; 2; 3]%Z [4]%Z [5; 6]%Z
           Samples.roc_rows Samples.roc_masks
           ltac:(lia) eq_refl roc_example_at E1 E2 E3).
Defined.

(** The example of eight slots: the head pools at slots 5 and 6. *)
Lemma pool_idx_last_token_witness :
  Pool.pool_idx (Pool.layout 8 2 10) (fst Samples.roc_rows) = 5%nat /\
  Pool.pool_idx (Pool.layout 8 2 10) (snd Samples.roc_rows) = 6%nat.
Proof.
  destruct roc_encoded as (E1 & E2 & E3).
  destruct (@pool_idx_last_token 8 2 10 [[1; 2; 3]%Z] [[4]%Z] [[5; 6]%Z]
              Samples.roc_arrays 0 [1; 2; 3]%Z [4]%Z [5; 6]%Z
              Samples.roc_rows Samples.roc_masks
              ltac:(lia) eq_refl roc_example_at E1 E2 E3)
    as ((H2 & _) & (H3 & _)).
  split; [exact H2 | exact H3].
Defined.

(** The example of eight slots: the denominators are 5 and 6. *)
Lemma lm_denominator_positive_witness :
  (0 < Eval.Qsum (Py.slice_from1 (fst Samples.roc_masks)))%Q /\
  (0 < Eval.Qsum (Py.slice_from1 (snd Samples.roc_masks)))%Q.
Proof.
  destruct (@lm_denominator_positive (Pool.layout 8 2 10)
              [[1; 2; 3]%Z] [[4]%Z] [[5; 6]%Z]
              Samples.roc_arrays 0 [1; 2; 3]%Z [4]%Z [5; 6]%Z
              Samples.roc_rows Samples.roc_masks eq_refl roc_example_at)
    as ((_ & H2) & (_ & H3)).
  split; [exact H2 | exact H3].
Defined.

(** The run of five epochs of one update each. *)
Lemma train_counters_witness :
  exists st,
    Trainer.train Examples.count_updates Examples.spec_accuracies
                  Examples.five_epochs (Trainer.init 0%nat tt None)
    = Py.ok st /\
    Trainer.n_updates st = 5%Z /\ Trainer.n_epochs st = 5%Z.
Proof.
  assert (H : exists st,
             Trainer.train Examples.count_updates Examples.spec_accuracies
                           Examples.five_epochs (Trainer.init 0%nat tt None)
             = Py.ok st).
  { eexists. vm_compute. reflexivity. }
  destruct H as [st H]. exists st. split; [exact H|].
  exact (@train_counters nat unit unit Examples.count_updates
           Examples.spec_accuracies 0%nat tt None Examples.five_epochs
           st H).
Defined.

(** A second epoch of two updates writes exactly one record. *)
Lemma later_epoch_logs_once_witness :
  exists e,
    Trainer.logger (Trainer.epoch Examples.count_updates
                                  Examples.spec_accuracies
                                  Samples.after_one_epoch [tt; tt])
    = [e] /\
    Trainer.at_epochs e = 2%Z /\ Trainer.at_updates e = 7%Z.
Proof.
  destruct (@later_epoch_logs_once nat unit unit Examples.count_updates
              Examples.spec_accuracies Samples.after_one_epoch [tt; tt]
              ltac:(discriminate))
    as (e & Hl & He & Hu & _).
  exists e. repeat split; assumption.
Defined.

(** One training example of lengths 3, 1 and 2 in a configured context
    of eight slots: the context shrinks to the seven tokens of the longer
    sequence. *)
Lemma data_prep_context_tight_witness :
  Data.data_prep 8 10 Samples.roc_tr Samples.roc_none Samples.roc_none
  = Py.ok (Pool.layout 7 2 10, Samples.roc_arrays7, Samples.no_arrays,
           Samples.no_arrays) /\
  exists x,
    In x (Prep.examples Samples.roc_tr ++ Prep.examples Samples.roc_none
          ++ Prep.examples Samples.roc_none) /\
    Prep.longest (Pool.layout 7 2 10) x = 7%Z.
Proof.
  assert (H : Data.data_prep 8 10 Samples.roc_tr Samples.roc_none
                             Samples.roc_none
              = Py.ok (Pool.layout 7 2 10, Samples.roc_arrays7,
                       Samples.no_arrays, Samples.no_arrays))
    by reflexivity.
  split; [exact H|].
  exact (proj2 (@data_prep_context_tight 8 10 Samples.roc_tr Samples.roc_none
                  Samples.roc_none _ _ _ _ ltac:(lia) H)).
Defined.

Lemma sample_batched :
  Metrics.batched 2 Samples.two_logits32 Samples.two_logits32
                  Samples.half_losses Samples.half_losses
                  [[(0%Z, 0%nat); (5%Z, 1%nat)]; [(3%Z, 0%nat)]]
                  [0; 1; 0]%nat.
Proof.
  split; [discriminate|]. split; [|reflexivity].
  repeat constructor.
Defined.

(** Three examples in batches of two and one: the logged costs are the
    mean of the three losses, one half. *)
Lemma log_metrics_exact_witness :
  exists tr_cost va_cost tr_acc va_acc,
    Metrics.log_metrics 2 Samples.two_logits32 Samples.two_logits32
                        Samples.half_losses Samples.half_losses
                        [[(0%Z, 0%nat); (5%Z, 1%nat)]; [(3%Z, 0%nat)]]
                        [[(0%Z, 0%nat); (5%Z, 1%nat)]; [(3%Z, 0%nat)]]
                        [0; 1; 0; 1]%nat [0; 1; 0]%nat 3
    = Py.ok (tr_cost, va_cost, tr_acc, va_acc) /\
    (va_cost == 1 # 2)%Q.
Proof.
  destruct (@log_metrics_exact Z 2 Samples.two_logits32 Samples.two_logits32
              Samples.half_losses Samples.half_losses
              [[(0%Z, 0%nat); (5%Z, 1%nat)]; [(3%Z, 0%nat)]]
              [[(0%Z, 0%nat); (5%Z, 1%nat)]; [(3%Z, 0%nat)]]
              [0; 1; 0; 1]%nat [0; 1; 0]%nat sample_batched sample_batched)
    as (a & b & c & d & Hrun & _ & Hva & _).
  exists a, b, c, d. split; [exact Hrun|].
  rewrite Hva. reflexivity.
Defined.


(** A table for two tokens and two slots. *)
Lemma merged_table_layout_witness :
  exists we,
    Embed.merge_embeddings Samples.any_width 2 Samples.named_special
                           Samples.named_arrays
    = Py.ok [we; [40%nat]] /\
    nth_error we (Z.to_nat (Data.clf_token (Pool.layout 2 0 2))) = Some 12%nat /\
    nth_error we (Z.to_nat (nth 1 (Data.positions (Pool.layout 2 0 2) 2) 0%Z))
    = Some 21%nat.
Proof.
  assert (H : Embed.merge_embeddings Samples.any_width 2 Samples.named_special
                                      Samples.named_arrays
              = Py.ok [[30; 31; 10; 11; 12; 20; 21]; [40]]%nat)
    by reflexivity.
  destruct (@merged_table_layout nat Samples.any_width 2 0 2
              Samples.named_special [20; 21; 22]%nat [30; 31]%nat [[40%nat]]
              _ H eq_refl eq_refl ltac:(split; [lia | discriminate]))
    as (we & Hout & _ & _ & _ & _ & Hclf & Hpos).
  exists we. split; [|split].
  - rewrite H. f_equal. exact Hout.
  - exact Hclf.
  - exact (Hpos 1%nat ltac:(simpl; lia)).
Defined.

Lemma sample_row_ok :
  Data.row_ok (Pool.layout 2 0 2) [2; 4]%Z [(2, 5); (4, 6)]%Z [1; 1]%Q.
Proof. repeat split. simpl. lia. Defined.

(** The same table with rows of one number: slot 1 holds the classify
    token and is embedded as its fresh row plus positional row 1. *)
Lemma embed_pretrained_rows_witness :
  exists we h,
    Embed.merge_embeddings (fun r => (List.length r =? 1)%nat) 2
                           Samples.real_special Samples.real_arrays
    = Py.ok [we; [[40%R]]] /\
    Embed.embed we [(2, 5); (4, 6)]%Z = Some h /\
    nth_error h 1 = Some (Kernels.t_add [12%R] [21%R]).
Proof.
  assert (H : Embed.merge_embeddings (fun r => (List.length r =? 1)%nat) 2
                                      Samples.real_special Samples.real_arrays
              = Py.ok [[[30]; [31]; [10]; [11]; [12]; [20]; [21]]; [[40]]]%R)
    by reflexivity.
  destruct (@embed_pretrained_rows 2 0 2 1 Samples.real_special
              [[20]; [21]; [22]]%R [[30]; [31]]%R [[[40%R]]] _
              [2; 4]%Z [(2, 5); (4, 6)]%Z [1; 1]%Q
              H eq_refl eq_refl ltac:(split; [lia | discriminate])
              ltac:(repeat constructor; lia) sample_row_ok)
    as (we & h & Hout & Hrun & _ & Hk).
  exists we, h. split; [|split].
  - rewrite H. f_equal. exact Hout.
  - exact Hrun.
  - exact (Hk 1%nat ltac:(simpl; lia)).
Defined.

(** One example of two one-slot candidates. *)
Lemma clf_logits_at_pool_idx_witness :
  exists lg,
    Classifier.clf_logits Samples.keep_all Examples.ctx8 1 1 0.1%R
                          Samples.one_slot_X Samples.one_slot_h
                          (Classifier.column_matrix [3%R]) [0%R] false
    = Some lg /\
    List.length lg = 1%nat.
Proof.
  destruct (@clf_logits_at_pool_idx Samples.keep_all Examples.ctx8 1 1 1 0.1%R
              Samples.one_slot_X Samples.one_slot_h [3%R] 0%R
              ltac:(lia) eq_refl eq_refl ltac:(repeat constructor)
              ltac:(repeat constructor) eq_refl)
    as (lg & Hrun & Hlen & _).
  exists lg. split; assumption.
Defined.

(** The default sizes with one batch of eight training examples. *)
Lemma model_shapes_witness :
  Graph.model Samples.hparams [8; 2; 77; 2]%Z [8; 2; 77]%Z [8]%Z true
  = Py.ok ([8; 2]%Z, [8]%Z, [8 * 2]%Z).
Proof.
  apply (@model_shapes Samples.hparams 8 true); [lia|].
  unfold Graph.buildable. simpl.
  repeat split; try lia; try reflexivity. right; right; reflexivity.
Defined.

(** A split whose list of second endings is empty yields no example. *)
Lemma data_prep_no_examples_witness :
  Data.data_prep 8 10 ([[1; 2; 3]%Z], [[4]%Z], []) Samples.roc_none
                 Samples.roc_none
  = Py.raise Py.ValueError.
Proof.
  exact (@data_prep_no_examples 8 10 ([[1; 2; 3]%Z], [[4]%Z], [])
           Samples.roc_none Samples.roc_none eq_refl eq_refl eq_refl).
Defined.

(** Three test examples in batches of two and one. *)
Lemma predict_rows_witness :
  exists rows,
    Submission.predict 2 Samples.two_logits Samples.two_logits "rocstories"
                       [[0%Z; 5%Z]; [3%Z]] = Py.ok rows /\
    List.length rows = 3%nat.
Proof.
  destruct (@predict_rows Z 2 Samples.two_logits Samples.two_logits
              "rocstories" [[0%Z; 5%Z]; [3%Z]] ltac:(discriminate)
              ltac:(repeat constructor))
    as (_ & rows & Hrun & Hlen & _).
  exists rows. split; assumption.
Defined.

(** The labelled logit leads by one: the loss is [ln (1 + exp (-1))], at
    most [ln 2]. *)
Lemma clf_loss_margin_witness :
  Classifier.clf_losses [[1; 0]]%R [0%nat] = [ln (1 + exp (0 - 1))] /\
  (ln (1 + exp (0 - 1)) <= ln 2)%R.
Proof.
  destruct (clf_loss_margin 1 0) as (H0 & _ & _ & Hle).
  split; [exact H0|]. apply Hle. lra.
Defined.
